(** * tk2.api: customer, invoicing and journal-entry endpoints

    A shallow embedding of [tk2/api.py], whose functions are endpoints called
    through the Frappe framework, and the properties of its business rules.

    Python [float] is IEEE-754 binary64; it is modelled by Rocq's primitive
    floats, whose operations are the same binary64 operations with
    round-to-nearest-even.  Documents are records, tables of the record store
    are lists or finite maps, and every endpoint is a computation in a
    state-and-exception monad over the site (store, session and clock). *)

From Stdlib Require Import ZArith QArith Qpower Lia Bool List Ascii String Floats.
From stdpp Require Import base option list strings gmap.

Set Warnings "-inexact-float".
Local Open Scope Z_scope.

(** * Part I: the embedding *)

(** ** Binary64 numbers *)

(** Strictly negative, infinities included: what [d < 0] tests. *)
Definition sf_neg (f : spec_float) : bool :=
  match f with
  | S754_finite true _ _ | S754_infinity true => true
  | _ => false
  end.

(** Strictly positive, infinities included: what [d > 0] tests. *)
Definition sf_pos (f : spec_float) : bool :=
  match f with
  | S754_finite false _ _ | S754_infinity false => true
  | _ => false
  end.

Definition sf_signed (s : bool) (f : spec_float) : Prop :=
  f = S754_infinity s \/ exists m e, f = S754_finite s m e.

(** The mantissa of a float once aligned on a smaller exponent [ez]. *)
Definition aligned (m : positive) (e ez : Z) : Z := Zpos (fst (shl_align m e ez)).

Definition mag_compare (mx : positive) (ex : Z) (my : positive) (ey : Z) : comparison :=
  match ex ?= ey with
  | Lt => Lt
  | Gt => Gt
  | Eq => Pos.compare_cont Eq mx my
  end.

(** The rational number a float denotes; [None] for infinities and NaN. *)
Definition float_exact (f : float) : option Q :=
  match Prim2SF f with
  | S754_zero _ => Some 0%Q
  | S754_finite s m e => Some (inject_Z (cond_Zopp s (Zpos m)) * Qpower (2 # 1) e)%Q
  | _ => None
  end.


(** The denoted rational, with 0 standing for the values that denote none;
    meaningful on finite floats. *)
Definition float_value (f : float) : Q := default 0%Q (float_exact f).

(** ** Python values *)

(** [bool(x)] of a float: every float but the two zeros is true. *)
Definition float_truthy (f : float) : bool := negb (f =? 0)%float.

(** [bool(x)] of a string-valued field that may be [None]. *)
Definition str_truthy (s : option string) : bool :=
  match s with
  | Some s => negb (String.eqb s "")
  | None => false
  end.

(** [str.lower] on the ASCII letters.  Python also maps non-ASCII capitals;
    none of them lowers to a letter of ["comboex"], the one string the result
    is compared with. *)
Definition ascii_lower (c : ascii) : ascii :=
  let n := nat_of_ascii c in
  if (Nat.leb 65 n && Nat.leb n 90)%bool then ascii_of_nat (n + 32) else c.

Fixpoint lower (s : string) : string :=
  match s with
  | EmptyString => EmptyString
  | String c s' => String (ascii_lower c) (lower s')
  end.

(** The values an endpoint argument decoded from a request can take. *)
Inductive value : Type :=
| VNone
| VBool (b : bool)
| VInt (z : Z)
| VFloat (f : float)
| VStr (s : string).

(** [f == z] for a float and an integer: Python compares the exact values. *)
Definition float_eq_int (f : float) (z : Z) : bool :=
  match float_exact f with
  | Some q => Qeq_bool q (inject_Z z)
  | None => false
  end.

(** Python's [==]: [bool] is a subtype of [int], numbers compare by value,
    and values of unrelated types are unequal. *)
Definition py_eq (a b : value) : bool :=
  match a, b with
  | VNone, VNone => true
  | VBool x, VBool y => Bool.eqb x y
  | VBool x, VInt z | VInt z, VBool x => Z.eqb (Z.b2z x) z
  | VInt x, VInt y => Z.eqb x y
  | VFloat f, VBool x | VBool x, VFloat f => float_eq_int f (Z.b2z x)
  | VFloat f, VInt z | VInt z, VFloat f => float_eq_int f z
  | VFloat f, VFloat g => (f =? g)%float
  | VStr s, VStr t => String.eqb s t
  | _, _ => false
  end.

(** [x in l] *)
Definition py_in (x : value) (l : list value) : bool := existsb (py_eq x) l.

(** ** Exceptions and the endpoint monad *)

(** A message built by concatenation or an f-string: its literal pieces and
    the values formatted in between. *)
Inductive msg_part : Type :=
| Lit (s : string)
| Flt (f : float)
| Day (d : Z).

Inductive exn : Type :=
| ValidationError (msg : list msg_part)
| NameError (name : string)
| DoesNotExistError (doctype name : string)
| DuplicateEntryError (doctype name : string)
| DatabaseError (detail : string).

Inductive outcome (A : Type) : Type :=
| Return (a : A)
| Raise (e : exn).
Arguments Return {A} a.
Arguments Raise {A} e.

(** ** Documents

    Only the fields the endpoints read or stage.  A field that may hold
    [None] (or a key that may be absent from a [dict]) is an [option]. *)

Record PartyAccount : Type := {
  pa_account : string;
  pa_company : string
}.

Record Customer : Type := {
  customer_name : string;
  customer_group : string;
  territory : string;
  country : option string;
  default_currency : option string;
  email_id : option string;
  mobile_no : option string;
  accounts : list PartyAccount
}.

Record SheetItem : Type := {
  item_code : string;
  qty : float;
  rate : float
}.

Record ServiceSheet : Type := {
  erp_customer : option string;
  price : float;
  custom_agent : option string;
  item : list SheetItem
}.

Record InvoiceItem : Type := {
  ii_item_code : string;
  ii_qty : float;
  ii_rate : float
}.

Record SalesInvoice : Type := {
  si_company : string;
  si_customer : option string;
  si_posting_date : Z;
  si_set_posting_time : Z;
  si_custom_agent : option string;
  write_off_amount : float;
  base_write_off_amount : float;
  items : list InvoiceItem;
  apply_discount_on : option string;
  discount_amount : option float;
  additional_discount_percentage : option Z;
  si_docstatus : Z
}.

Record AgentPayment : Type := {
  bank : option string;
  commissions_deducted : option float;
  charges_deducted : option float;
  selected_total : option float;
  ap_date : option Z;
  ap_name : option string
}.

Record SelectedInvoice : Type := {
  outstanding_amount : option float;
  inv_customer : option string;
  inv_name : option string
}.

Record JournalLine : Type := {
  jl_account : option string;
  debit_in_account_currency : float;
  credit_in_account_currency : float;
  party_type : option string;
  party : option string;
  cost_center : option string;
  reference_type : option string;
  reference_name : option string
}.

Record JournalEntry : Type := {
  voucher_type : string;
  je_posting_date : Z;
  reference_no : option string;
  reference_date : Z;
  je_company : option string;
  je_accounts : list JournalLine;
  je_docstatus : Z
}.

Record CurrencyExchange : Type := {
  from_currency : string;
  to_currency : string;
  ce_date : Z;
  exchange_rate : float
}.

(** ** The site: record store, session and clock *)

(** The reads an endpoint issues against the store, in the order issued. *)
Inductive Query : Type :=
| Q_get_all (doctype field value : string)
| Q_get_doc (doctype name : string)
| Q_get_value (doctype : string) (name : option string) (fieldname : string)
| Q_exchange_rate (from_currency to_currency : string) (date : Z)
| Q_get_default (key : string).

(** Dates are day numbers.  [tabCustomer] lists its rows in the order in
    which an unordered [get_all] returns them; the other tables are keyed by
    document name.  [tabUser] keeps each user's [role_profile_name]. *)
Record Site : Type := {
  session_user : string;
  today : Z;
  tabCustomer : list (string * Customer);
  tabCustomer_Service_Sheet : gmap string ServiceSheet;
  tabSales_Invoice : gmap string SalesInvoice;
  tabJournal_Entry : gmap string JournalEntry;
  tabUser : gmap string string;
  tabCurrency_Exchange : list CurrencyExchange;
  tabAccount : gmap string string;
  tabCompany : gmap string string;
  default_cost_center : option string;
  db_reads : list Query
}.

Definition with_session_user (u : string) (s : Site) : Site :=
  {| session_user := u; today := today s; tabCustomer := tabCustomer s;
     tabCustomer_Service_Sheet := tabCustomer_Service_Sheet s;
     tabSales_Invoice := tabSales_Invoice s; tabJournal_Entry := tabJournal_Entry s;
     tabUser := tabUser s; tabCurrency_Exchange := tabCurrency_Exchange s;
     tabAccount := tabAccount s; tabCompany := tabCompany s;
     default_cost_center := default_cost_center s; db_reads := db_reads s |}.

Definition with_tabCustomer (t : list (string * Customer)) (s : Site) : Site :=
  {| session_user := session_user s; today := today s; tabCustomer := t;
     tabCustomer_Service_Sheet := tabCustomer_Service_Sheet s;
     tabSales_Invoice := tabSales_Invoice s; tabJournal_Entry := tabJournal_Entry s;
     tabUser := tabUser s; tabCurrency_Exchange := tabCurrency_Exchange s;
     tabAccount := tabAccount s; tabCompany := tabCompany s;
     default_cost_center := default_cost_center s; db_reads := db_reads s |}.

Definition with_tabSales_Invoice (t : gmap string SalesInvoice) (s : Site) : Site :=
  {| session_user := session_user s; today := today s; tabCustomer := tabCustomer s;
     tabCustomer_Service_Sheet := tabCustomer_Service_Sheet s;
     tabSales_Invoice := t; tabJournal_Entry := tabJournal_Entry s;
     tabUser := tabUser s; tabCurrency_Exchange := tabCurrency_Exchange s;
     tabAccount := tabAccount s; tabCompany := tabCompany s;
     default_cost_center := default_cost_center s; db_reads := db_reads s |}.

Definition with_tabJournal_Entry (t : gmap string JournalEntry) (s : Site) : Site :=
  {| session_user := session_user s; today := today s; tabCustomer := tabCustomer s;
     tabCustomer_Service_Sheet := tabCustomer_Service_Sheet s;
     tabSales_Invoice := tabSales_Invoice s; tabJournal_Entry := t;
     tabUser := tabUser s; tabCurrency_Exchange := tabCurrency_Exchange s;
     tabAccount := tabAccount s; tabCompany := tabCompany s;
     default_cost_center := default_cost_center s; db_reads := db_reads s |}.

Definition with_tabUser (t : gmap string string) (s : Site) : Site :=
  {| session_user := session_user s; today := today s; tabCustomer := tabCustomer s;
     tabCustomer_Service_Sheet := tabCustomer_Service_Sheet s;
     tabSales_Invoice := tabSales_Invoice s; tabJournal_Entry := tabJournal_Entry s;
     tabUser := t; tabCurrency_Exchange := tabCurrency_Exchange s;
     tabAccount := tabAccount s; tabCompany := tabCompany s;
     default_cost_center := default_cost_center s; db_reads := db_reads s |}.

Definition with_db_reads (l : list Query) (s : Site) : Site :=
  {| session_user := session_user s; today := today s; tabCustomer := tabCustomer s;
     tabCustomer_Service_Sheet := tabCustomer_Service_Sheet s;
     tabSales_Invoice := tabSales_Invoice s; tabJournal_Entry := tabJournal_Entry s;
     tabUser := tabUser s; tabCurrency_Exchange := tabCurrency_Exchange s;
     tabAccount := tabAccount s; tabCompany := tabCompany s;
     default_cost_center := default_cost_center s; db_reads := l |}.

(** An endpoint runs on a site and either returns or raises; the site it
    leaves behind is kept in both cases, as [finally] blocks need it. *)
Definition M (A : Type) : Type := Site -> outcome A * Site.

#[global] Instance M_ret : MRet M := fun A a s => (Return a, s).

#[global] Instance M_bind : MBind M := fun A B k m s =>
  match m s with
  | (Return a, s') => k a s'
  | (Raise e, s') => (Raise e, s')
  end.

Definition raise {A : Type} (e : exn) : M A := fun s => (Raise e, s).

Definition gets {A : Type} (f : Site -> A) : M A := fun s => (Return (f s), s).

Definition modify (f : Site -> Site) : M unit := fun s => (Return tt, f s).

(** [try: body finally: final] *)
Definition try_finally {A : Type} (body : M A) (final : M unit) : M A := fun s =>
  let '(r, s1) := body s in
  match final s1 with
  | (Return _, s2) => (r, s2)
  | (Raise e, s2) => (Raise e, s2)
  end.

(** ** The framework calls the endpoints make *)

(** [frappe.throw(msg)] *)
Definition frappe_throw {A : Type} (msg : list msg_part) : M A :=
  raise (ValidationError msg).

Definition record_read (q : Query) : M unit :=
  modify (fun s => with_db_reads (db_reads s ++ [q]) s).

(** [frappe.set_user(user)] *)
Definition frappe_set_user (user : string) : M unit :=
  modify (with_session_user user).

(** [frappe.utils.nowdate()] *)
Definition nowdate : M Z := gets today.

Definition customer_field (field : string) (c : Customer) : option string :=
  if String.eqb field "email_id" then email_id c
  else if String.eqb field "mobile_no" then mobile_no c
  else None.

Definition customer_matches (field value : string) (row : string * Customer) : bool :=
  match customer_field field (snd row) with
  | Some v => String.eqb v value
  | None => false
  end.

(** The names of the customers whose [field] equals [value], in the order
    the store lists them. *)
Definition customers_by (field value : string) (s : Site) : list string :=
  map fst (List.filter (customer_matches field value) (tabCustomer s)).

(** [frappe.get_all("Customer", filters={field: value}, fields=["name"])] *)
Definition frappe_get_all_Customer (field value : string) : M (list string) :=
  record_read (Q_get_all "Customer" field value) ;;
  gets (customers_by field value).

(** [frappe.get_doc("Customer Service Sheet", name)] *)
Definition frappe_get_doc_Customer_Service_Sheet (name : string) : M ServiceSheet :=
  record_read (Q_get_doc "Customer Service Sheet" name) ;;
  found ← gets (fun s => tabCustomer_Service_Sheet s !! name) ;
  match found with
  | Some doc => mret doc
  | None => raise (DoesNotExistError "Customer Service Sheet" name)
  end.

(** [doc.insert()] of a Customer: the document is named after its
    [customer_name]; the store rejects a name it already holds.  Where the
    new row stands in the store's listing is the host's affair: it is put
    first here, and what is proved of [search_customer] holds for a listing
    in any order. *)
Definition insert_Customer (c : Customer) : M string :=
  rows ← gets tabCustomer ;
  if existsb (String.eqb (customer_name c)) (map fst rows)
  then raise (DuplicateEntryError "Customer" (customer_name c))
  else modify (with_tabCustomer ((customer_name c, c) :: rows)) ;;
       mret (customer_name c).

(** [doc.insert()] of a Sales Invoice: the store accepts the document and
    gives it a name no other invoice has. *)
Definition insert_Sales_Invoice (si : SalesInvoice) : M string :=
  name ← gets (fun s => fresh (dom (tabSales_Invoice s))) ;
  modify (fun s => with_tabSales_Invoice (<[name := si]> (tabSales_Invoice s)) s) ;;
  mret name.

Definition si_with_docstatus (d : Z) (si : SalesInvoice) : SalesInvoice :=
  {| si_company := si_company si; si_customer := si_customer si;
     si_posting_date := si_posting_date si;
     si_set_posting_time := si_set_posting_time si;
     si_custom_agent := si_custom_agent si;
     write_off_amount := write_off_amount si;
     base_write_off_amount := base_write_off_amount si;
     items := items si; apply_discount_on := apply_discount_on si;
     discount_amount := discount_amount si;
     additional_discount_percentage := additional_discount_percentage si;
     si_docstatus := d |}.

(** [doc.submit()]: the stored document becomes final ([docstatus] 1). *)
Definition submit_Sales_Invoice (name : string) (si : SalesInvoice) : M unit :=
  modify (fun s =>
    with_tabSales_Invoice (<[name := si_with_docstatus 1 si]> (tabSales_Invoice s)) s).

Definition insert_Journal_Entry (je : JournalEntry) : M string :=
  name ← gets (fun s => fresh (dom (tabJournal_Entry s))) ;
  modify (fun s => with_tabJournal_Entry (<[name := je]> (tabJournal_Entry s)) s) ;;
  mret name.

Definition je_with_docstatus (d : Z) (je : JournalEntry) : JournalEntry :=
  {| voucher_type := voucher_type je; je_posting_date := je_posting_date je;
     reference_no := reference_no je; reference_date := reference_date je;
     je_company := je_company je; je_accounts := je_accounts je;
     je_docstatus := d |}.

Definition submit_Journal_Entry (name : string) (je : JournalEntry) : M unit :=
  modify (fun s =>
    with_tabJournal_Entry (<[name := je_with_docstatus 1 je]> (tabJournal_Entry s)) s).

(** [frappe.db.set_value("User", user, "role_profile_name", role)]: an
    update of the row named [user]; no row, no change. *)
Definition frappe_db_set_role_profile_name (user role : string) : M unit :=
  modify (fun s => with_tabUser (alter (fun _ => role) user (tabUser s)) s).

Definition rate_applies (currency to : string) (date : Z) (r : CurrencyExchange) : bool :=
  String.eqb (from_currency r) currency && String.eqb (to_currency r) to
  && (ce_date r <=? date).

(** The first row of [ORDER BY date DESC]: a row of the latest date, and
    among the rows of that date the one the store lists first. *)
Definition later (best : option CurrencyExchange) (r : CurrencyExchange)
  : option CurrencyExchange :=
  match best with
  | None => Some r
  | Some b => if ce_date b <? ce_date r then Some r else Some b
  end.

Definition latest (rows : list CurrencyExchange) : option CurrencyExchange :=
  fold_left later rows None.

Definition rate_on_or_before (currency to : string) (date : Z) (s : Site)
  : option CurrencyExchange :=
  latest (List.filter (rate_applies currency to date) (tabCurrency_Exchange s)).

(** [frappe.db.get_value("Currency Exchange",
      filters={"from_currency": currency, "to_currency": to, "date": ("<=", date)},
      fieldname="exchange_rate", order_by="date desc")] *)
Definition frappe_db_get_value_exchange_rate (currency to : string) (date : Z)
  : M (option float) :=
  record_read (Q_exchange_rate currency to date) ;;
  gets (fun s => exchange_rate <$> rate_on_or_before currency to date s).

(** [frappe.db.get_value("Account", account, "company")] *)
Definition frappe_db_get_value_Account_company (account : option string)
  : M (option string) :=
  record_read (Q_get_value "Account" account "company") ;;
  gets (fun s => account ≫= (tabAccount s !!.)).

(** [frappe.db.get_default("cost_center")] *)
Definition frappe_db_get_default_cost_center : M (option string) :=
  record_read (Q_get_default "cost_center") ;;
  gets default_cost_center.

(** [frappe.get_cached_value("Company", company, "default_receivable_account")] *)
Definition frappe_get_cached_value_default_receivable (company : option string)
  : M (option string) :=
  record_read (Q_get_value "Company" company "default_receivable_account") ;;
  gets (fun s => company ≫= (tabCompany s !!.)).

(** ** [search_customer] (api.py, lines 3-29) *)

Definition search_customer (email mobile : option string) : M (option string) :=
  by_email ←
    match email with
    | Some e =>
        if str_truthy email then
          found_by_email ← frappe_get_all_Customer "email_id" e ;
          mret (head found_by_email)
        else mret None
    | None => mret None
    end ;
  match by_email with
  | Some name => mret (Some name)
  | None =>
      by_mobile ←
        match mobile with
        | Some m =>
            if str_truthy mobile then
              found_by_mobile ← frappe_get_all_Customer "mobile_no" m ;
              mret (head found_by_mobile)
            else mret None
        | None => mret None
        end ;
      match by_mobile with
      | Some name => mret (Some name)
      | None => mret None
      end
  end.

(** ** [create_customer] (api.py, lines 32-66) *)

(** Reading the name [company] in [create_customer].  It is no parameter and
    is never assigned in the function, and the module binds only [frappe],
    [nowdate], [json], [date], [calendar] and the endpoints themselves, so
    the read raises [NameError]. *)
Definition load_name_company : M string := raise (NameError "company").

Definition with_territory (t : string) (c : Customer) : Customer :=
  {| customer_name := customer_name c; customer_group := customer_group c;
     territory := t; country := country c; default_currency := default_currency c;
     email_id := email_id c; mobile_no := mobile_no c; accounts := accounts c |}.

(** [customer.append("accounts", row)] *)
Definition append_accounts (row : PartyAccount) (c : Customer) : Customer :=
  {| customer_name := customer_name c; customer_group := customer_group c;
     territory := territory c; country := country c;
     default_currency := default_currency c;
     email_id := email_id c; mobile_no := mobile_no c;
     accounts := accounts c ++ [row] |}.

Definition new_customer (customer_name : string)
  (country billing_currency email mobile : option string) : Customer :=
  {| customer_name := customer_name; customer_group := "Individual";
     territory := "Nigeria"; country := country;
     default_currency := billing_currency;
     email_id := email; mobile_no := mobile; accounts := [] |}.

Definition is_Ghana (country : option string) : bool :=
  match country with
  | Some c => String.eqb c "Ghana"
  | None => false
  end.

(** [customer.get("country")] *)
Definition get_country (c : Customer) : option string := country c.

Definition create_customer (customer_name : string)
  (country default_account billing_currency email mobile : option string) : M string :=
  let customer := new_customer customer_name country billing_currency email mobile in
  customer ←
    (if is_Ghana (get_country customer) then
       let customer := with_territory "Ghana" customer in
       match default_account with
       | Some account =>
           if str_truthy default_account then
             company ← load_name_company ;
             mret (append_accounts {| pa_account := account; pa_company := company |}
                                   customer)
           else mret customer
       | None => mret customer
       end
     else mret customer) ;
  insert_Customer customer.

(** ** [create_sales_invoice] (api.py, lines 76-164) *)

Definition sum_of_item_lines (child_items : list SheetItem) : float :=
  fold_left (fun acc row => (acc + qty row * rate row)%float) child_items 0%float.

Definition first_item_code (child_items : list SheetItem) : string :=
  match child_items with
  | row :: _ => lower (item_code row)
  | [] => ""
  end.

Definition no_customer_message : list msg_part :=
  [Lit "No linked Customer found in erp_customer field"].

Definition under_price_message : list msg_part :=
  [Lit ("Order Price is not equal to the invoice price. "
        ++ "Please add comboex  on the first row if this is a combo.")].

Definition over_price_message : list msg_part :=
  [Lit ("Order Price is not equal to the invoice price, and the first row is not Comboex. "
        ++ "Please add a comboex  on the first row or fix your items.")].

Definition new_sales_invoice (doc : ServiceSheet) (posting_date : Z) : SalesInvoice :=
  {| si_company := "Timmie Kettle";
     si_customer := erp_customer doc;
     si_posting_date := posting_date;
     si_set_posting_time := 1;
     si_custom_agent := custom_agent doc;
     write_off_amount := 0%float;
     base_write_off_amount := 0%float;
     items := [];
     apply_discount_on := None;
     discount_amount := None;
     additional_discount_percentage := None;
     si_docstatus := 0 |}.

(** [si.append("items", {...})] with the row's code, quantity and rate. *)
Definition append_items (si : SalesInvoice) (row : SheetItem) : SalesInvoice :=
  {| si_company := si_company si; si_customer := si_customer si;
     si_posting_date := si_posting_date si;
     si_set_posting_time := si_set_posting_time si;
     si_custom_agent := si_custom_agent si;
     write_off_amount := write_off_amount si;
     base_write_off_amount := base_write_off_amount si;
     items := items si ++ [{| ii_item_code := item_code row; ii_qty := qty row;
                              ii_rate := rate row |}];
     apply_discount_on := apply_discount_on si;
     discount_amount := discount_amount si;
     additional_discount_percentage := additional_discount_percentage si;
     si_docstatus := si_docstatus si |}.

Definition set_discount (difference : float) (si : SalesInvoice) : SalesInvoice :=
  {| si_company := si_company si; si_customer := si_customer si;
     si_posting_date := si_posting_date si;
     si_set_posting_time := si_set_posting_time si;
     si_custom_agent := si_custom_agent si;
     write_off_amount := write_off_amount si;
     base_write_off_amount := base_write_off_amount si;
     items := items si;
     apply_discount_on := Some "Grand Total";
     discount_amount := Some difference;
     additional_discount_percentage := Some 0;
     si_docstatus := si_docstatus si |}.

Definition create_sales_invoice (customer_service_sheet : string) : M string :=
  doc ← frappe_get_doc_Customer_Service_Sheet customer_service_sheet ;
  (if str_truthy (erp_customer doc) then mret tt
   else frappe_throw no_customer_message) ;;
  let child_items := item doc in
  let sum_of_item_lines := sum_of_item_lines child_items in
  let first_item_code := first_item_code child_items in
  let difference := (sum_of_item_lines - price doc)%float in
  (if (difference <? 0)%float then
     if negb (String.eqb first_item_code "comboex")
     then frappe_throw under_price_message
     else mret tt
   else if (0 <? difference)%float then
     if negb (String.eqb first_item_code "comboex")
     then frappe_throw over_price_message
     else mret tt
   else mret tt) ;;
  posting_date ← nowdate ;
  let si := fold_left append_items child_items (new_sales_invoice doc posting_date) in
  let si :=
    if ((0 <? difference)%float && String.eqb first_item_code "comboex")%bool
    then set_discount difference si
    else si in
  name ← insert_Sales_Invoice si ;
  submit_Sales_Invoice name si ;;
  mret name.

(** ** [update_user_role] (api.py, lines 507-515) *)

Definition new_role (active : value) : string :=
  if py_in active [VBool true; VStr "1"; VInt 1] then "Customer Service" else "Test".

(** The endpoint over any implementation [set_value] of the store's update,
    which may raise. *)
Definition update_user_role_with (set_value : string -> string -> M unit)
  (user : string) (active : value) : M bool :=
  let new_role := new_role active in
  current_user ← gets session_user ;
  frappe_set_user "Administrator" ;;
  try_finally (set_value user new_role) (frappe_set_user current_user) ;;
  mret true.

Definition update_user_role : string -> value -> M bool :=
  update_user_role_with frappe_db_set_role_profile_name.

(** ** [get_exchange_rate] (api.py, lines 523-544) *)

Definition rate_not_found_message (currency : string) (date : Z) : list msg_part :=
  [Lit "Exchange rate not found for "; Lit currency;
   Lit " to NGN on or before "; Day date].

Definition get_exchange_rate (currency : string) (date : Z) : M float :=
  if String.eqb currency "NGN" then mret 1%float
  else
    rate ← frappe_db_get_value_exchange_rate currency "NGN" date ;
    match rate with
    | Some r =>
        if negb (float_truthy r)
        then frappe_throw (rate_not_found_message currency date)
        else mret r
    | None => frappe_throw (rate_not_found_message currency date)
    end.

(** ** [create_journal_entry2] (api.py, lines 585-669) *)

(** [float(x or 0)]: a missing, [None] or zero amount (minus zero included)
    becomes [0.0]. *)
Definition float_or_0 (x : option float) : float :=
  match x with
  | Some f => if float_truthy f then f else 0%float
  | None => 0%float
  end.

(** [float(inv.get("outstanding_amount", 0))] *)
Definition outstanding (inv : SelectedInvoice) : float :=
  default 0%float (outstanding_amount inv).

(** [sum(l)] over floats: from [0], adding from left to right.  (CPython 3.12
    and later add a compensation term; on a list of one element, and wherever
    the additions are exact, the two agree.) *)
Definition py_sum (l : list float) : float := fold_left PrimFloat.add l 0%float.

Definition invoice_total (selected_invoices : list SelectedInvoice) : float :=
  py_sum (map outstanding selected_invoices).

Definition commission (agent_payment : AgentPayment) : float :=
  float_or_0 (commissions_deducted agent_payment).

Definition charges (agent_payment : AgentPayment) : float :=
  float_or_0 (charges_deducted agent_payment).

Definition computed_total (agent_payment : AgentPayment)
  (selected_invoices : list SelectedInvoice) : float :=
  (invoice_total selected_invoices - commission agent_payment - charges agent_payment)%float.

Definition selected_total_field (agent_payment : AgentPayment) : float :=
  float_or_0 (selected_total agent_payment).

Definition mismatch_message (computed selected : float) : list msg_part :=
  [Lit "The computed net payment ("; Flt computed;
   Lit ") does not equal the Selected Total ("; Flt selected; Lit ")."].

Definition bank_line (agent_payment : AgentPayment) (cost_center : option string)
  (computed_total : float) : JournalLine :=
  {| jl_account := bank agent_payment;
     debit_in_account_currency := computed_total;
     credit_in_account_currency := 0%float;
     party_type := Some ""; party := Some "";
     cost_center := cost_center;
     reference_type := None; reference_name := None |}.

Definition receivable_line (default_ar cost_center : option string)
  (inv : SelectedInvoice) : JournalLine :=
  {| jl_account := default_ar;
     debit_in_account_currency := 0%float;
     credit_in_account_currency := outstanding inv;
     party_type := Some "Customer"; party := inv_customer inv;
     cost_center := cost_center;
     reference_type := Some "Sales Invoice"; reference_name := inv_name inv |}.

Definition deduction_line (account : string) (cost_center : option string)
  (amount : float) : JournalLine :=
  {| jl_account := Some account;
     debit_in_account_currency := amount;
     credit_in_account_currency := 0%float;
     party_type := None; party := None;
     cost_center := cost_center;
     reference_type := None; reference_name := None |}.

(** The lines in the order the endpoint appends them. *)
Definition journal_lines (agent_payment : AgentPayment)
  (selected_invoices : list SelectedInvoice)
  (default_ar cost_center : option string) : list JournalLine :=
  [bank_line agent_payment cost_center (computed_total agent_payment selected_invoices)]
  ++ map (receivable_line default_ar cost_center) selected_invoices
  ++ (if float_truthy (commission agent_payment)
      then [deduction_line "Commission on Sales - TK" cost_center (commission agent_payment)]
      else [])
  ++ (if float_truthy (charges agent_payment)
      then [deduction_line "Delivery Charges - TK" cost_center (charges agent_payment)]
      else []).

(** [agent_payment.get("date") or frappe.utils.nowdate()] *)
Definition date_or_today (agent_payment : AgentPayment) : M Z :=
  match ap_date agent_payment with
  | Some d => mret d
  | None => nowdate
  end.

Definition create_journal_entry2 (agent_payment : AgentPayment)
  (selected_invoices : list SelectedInvoice) : M string :=
  let computed_total := computed_total agent_payment selected_invoices in
  let selected_total_field := selected_total_field agent_payment in
  (if negb (computed_total =? selected_total_field)%float
   then frappe_throw (mismatch_message computed_total selected_total_field)
   else mret tt) ;;
  posting_date ← date_or_today agent_payment ;
  reference_date ← date_or_today agent_payment ;
  company ← frappe_db_get_value_Account_company (bank agent_payment) ;
  cost_center ← frappe_db_get_default_cost_center ;
  default_ar ← frappe_get_cached_value_default_receivable company ;
  let je :=
    {| voucher_type := "Journal Entry";
       je_posting_date := posting_date;
       reference_no := ap_name agent_payment;
       reference_date := reference_date;
       je_company := company;
       je_accounts := journal_lines agent_payment selected_invoices default_ar cost_center;
       je_docstatus := 0 |} in
  name ← insert_Journal_Entry je ;
  submit_Journal_Entry name je ;;
  mret name.

(** ** Quantities the properties speak of *)



Definition exact_sum (l : list float) : Q :=
  fold_right (fun f acc => (float_value f + acc)%Q) 0%Q l.




(** What an invoice line and a sheet line carry. *)
Definition invoice_line (it : InvoiceItem) : string * float * float :=
  (ii_item_code it, ii_qty it, ii_rate it).

Definition sheet_line (row : SheetItem) : string * float * float :=
  (item_code row, qty row, rate row).

(** The Currency Exchange rows for ([currency] -> NGN) dated on or before
    [date]. *)
Definition candidates (currency : string) (date : Z) (s : Site) : list CurrencyExchange :=
  List.filter (rate_applies currency "NGN" date) (tabCurrency_Exchange s).

(** The endpoint left the stored documents as they were. *)
Definition same_documents (s s' : Site) : Prop :=
  tabCustomer s' = tabCustomer s /\
  tabSales_Invoice s' = tabSales_Invoice s /\
  tabJournal_Entry s' = tabJournal_Entry s /\
  tabUser s' = tabUser s.

(** The customer a lookup by [field] finds for an optional argument: the
    first match, or none when the argument is missing or empty. *)
Definition match_by (field : string) (arg : option string) (s : Site) : option string :=
  match arg with
  | Some v => if str_truthy arg then head (customers_by field v s) else None
  | None => None
  end.

(** The reads a run issued, given the sites before and after it. *)
Definition reads_issued (s s' : Site) : list Query :=
  drop (length (db_reads s)) (db_reads s').

Definition is_mobile_lookup (q : Query) : bool :=
  match q with
  | Q_get_all doctype field _ => String.eqb doctype "Customer" && String.eqb field "mobile_no"
  | _ => false
  end.

(** [active] equals, in Python's sense, one of [True], ["1"] and [1]. *)
Definition is_active (active : value) : Prop :=
  py_eq active (VBool true) = true \/ py_eq active (VStr "1") = true \/
  py_eq active (VInt 1) = true.

(** ** Sample data *)

Definition sheet_combo : ServiceSheet :=
  {| erp_customer := Some "CUST-0001"; price := 150%float;
     custom_agent := Some "agent@tk.example";
     item := [{| item_code := "ComboEx"; qty := 1%float; rate := 200%float |}] |}.

Definition sheet_exact : ServiceSheet :=
  {| erp_customer := Some "CUST-0001"; price := 151%float;
     custom_agent := Some "agent@tk.example";
     item := [{| item_code := "KETTLE-01"; qty := 2%float; rate := 75.5%float |}] |}.

Definition sheet_short : ServiceSheet :=
  {| erp_customer := Some "CUST-0002"; price := 150%float;
     custom_agent := None;
     item := [{| item_code := "KETTLE-01"; qty := 1%float; rate := 100%float |}] |}.

(** A combo priced above its one line. *)
Definition sheet_combo_short : ServiceSheet :=
  {| erp_customer := Some "CUST-0001"; price := 150%float; custom_agent := None;
     item := [{| item_code := "comboex"; qty := 1%float; rate := 100%float |}] |}.

(** A sheet with no linked customer and no line items, priced 10. *)
Definition sheet_unlinked : ServiceSheet :=
  {| erp_customer := None; price := 10%float; custom_agent := None; item := [] |}.

Definition customer_a : Customer :=
  {| customer_name := "Ada"; customer_group := "Individual"; territory := "Nigeria";
     country := Some "Nigeria"; default_currency := Some "NGN";
     email_id := Some "ada@tk.example"; mobile_no := Some "0801"; accounts := [] |}.

Definition customer_b : Customer :=
  {| customer_name := "Bola"; customer_group := "Individual"; territory := "Nigeria";
     country := Some "Nigeria"; default_currency := Some "NGN";
     email_id := Some "bola@tk.example"; mobile_no := Some "0802"; accounts := [] |}.

Definition usd_day_100 : CurrencyExchange :=
  {| from_currency := "USD"; to_currency := "NGN"; ce_date := 100;
     exchange_rate := 1500%float |}.

Definition usd_day_200 : CurrencyExchange :=
  {| from_currency := "USD"; to_currency := "NGN"; ce_date := 200;
     exchange_rate := 1600%float |}.

(** A stored rate of zero. *)
Definition ghs_day_150 : CurrencyExchange :=
  {| from_currency := "GHS"; to_currency := "NGN"; ce_date := 150;
     exchange_rate := 0%float |}.

Definition sample_site : Site :=
  {| session_user := "agent@tk.example";
     today := 20000;
     tabCustomer := [("CUST-0001", customer_a); ("CUST-0002", customer_b)];
     tabCustomer_Service_Sheet :=
       {[ "CSS-0001" := sheet_combo; "CSS-0002" := sheet_exact;
          "CSS-0003" := sheet_short; "CSS-0004" := sheet_unlinked;
          "CSS-0005" := sheet_combo_short ]};
     tabSales_Invoice := ∅;
     tabJournal_Entry := ∅;
     tabUser := {[ "cs@tk.example" := "Test" ]};
     tabCurrency_Exchange := [usd_day_100; usd_day_200; ghs_day_150];
     tabAccount := {[ "Bank - TK" := "Timmie Kettle" ]};
     tabCompany := {[ "Timmie Kettle" := "Debtors - TK" ]};
     default_cost_center := Some "Main - TK";
     db_reads := [] |}.

(** A store whose update fails. *)
Definition store_down (user role : string) : M unit :=
  raise (DatabaseError "connection lost").

(** An agent pays 135 for invoices of 100 and 50, less 10 commission and 5
    charges. *)
Definition payment_135 : AgentPayment :=
  {| bank := Some "Bank - TK"; commissions_deducted := Some 10%float;
     charges_deducted := Some 5%float; selected_total := Some 135%float;
     ap_date := Some 19999; ap_name := Some "AP-0001" |}.

Definition invoices_150 : list SelectedInvoice :=
  [{| outstanding_amount := Some 100%float; inv_customer := Some "CUST-0001";
      inv_name := Some "SINV-0001" |};
   {| outstanding_amount := Some 50%float; inv_customer := Some "CUST-0002";
      inv_name := Some "SINV-0002" |}].

(** An agent declares 2.1 for an invoice of 3.4, less 1.3 commission; in
    binary64, [3.4 - 1.3] is [2.0999999999999996]. *)
Definition payment_2_1 : AgentPayment :=
  {| bank := Some "Bank - TK"; commissions_deducted := Some 1.3%float;
     charges_deducted := None; selected_total := Some 2.1%float;
     ap_date := None; ap_name := Some "AP-0003" |}.


Definition invoices_3_4 : list SelectedInvoice :=
  [{| outstanding_amount := Some 3.4%float; inv_customer := Some "CUST-0001";
      inv_name := Some "SINV-0003" |}].

(** ** The outcome of [create_sales_invoice], in the sheet's terms *)

(** [difference], as the endpoint computes it for a sheet. *)
Definition difference (doc : ServiceSheet) : float :=
  (sum_of_item_lines (item doc) - price doc)%float.

Definition is_combo (doc : ServiceSheet) : bool :=
  String.eqb (first_item_code (item doc)) "comboex".

(** The invoice the endpoint stages for a sheet before inserting it. *)
Definition staged_invoice (doc : ServiceSheet) (posting_date : Z) : SalesInvoice :=
  let si := fold_left append_items (item doc) (new_sales_invoice doc posting_date) in
  if ((0 <? difference doc)%float && is_combo doc)%bool
  then set_discount (difference doc) si
  else si.

(** The reconciliation lets the sheet through: its first code marks a combo,
    or its line sum is neither below nor above its price. *)
Definition reconciles (doc : ServiceSheet) : bool :=
  is_combo doc
  || (negb (sum_of_item_lines (item doc) <? price doc)%float
      && negb (price doc <? sum_of_item_lines (item doc))%float).

(** A sheet worth 300 priced 250, with no combo code. *)
Definition sheet_over : ServiceSheet :=
  {| erp_customer := Some "CUST-0002"; price := 250%float; custom_agent := None;
     item := [{| item_code := "KETTLE-01"; qty := 3%float; rate := 100%float |}] |}.

Definition with_tabCustomer_Service_Sheet (t : gmap string ServiceSheet) (s : Site) : Site :=
  {| session_user := session_user s; today := today s; tabCustomer := tabCustomer s;
     tabCustomer_Service_Sheet := t;
     tabSales_Invoice := tabSales_Invoice s; tabJournal_Entry := tabJournal_Entry s;
     tabUser := tabUser s; tabCurrency_Exchange := tabCurrency_Exchange s;
     tabAccount := tabAccount s; tabCompany := tabCompany s;
     default_cost_center := default_cost_center s; db_reads := db_reads s |}.

(** The sample site with the over-priced sheet added. *)
Definition sample_site_over : Site :=
  with_tabCustomer_Service_Sheet
    (<["CSS-0006" := sheet_over]> (tabCustomer_Service_Sheet sample_site)) sample_site.

(** ** The outcome of [create_journal_entry2], in the payment's terms *)

(** The company the endpoint reads off the bank account, and the receivable
    account it reads off that company. *)
Definition bank_company (agent_payment : AgentPayment) (s : Site) : option string :=
  bank agent_payment ≫= (tabAccount s !!.).

Definition receivable_account (agent_payment : AgentPayment) (s : Site) : option string :=
  bank_company agent_payment s ≫= (tabCompany s !!.).

(** The entry the endpoint stages before inserting it. *)
Definition staged_entry (agent_payment : AgentPayment)
  (selected_invoices : list SelectedInvoice) (s : Site) : JournalEntry :=
  {| voucher_type := "Journal Entry";
     je_posting_date := default (today s) (ap_date agent_payment);
     reference_no := ap_name agent_payment;
     reference_date := default (today s) (ap_date agent_payment);
     je_company := bank_company agent_payment s;
     je_accounts := journal_lines agent_payment selected_invoices
                      (receivable_account agent_payment s) (default_cost_center s);
     je_docstatus := 0 |}.

(** The three lookups of a run that passes the check. *)
Definition entry_reads (agent_payment : AgentPayment) (s : Site) : list Query :=
  [Q_get_value "Account" (bank agent_payment) "company";
   Q_get_default "cost_center";
   Q_get_value "Company" (bank_company agent_payment s) "default_receivable_account"].

(** A line that credits a receivable against a Sales Invoice. *)
Definition is_invoice_credit (l : JournalLine) : bool :=
  match reference_type l with
  | Some t => String.eqb t "Sales Invoice"
  | None => false
  end.

(** Two floats denote the same number: they are equal, or both are zeros. *)
Definition sf_same (X Y : spec_float) : Prop :=
  X = Y \/ exists s s', X = S754_zero s /\ Y = S754_zero s'.



(** ** Further vocabulary for the exchange rates and the customers *)

Definition with_tabCurrency_Exchange (t : list CurrencyExchange) (s : Site) : Site :=
  {| session_user := session_user s; today := today s; tabCustomer := tabCustomer s;
     tabCustomer_Service_Sheet := tabCustomer_Service_Sheet s;
     tabSales_Invoice := tabSales_Invoice s; tabJournal_Entry := tabJournal_Entry s;
     tabUser := tabUser s; tabCurrency_Exchange := t;
     tabAccount := tabAccount s; tabCompany := tabCompany s;
     default_cost_center := default_cost_center s; db_reads := db_reads s |}.

(** A customer row answers a search: its email is the non-empty email asked
    for, or its mobile number the non-empty mobile asked for. *)
Definition answers (email mobile : option string) (c : Customer) : Prop :=
  (str_truthy email = true /\ email_id c = email) \/
  (str_truthy mobile = true /\ mobile_no c = mobile).

(** A rate stored for a later day than any the samples ask for. *)
Definition usd_day_900 : CurrencyExchange :=
  {| from_currency := "USD"; to_currency := "NGN"; ce_date := 900;
     exchange_rate := 1700%float |}.

(** The sample site keeping only its two dollar rates. *)
Definition sample_site_usd : Site :=
  with_tabCurrency_Exchange [usd_day_100; usd_day_200] sample_site.

(** ** [get_customer_service_users] (api.py, lines 490-504) *)

(** The other columns of a user the listing selects. *)
Record UserProfile : Type := {
  user_full_name : option string;
  user_email : option string
}.

(** A row of the listing: [full_name], [email], [role_profile_name]. *)
Record UserRow : Type := {
  row_full_name : option string;
  row_email : option string;
  row_role_profile_name : option string
}.

(** The names of the users whose role profile is [role]. *)
Definition users_with_role (role : string) (s : Site) : list string :=
  map fst (List.filter (fun entry => String.eqb (snd entry) role)
                       (map_to_list (tabUser s))).

Definition user_row (profiles : string -> UserProfile) (role : string) (name : string)
  : UserRow :=
  {| row_full_name := user_full_name (profiles name);
     row_email := user_email (profiles name);
     row_role_profile_name := Some role |}.

(** [frappe.db.get_all("User", filters={"role_profile_name": role},
      fields=["full_name", "email", "role_profile_name"])], the columns
    [full_name] and [email] of each user being given by [profiles]. *)
Definition frappe_db_get_all_User (profiles : string -> UserProfile) (role : string)
  : M (list UserRow) :=
  record_read (Q_get_all "User" "role_profile_name" role) ;;
  gets (fun s => map (user_row profiles role) (users_with_role role s)).

Definition get_customer_service_users (profiles : string -> UserProfile)
  : M (list UserRow) :=
  current_user ← gets session_user ;
  frappe_set_user "Administrator" ;;
  result ← try_finally (frappe_db_get_all_User profiles "Customer Service")
                       (frappe_set_user current_user) ;
  mret result.

Definition sample_profiles (name : string) : UserProfile :=
  {| user_full_name := Some "Chidi Eze"; user_email := Some name |}.

(** ** [get_unpaid_invoices] (api.py, lines 680-691) *)

(** The amounts the host keeps on a stored invoice. *)
Record InvoiceTotals : Type := {
  it_grand_total : float;
  it_outstanding_amount : float
}.

(** A row of the listing: [posting_date], [name], [customer], [grand_total],
    [outstanding_amount]. *)
Record UnpaidRow : Type := {
  up_posting_date : Z;
  up_name : string;
  up_customer : option string;
  up_grand_total : float;
  up_outstanding_amount : float
}.

(** The filters [custom_agent = agent], [outstanding_amount > 0] and
    [docstatus = 1] on a stored invoice. *)
Definition is_unpaid (totals : string -> InvoiceTotals) (agent : string)
  (entry : string * SalesInvoice) : bool :=
  match si_custom_agent (snd entry) with
  | Some a => String.eqb a agent
  | None => false
  end
  && (0 <? it_outstanding_amount (totals (fst entry)))%float
  && (si_docstatus (snd entry) =? 1).

Definition unpaid_row (totals : string -> InvoiceTotals) (entry : string * SalesInvoice)
  : UnpaidRow :=
  {| up_posting_date := si_posting_date (snd entry);
     up_name := fst entry;
     up_customer := si_customer (snd entry);
     up_grand_total := it_grand_total (totals (fst entry));
     up_outstanding_amount := it_outstanding_amount (totals (fst entry)) |}.

(** [frappe.get_all("Sales Invoice", filters={...}, fields=[...])], the
    host's amounts of each invoice being given by [totals]. *)
Definition get_unpaid_invoices (totals : string -> InvoiceTotals) (agent : string)
  : M (list UnpaidRow) :=
  record_read (Q_get_all "Sales Invoice" "custom_agent" agent) ;;
  gets (fun s => map (unpaid_row totals)
                     (List.filter (is_unpaid totals agent)
                                  (map_to_list (tabSales_Invoice s)))).

(** Every invoice stands at 150, fully outstanding. *)
Definition sample_totals (name : string) : InvoiceTotals :=
  {| it_grand_total := 150%float; it_outstanding_amount := 150%float |}.

(** ** The dashboard counters (api.py, lines 172-203 and 700-713) *)

(** A calendar date, as [datetime.date] holds it. *)
Record Date : Type := {
  year : Z;
  month : Z;
  day : Z
}.

(** The columns of [tabCustomer Service Sheet] the counters filter on. *)
Record SheetColumns : Type := {
  cs : option string;
  status : option string;
  order_date : option Date
}.

(** An equality filter [{field: v}] on a column that may be [NULL]. *)
Definition column_is (v : string) (column : option string) : bool :=
  match column with
  | Some x => String.eqb x v
  | None => false
  end.

(** [frappe.db.count("Customer Service Sheet", filters)] over the rows
    [sheets] of the table. *)
Definition frappe_db_count (sheets : list SheetColumns) (filters : SheetColumns -> bool)
  : Z :=
  Z.of_nat (length (List.filter filters sheets)).

Definition get_user_total_css (sheets : list SheetColumns) : M Z :=
  user ← gets session_user ;
  mret (frappe_db_count sheets (fun r => column_is user (cs r))).

Definition get_user_delivered_css (sheets : list SheetColumns) : M Z :=
  user ← gets session_user ;
  mret (frappe_db_count sheets
          (fun r => column_is user (cs r) && column_is "Delivered" (status r))).

Definition get_user_processing_css (sheets : list SheetColumns) : M Z :=
  user ← gets session_user ;
  mret (frappe_db_count sheets
          (fun r => column_is user (cs r) && column_is "Processing" (status r))).

Definition get_user_cancelled_css (sheets : list SheetColumns) : M Z :=
  user ← gets session_user ;
  mret (frappe_db_count sheets
          (fun r => column_is user (cs r) && column_is "Cancelled" (status r))).

(** [calendar.isleap] *)
Definition isleap (y : Z) : bool :=
  (y mod 4 =? 0) && (negb (y mod 100 =? 0) || (y mod 400 =? 0)).

(** [calendar.mdays] *)
Definition mdays : list Z := [0; 31; 28; 31; 30; 31; 30; 31; 31; 30; 31; 30; 31].

(** [calendar.monthrange(year, month)[1]], for a month from 1 to 12. *)
Definition monthrange_days (y m : Z) : Z :=
  nth (Z.to_nat m) mdays 0 + (if (m =? 2) && isleap y then 1 else 0).

(** [today.replace(day=d)] *)
Definition replace_day (d : Z) (date : Date) : Date :=
  {| year := year date; month := month date; day := d |}.

(** [a <= b] on dates. *)
Definition date_leb (a b : Date) : bool :=
  (year a <? year b)
  || ((year a =? year b)
      && ((month a <? month b) || ((month a =? month b) && (day a <=? day b)))).

(** The filter [["between", [start, end]]] on a date column. *)
Definition between (start finish : Date) (column : option Date) : bool :=
  match column with
  | Some d => date_leb start d && date_leb d finish
  | None => false
  end.

(** [get_user_total_css_this_month], [date_today] being what [date.today()]
    returns. *)
Definition get_user_total_css_this_month (date_today : Date)
  (sheets : list SheetColumns) : M Z :=
  let start_of_month := replace_day 1 date_today in
  let end_of_month :=
    replace_day (monthrange_days (year date_today) (month date_today)) date_today in
  user ← gets session_user ;
  mret (frappe_db_count sheets
          (fun r => column_is user (cs r)
                    && between start_of_month end_of_month (order_date r))).

(** A date the calendar has. *)
Definition valid_date (d : Date) : Prop :=
  1 <= month d <= 12 /\ 1 <= day d <= monthrange_days (year d) (month d).

(** The date column holds a day of the year and month of [date_today]. *)
Definition in_month_of (date_today : Date) (column : option Date) : bool :=
  match column with
  | Some d => (year d =? year date_today) && (month d =? month date_today)
  | None => false
  end.

(** The status of a sheet is none of the three the counters ask for. *)
Definition other_status (r : SheetColumns) : bool :=
  negb (column_is "Delivered" (status r)) && negb (column_is "Processing" (status r))
  && negb (column_is "Cancelled" (status r)).

Definition sample_sheets : list SheetColumns :=
  [{| cs := Some "agent@tk.example"; status := Some "Delivered";
      order_date := Some {| year := 2024; month := 2; day := 29 |} |};
   {| cs := Some "agent@tk.example"; status := Some "Processing";
      order_date := Some {| year := 2024; month := 3; day := 1 |} |};
   {| cs := Some "agent@tk.example"; status := Some "Duplicate";
      order_date := Some {| year := 2024; month := 2; day := 1 |} |};
   {| cs := Some "other@tk.example"; status := Some "Delivered";
      order_date := Some {| year := 2024; month := 2; day := 10 |} |};
   {| cs := Some "agent@tk.example"; status := None; order_date := None |}].

(** ** [get_css_by_digital_marketer_chart_data] (api.py, lines 209-252) *)

(** A row of the grouped query: [digital_marketer], [COUNT(name) AS count]. *)
Record MarketerCount : Type := {
  digital_marketer : option string;
  row_count : Z
}.

(** One entry of ["datasets"]. *)
Record Dataset : Type := {
  ds_name : string;
  ds_values : list Z
}.

(** The dictionary under ["data"]. *)
Record ChartSeries : Type := {
  labels : list string;
  datasets : list Dataset
}.

Record ChartData : Type := {
  data : ChartSeries;
  chart_type : string
}.

(** [row.digital_marketer if row.digital_marketer else "Not Set"] *)
Definition marketer_label (row : MarketerCount) : string :=
  match digital_marketer row with
  | Some m => if str_truthy (Some m) then m else "Not Set"
  | None => "Not Set"
  end.

(** The loop over the rows, appending to [labels] and to [values]. *)
Definition chart_columns (results : list MarketerCount) : list string * list Z :=
  fold_left (fun acc row => (fst acc ++ [marketer_label row], snd acc ++ [row_count row]))
            results ([], []).

(** [get_css_by_digital_marketer_chart_data], [sql user] being the rows the
    grouped query returns for the parameter [user]. *)
Definition get_css_by_digital_marketer_chart_data (sql : string -> list MarketerCount)
  : M ChartData :=
  user ← gets session_user ;
  let results := sql user in
  let columns := chart_columns results in
  mret {| data := {| labels := fst columns;
                     datasets := [{| ds_name := "Customer Service Sheets";
                                     ds_values := snd columns |}] |};
          chart_type := "bar" |}.

Definition sample_marketer_counts (user : string) : list MarketerCount :=
  [{| digital_marketer := None; row_count := 2 |};
   {| digital_marketer := Some ""; row_count := 1 |};
   {| digital_marketer := Some "Ada"; row_count := 5 |}].

(** ** [get_item_warehouse_stock] (api.py, lines 257-280) *)

(** A row of the stock query: [warehouse], [state], [qty]. *)
Record StockRow : Type := {
  warehouse : string;
  wh_state : option string;
  stock_qty : float
}.

(** The line feed that ends each line of the query text. *)
Definition LF : string := String (ascii_of_nat 10) EmptyString.

(** The triple-quoted text the query starts from, line by line. *)
Definition stock_select : string :=
  LF +:+
  "            SELECT " +:+ LF +:+
  "                sle.warehouse," +:+ LF +:+
  "                wh.state," +:+ LF +:+
  "                SUM(sle.actual_qty) as qty" +:+ LF +:+
  "            FROM `tabStock Ledger Entry` sle" +:+ LF +:+
  "            INNER JOIN `tabWarehouse` wh ON sle.warehouse = wh.name" +:+ LF +:+
  "            WHERE sle.item_code = %s" +:+ LF +:+
  "        ".

(** The body of the loop up to the call of [frappe.db.sql]: the query text
    and its parameters for one item. *)
Definition stock_statement (item : string) (state : option string)
  : string * list string :=
  let query := stock_select in
  let params := [item] in
  let '(query, params) :=
    match state with
    | Some st =>
        if str_truthy state
        then (query +:+ " AND wh.state = %s", params ++ [st])
        else (query, params)
    | None => (query, params)
    end in
  (query +:+ " GROUP BY sle.warehouse HAVING qty > 0", params).

(** [get_item_warehouse_stock], [items] being the parsed list of item codes
    and [sql query params] the rows [frappe.db.sql] returns. *)
Definition get_item_warehouse_stock (sql : string -> list string -> list StockRow)
  (items : list string) (state : option string) : M (gmap string (list StockRow)) :=
  mret (fold_left (fun (stock_info : gmap string (list StockRow)) item =>
                     let '(query, params) := stock_statement item state in
                     <[item := sql query params]> stock_info)
                  items ∅).

(** The number of [%] characters of a query text. *)
Fixpoint count_percent (query : string) : nat :=
  match query with
  | EmptyString => 0
  | String c rest => (if Ascii.eqb c "%" then 1 else 0) + count_percent rest
  end.

(** The number of [%s] placeholders of a query text. *)
Fixpoint count_placeholders (query : string) : nat :=
  match query with
  | EmptyString => 0
  | String c rest =>
      (if Ascii.eqb c "%" && String.prefix "s" rest then 1 else 0)
      + count_placeholders rest
  end.

(** The store answers with one row per query, naming the item asked for. *)
Definition sample_sql (query : string) (params : list string) : list StockRow :=
  [{| warehouse := default "" (head params); wh_state := last params; stock_qty := 4%float |}].

(** ** Exact binary64 arithmetic *)

(** The rational a specified float denotes; [float_exact] through
    [Prim2SF]. *)
Definition sf_exact (X : spec_float) : option Q :=
  match X with
  | S754_zero _ => Some 0%Q
  | S754_finite s m e => Some (inject_Z (cond_Zopp s (Zpos m)) * Qpower (2 # 1) e)%Q
  | _ => None
  end.

(** [k] is at most the exponent of a finite float; a zero has no exponent
    to stay under. *)
Definition sf_exponent (X : spec_float) (k : Z) : Prop :=
  match X with
  | S754_finite _ _ e => k <= e
  | _ => True
  end.

Definition sf_low (X : spec_float) : Z :=
  match X with
  | S754_finite _ _ e => e
  | _ => 0
  end.

(** The value of a float in units of [2 ^ k], an integer for [k] up to its
    exponent. *)
Definition scaled (k : Z) (X : spec_float) : Z :=
  match X with
  | S754_finite s m e => cond_Zopp s (Zpos m) * 2 ^ (e - k)
  | _ => 0
  end.



(** ** The totals of an invoice *)





(** ** The deductions of an agent payment *)


(** An agent pays 56.39 for an invoice of 207.97, less 78.34 commission and
    73.24 charges.  The net is exact, but [207.97 - 73.24] is not. *)
Definition payment_56_39 : AgentPayment :=
  {| bank := Some "Bank - TK"; commissions_deducted := Some 78.34%float;
     charges_deducted := Some 73.24%float; selected_total := Some 56.39%float;
     ap_date := None; ap_name := Some "AP-0006" |}.

Definition invoices_207_97 : list SelectedInvoice :=
  [{| outstanding_amount := Some 207.97%float; inv_customer := Some "CUST-0001";
      inv_name := Some "SINV-0004" |}].

(** * Part II: properties *)

(** ** Binary64: the sign of a difference

    [create_sales_invoice] compares [sum - price] with zero, while its
    specification speaks of [sum < price], [sum > price] and [sum == price].
    The two agree on binary64 numbers: a difference of two floats rounds to a
    number of the same sign, and to zero only when the operands are equal. *)

Section Binary64.

Lemma digits_bounds p :
  2 ^ (Zpos (digits2_pos p) - 1) <= Zpos p < 2 ^ Zpos (digits2_pos p).
Proof.
  induction p as [p IH | p IH |]; simpl digits2_pos.
  - rewrite Pos2Z.inj_succ.
    replace (Z.succ (Zpos (digits2_pos p)) - 1) with (Z.succ (Zpos (digits2_pos p) - 1)) by lia.
    rewrite !Z.pow_succ_r by lia. lia.
  - rewrite Pos2Z.inj_succ.
    replace (Z.succ (Zpos (digits2_pos p)) - 1) with (Z.succ (Zpos (digits2_pos p) - 1)) by lia.
    rewrite !Z.pow_succ_r by lia. lia.
  - simpl. lia.
Qed.

Lemma digits_lt_lt p q :
  Zpos (digits2_pos p) < Zpos (digits2_pos q) -> Zpos p < Zpos q.
Proof.
  intros H.
  pose proof (digits_bounds p) as [_ Hp].
  pose proof (digits_bounds q) as [Hq _].
  assert (2 ^ Zpos (digits2_pos p) <= 2 ^ (Zpos (digits2_pos q) - 1))
    by (apply Z.pow_le_mono_r; lia).
  lia.
Qed.

Lemma digits_iter_xO m d :
  Zpos (digits2_pos (Pos.iter xO m d)) = Zpos (digits2_pos m) + Zpos d.
Proof.
  revert m. induction d as [d IH | d IH |]; intros m; simpl.
  - rewrite Pos2Z.inj_succ, !IH. lia.
  - rewrite !IH. lia.
  - lia.
Qed.

(** One right shift of a non-negative mantissa removes one binary digit. *)
Lemma shr_1_digits mrs :
  0 <= shr_m mrs ->
  0 <= shr_m (shr_1 mrs) /\
  Zdigits2 (shr_m (shr_1 mrs)) = Z.max 0 (Zdigits2 (shr_m mrs) - 1).
Proof.
  destruct mrs as [m r s].
  destruct m as [| [p | p |] | p]; cbn [shr_1 shr_m Zdigits2 digits2_pos]; intros H;
    rewrite ?Pos2Z.inj_succ; lia.
Qed.

Lemma iter_shr_1_digits n : forall mrs,
  0 <= shr_m mrs ->
  0 <= shr_m (SpecFloat.iter_pos shr_1 n mrs) /\
  Zdigits2 (shr_m (SpecFloat.iter_pos shr_1 n mrs)) = Z.max 0 (Zdigits2 (shr_m mrs) - Zpos n).
Proof.
  induction n as [n IH | n IH |]; intros mrs H; simpl.
  - destruct (shr_1_digits mrs H) as [H1 E1].
    destruct (IH _ H1) as [H2 E2].
    destruct (IH _ H2) as [H3 E3].
    split; [assumption | lia].
  - destruct (IH _ H) as [H2 E2].
    destruct (IH _ H2) as [H3 E3].
    split; [assumption | lia].
  - apply shr_1_digits; assumption.
Qed.

Lemma digits_pos_iff m : 0 <= m -> (0 < Zdigits2 m <-> 0 < m).
Proof. destruct m; simpl; lia. Qed.

Lemma shr_m_record_of_loc m l : shr_m (shr_record_of_loc m l) = m.
Proof. destruct l as [| []]; reflexivity. Qed.

(** Shifting to the canonical exponent never loses a positive mantissa
    entirely, provided the exponent is at least [emin]: the shift leaves
    [prec] digits. *)
Lemma shr_fexp_pos m e l :
  0 < m -> emin <= e ->
  0 < shr_m (fst (shr_fexp prec emax m e l)) /\
  emin <= snd (shr_fexp prec emax m e l) /\
  Zdigits2 (shr_m (fst (shr_fexp prec emax m e l))) <= Z.max (Zdigits2 m) 0.
Proof.
  intros Hm He. unfold shr_fexp, shr, fexp.
  assert (Hd : 0 < Zdigits2 m) by (apply digits_pos_iff; lia).
  destruct (Z.max (Zdigits2 m + e - prec) emin - e) as [| n | n] eqn:En; simpl;
    rewrite ?shr_m_record_of_loc; try lia.
  destruct (iter_shr_1_digits n (shr_record_of_loc m l)) as [H1 E1];
    rewrite ?shr_m_record_of_loc in *; [lia |].
  unfold prec in *.
  split; [apply digits_pos_iff; lia | lia].
Qed.


Lemma round_nearest_even_pos m l : 0 < m -> 0 < round_nearest_even m l.
Proof.
  intros H. destruct l as [| []]; simpl; try lia.
  destruct (Z.even m); lia.
Qed.

Lemma binary_round_aux_signed s m e l :
  0 < m -> emin <= e -> sf_signed s (binary_round_aux prec emax s m e l).
Proof.
  intros Hm He. unfold binary_round_aux.
  pose proof (shr_fexp_pos m e l Hm He) as (H1 & H2 & _).
  destruct (shr_fexp prec emax m e l) as [mrs' e']; simpl in H1, H2.
  pose proof (round_nearest_even_pos _ (loc_of_shr_record mrs') H1) as Hr.
  pose proof (shr_fexp_pos _ e' loc_Exact Hr H2) as (H3 & _ & _).
  destruct (shr_fexp prec emax _ e' loc_Exact) as [mrs'' e'']; simpl in H3.
  destruct (shr_m mrs'') as [| p | p]; try lia.
  destruct (e'' <=? emax - prec); [right; eauto | left; reflexivity].
Qed.

Lemma binary_round_signed s m e :
  emin <= e -> sf_signed s (binary_round prec emax s m e).
Proof.
  intros He. unfold binary_round, shl_align.
  set (f := fexp prec emax (Zpos (digits2_pos m) + e)).
  assert (Hf : emin <= f) by (unfold f, fexp; lia).
  destruct (f - e) as [| d | d]; apply binary_round_aux_signed; lia.
Qed.

Lemma sf_signed_neg f : sf_signed true f -> sf_neg f = true.
Proof. intros [-> | (m & e & ->)]; reflexivity. Qed.

Lemma sf_signed_pos f : sf_signed false f -> sf_pos f = true.
Proof. intros [-> | (m & e & ->)]; reflexivity. Qed.

Lemma binary_normalize_sign z e :
  emin <= e ->
  match z ?= 0 with
  | Lt => sf_neg (binary_normalize prec emax z e false) = true
  | Gt => sf_pos (binary_normalize prec emax z e false) = true
  | Eq => binary_normalize prec emax z e false = S754_zero false
  end.
Proof.
  intros He. destruct z as [| p | p]; simpl.
  - reflexivity.
  - apply sf_signed_pos, binary_round_signed, He.
  - apply sf_signed_neg, binary_round_signed, He.
Qed.


Lemma canonical_facts m e :
  canonical_mantissa prec emax m e = true ->
  emin <= e /\ Zpos (digits2_pos m) <= prec /\
  (emin < e -> Zpos (digits2_pos m) = prec).
Proof.
  unfold canonical_mantissa, fexp. intros H%Z.eqb_eq. lia.
Qed.

Lemma aligned_same m e : aligned m e e = Zpos m.
Proof. unfold aligned, shl_align. rewrite Z.sub_diag. reflexivity. Qed.

Lemma aligned_digits m e ez :
  ez < e -> Zdigits2 (aligned m e ez) = Zpos (digits2_pos m) + (e - ez).
Proof.
  intros H. unfold aligned, shl_align.
  destruct (ez - e) as [| d | d] eqn:E; try lia.
  cbn [fst Zdigits2]. rewrite digits_iter_xO.
  pose proof (Pos2Z.opp_pos d). lia.
Qed.

Lemma aligned_compare mx ex my ey :
  canonical_mantissa prec emax mx ex = true ->
  canonical_mantissa prec emax my ey = true ->
  (aligned mx ex (Z.min ex ey) ?= aligned my ey (Z.min ex ey)) = mag_compare mx ex my ey.
Proof.
  intros (Hx1 & Hx2 & Hx3)%canonical_facts (Hy1 & Hy2 & Hy3)%canonical_facts.
  unfold mag_compare.
  destruct (Z.compare_spec ex ey) as [E | L | G].
  - subst ey. rewrite Z.min_id, !aligned_same. reflexivity.
  - rewrite Z.min_l by lia. rewrite aligned_same.
    apply Z.compare_lt_iff.
    pose proof (aligned_digits my ey ex L) as D.
    unfold aligned in *.
    apply digits_lt_lt. cbn [Zdigits2] in D. lia.
  - rewrite Z.min_r by lia. rewrite aligned_same.
    apply Z.compare_gt_iff.
    pose proof (aligned_digits mx ex ey ltac:(lia)) as D.
    unfold aligned in *.
    apply digits_lt_lt. cbn [Zdigits2] in D. lia.
Qed.

Lemma SFcompare_finite sx mx ex sy my ey :
  canonical_mantissa prec emax mx ex = true ->
  canonical_mantissa prec emax my ey = true ->
  SFcompare (S754_finite sx mx ex) (S754_finite sy my ey) =
  Some (cond_Zopp sx (aligned mx ex (Z.min ex ey))
        - cond_Zopp sy (aligned my ey (Z.min ex ey)) ?= 0).
Proof.
  intros Hx Hy.
  pose proof (aligned_compare mx ex my ey Hx Hy) as H.
  assert (Px : 0 < aligned mx ex (Z.min ex ey)) by (unfold aligned; lia).
  assert (Py : 0 < aligned my ey (Z.min ex ey)) by (unfold aligned; lia).
  revert H Px Py.
  generalize (aligned mx ex (Z.min ex ey)) (aligned my ey (Z.min ex ey)).
  intros a b H Pa Pb.
  assert (Hsub : (a - b ?= 0) = (a ?= b))
    by (destruct (Z.compare_spec a b); destruct (Z.compare_spec (a - b) 0); lia || reflexivity).
  assert (Hopp : (- a - - b ?= 0) = CompOpp (a ?= b))
    by (destruct (Z.compare_spec a b); destruct (Z.compare_spec (- a - - b) 0);
        simpl; lia || reflexivity).
  unfold mag_compare in H. unfold SFcompare.
  destruct sx, sy; cbn [cond_Zopp]; f_equal.
  - rewrite Hopp, H. destruct (ex ?= ey); reflexivity.
  - symmetry. apply Z.compare_lt_iff. lia.
  - symmetry. apply Z.compare_gt_iff. lia.
  - rewrite Hsub, H. reflexivity.
Qed.


(** The sign of a rounded difference is the outcome of the comparison:
    rounding never takes a non-zero difference to zero (gradual underflow),
    and an overflow keeps the sign. *)
Lemma SFsub_compare X Y :
  valid_binary X = true -> valid_binary Y = true ->
  match SFcompare X Y with
  | Some Lt => sf_neg (SF64sub X Y) = true
  | Some Gt => sf_pos (SF64sub X Y) = true
  | _ => sf_neg (SF64sub X Y) = false /\ sf_pos (SF64sub X Y) = false
  end.
Proof.
  intros VX VY.
  destruct X as [sx | sx | | sx mx ex], Y as [sy | sy | | sy my ey];
    try (try destruct sx; try destruct sy; cbn; auto; fail).
  cbn [valid_binary] in VX, VY. unfold bounded in VX, VY.
  apply andb_prop in VX as [CX _]. apply andb_prop in VY as [CY _].
  rewrite (SFcompare_finite sx mx ex sy my ey CX CY).
  unfold SF64sub, SFsub. fold (aligned mx ex (Z.min ex ey)) (aligned my ey (Z.min ex ey)).
  apply canonical_facts in CX as (Hx & _), CY as (Hy & _).
  pose proof (binary_normalize_sign
                (cond_Zopp sx (aligned mx ex (Z.min ex ey))
                 - cond_Zopp sy (aligned my ey (Z.min ex ey)))
                (Z.min ex ey) ltac:(lia)) as H.
  destruct (_ ?= 0); try assumption.
  rewrite H. split; reflexivity.
Qed.

Lemma Prim2SF_zero : Prim2SF 0%float = S754_zero false.
Proof. reflexivity. Qed.

Lemma ltb_zero_r (d : float) : (d <? 0)%float = sf_neg (Prim2SF d).
Proof.
  rewrite FloatAxioms.ltb_spec, Prim2SF_zero.
  destruct (Prim2SF d) as [s | s | | s m e]; try destruct s; reflexivity.
Qed.

Lemma ltb_zero_l (d : float) : (0 <? d)%float = sf_pos (Prim2SF d).
Proof.
  rewrite FloatAxioms.ltb_spec, Prim2SF_zero.
  destruct (Prim2SF d) as [s | s | | s m e]; try destruct s; reflexivity.
Qed.


(** [x < y] makes the computed difference [x - y] negative. *)
Theorem sub_lt0 (x y : float) :
  (x <? y)%float = true -> (x - y <? 0)%float = true.
Proof.
  rewrite ltb_zero_r, FloatAxioms.sub_spec, FloatAxioms.ltb_spec. unfold SFltb.
  pose proof (SFsub_compare _ _ (Prim2SF_valid x) (Prim2SF_valid y)) as H.
  destruct (SFcompare (Prim2SF x) (Prim2SF y)) as [[]|]; congruence.
Qed.

Lemma SFcompare_swap X Y :
  valid_binary X = true -> valid_binary Y = true ->
  SFcompare Y X = Some Lt -> SFcompare X Y = Some Gt.
Proof.
  intros VX VY.
  destruct X as [sx | sx | | sx mx ex], Y as [sy | sy | | sy my ey];
    try (try destruct sx; try destruct sy; cbn; congruence).
  cbn [valid_binary] in VX, VY. unfold bounded in VX, VY.
  apply andb_prop in VX as [CX _]. apply andb_prop in VY as [CY _].
  rewrite (SFcompare_finite sx mx ex sy my ey CX CY).
  rewrite (SFcompare_finite sy my ey sx mx ex CY CX).
  rewrite (Z.min_comm ey ex).
  intros [= H]. f_equal.
  rewrite Z.compare_lt_iff in H. rewrite Z.compare_gt_iff. lia.
Qed.

(** [x > y] makes the computed difference [x - y] positive. *)
Theorem sub_gt0 (x y : float) :
  (y <? x)%float = true -> (0 <? x - y)%float = true.
Proof.
  rewrite ltb_zero_l, FloatAxioms.sub_spec, FloatAxioms.ltb_spec. unfold SFltb.
  pose proof (SFsub_compare _ _ (Prim2SF_valid x) (Prim2SF_valid y)) as H.
  pose proof (SFcompare_swap _ _ (Prim2SF_valid x) (Prim2SF_valid y)) as S.
  destruct (SFcompare (Prim2SF y) (Prim2SF x)) as [[]|]; try discriminate.
  intros _. rewrite S in H by reflexivity. exact H.
Qed.

(** [x == y] leaves a difference that is neither negative nor positive
    (a zero, or NaN for two equal infinities). *)
Theorem sub_eq0 (x y : float) :
  (x =? y)%float = true ->
  (x - y <? 0)%float = false /\ (0 <? x - y)%float = false.
Proof.
  rewrite ltb_zero_r, ltb_zero_l, FloatAxioms.sub_spec, FloatAxioms.eqb_spec. unfold SFeqb.
  pose proof (SFsub_compare _ _ (Prim2SF_valid x) (Prim2SF_valid y)) as H.
  destruct (SFcompare (Prim2SF x) (Prim2SF y)) as [[]|]; try discriminate.
  intros _. exact H.
Qed.

(** A float cannot be both negative and positive. *)
Theorem lt0_not_gt0 (d : float) :
  (d <? 0)%float = true -> (0 <? d)%float = false.
Proof.
  rewrite ltb_zero_r, ltb_zero_l.
  destruct (Prim2SF d) as [s | s | | s m e]; try destruct s; cbn; congruence.
Qed.

Theorem gt0_not_lt0 (d : float) :
  (0 <? d)%float = true -> (d <? 0)%float = false.
Proof.
  rewrite ltb_zero_r, ltb_zero_l.
  destruct (Prim2SF d) as [s | s | | s m e]; try destruct s; cbn; congruence.
Qed.


End Binary64.

(** ** Binary64: exact operations

    Addition and subtraction round only what binary64 cannot represent.
    The lemmas below follow the rounding of the specification
    ([binary_round]) on a number that a valid float denotes, and conclude
    that the float is returned. *)

Section Binary64Exact.

Lemma float_exact_sf (f : float) : float_exact f = sf_exact (Prim2SF f).
Proof. reflexivity. Qed.

Lemma Qpower_2_nonneg (n : Z) : 0 <= n -> (Qpower (2 # 1) n == inject_Z (2 ^ n))%Q.
Proof.
  intros H. change (2 # 1)%Q with (inject_Z 2). symmetry. now apply Zpower_Qpower.
Qed.

Lemma Qpower_2_split (e k : Z) :
  k <= e -> (Qpower (2 # 1) e == inject_Z (2 ^ (e - k)) * Qpower (2 # 1) k)%Q.
Proof.
  intros H. replace e with ((e - k) + k) at 1 by lia.
  rewrite Qpower_plus by discriminate.
  now rewrite Qpower_2_nonneg by lia.
Qed.

Lemma Qpower_2_pos (k : Z) : (0 < Qpower (2 # 1) k)%Q.
Proof. apply Qpower_0_lt. reflexivity. Qed.

Lemma sf_exact_scaled (X : spec_float) (q : Q) (k : Z) :
  sf_exact X = Some q -> sf_exponent X k ->
  (q == inject_Z (scaled k X) * Qpower (2 # 1) k)%Q.
Proof.
  destruct X as [s | s | | s m e]; cbn; intros [= <-] Hk; try ring.
  rewrite (Qpower_2_split e k Hk), inject_Z_mult. ring.
Qed.

Lemma scaled_eq_of_Q (k a b : Z) :
  (inject_Z a * Qpower (2 # 1) k == inject_Z b * Qpower (2 # 1) k)%Q -> a = b.
Proof.
  intros H. apply Qmult_inj_r in H.
  - unfold Qeq in H. cbn in H. lia.
  - pose proof (Qpower_2_pos k) as P. intros E. rewrite E in P. discriminate P.
Qed.

(** Two positive numbers that agree up to powers of two have their digits
    that far apart. *)
Lemma digits_scaled (a b : positive) (i j : Z) :
  0 <= i -> 0 <= j -> Zpos a * 2 ^ i = Zpos b * 2 ^ j ->
  Zpos (digits2_pos a) + i = Zpos (digits2_pos b) + j.
Proof.
  intros Hi Hj H.
  pose proof (digits_bounds a) as [La Ua].
  pose proof (digits_bounds b) as [Lb Ub].
  assert (Pi : 0 < 2 ^ i) by (apply Z.pow_pos_nonneg; lia).
  assert (Pj : 0 < 2 ^ j) by (apply Z.pow_pos_nonneg; lia).
  assert (A1 : 2 ^ (Zpos (digits2_pos a) - 1 + i) <= Zpos a * 2 ^ i)
    by (rewrite Z.pow_add_r by lia; nia).
  assert (A2 : Zpos a * 2 ^ i < 2 ^ (Zpos (digits2_pos a) + i))
    by (rewrite Z.pow_add_r by lia; nia).
  assert (B1 : 2 ^ (Zpos (digits2_pos b) - 1 + j) <= Zpos b * 2 ^ j)
    by (rewrite Z.pow_add_r by lia; nia).
  assert (B2 : Zpos b * 2 ^ j < 2 ^ (Zpos (digits2_pos b) + j))
    by (rewrite Z.pow_add_r by lia; nia).
  rewrite H in A1, A2.
  assert (C1 : 2 ^ (Zpos (digits2_pos a) - 1 + i) < 2 ^ (Zpos (digits2_pos b) + j)) by lia.
  assert (C2 : 2 ^ (Zpos (digits2_pos b) - 1 + j) < 2 ^ (Zpos (digits2_pos a) + i)) by lia.
  apply Z.pow_lt_mono_r_iff in C1; [| lia | lia].
  apply Z.pow_lt_mono_r_iff in C2; [| lia | lia].
  lia.
Qed.

Lemma iter_xO_pow (m d : positive) : Zpos (Pos.iter xO m d) = Zpos m * 2 ^ Zpos d.
Proof.
  change (Pos.iter xO m d) with (shift_pos d m).
  rewrite shift_pos_correct. change (Z.pow_pos 2 d) with (2 ^ Zpos d). lia.
Qed.

(** Shifting out zeros is exact. *)
Lemma iter_shr_1_exact (d : positive) : forall m : positive,
  SpecFloat.iter_pos shr_1 d
    {| shr_m := Zpos (Pos.iter xO m d); shr_r := false; shr_s := false |}
  = {| shr_m := Zpos m; shr_r := false; shr_s := false |}.
Proof.
  induction d as [d IH | d IH |]; intros m; cbn [Pos.iter SpecFloat.iter_pos shr_1 orb].
  - rewrite IH, IH. reflexivity.
  - rewrite IH, IH. reflexivity.
  - reflexivity.
Qed.

Lemma aligned_pow (m : positive) (e ez : Z) :
  ez <= e -> aligned m e ez = Zpos m * 2 ^ (e - ez).
Proof.
  intros H. unfold aligned, shl_align.
  destruct (ez - e) as [| d | d] eqn:E; try lia; cbn [fst].
  - replace (e - ez) with 0 by lia. lia.
  - rewrite iter_xO_pow. f_equal. f_equal. lia.
Qed.

(** Rounding a number that a canonical float denotes gives that float. *)
Lemma binary_round_exact (s : bool) (M mp : positive) (ez ep k : Z) :
  bounded prec emax mp ep = true ->
  k <= ez -> k <= ep ->
  Zpos M * 2 ^ (ez - k) = Zpos mp * 2 ^ (ep - k) ->
  binary_round prec emax s M ez = S754_finite s mp ep.
Proof.
  intros [C B]%andb_prop Hz Hp H.
  pose proof (digits_scaled M mp (ez - k) (ep - k) ltac:(lia) ltac:(lia) H) as D.
  assert (F : fexp prec emax (Zpos (digits2_pos M) + ez) = ep).
  { unfold canonical_mantissa in C. apply Z.eqb_eq in C.
    replace (Zpos (digits2_pos M) + ez) with (Zpos (digits2_pos mp) + ep) by lia.
    exact C. }
  assert (Fp : fexp prec emax (Zpos (digits2_pos mp) + ep) = ep).
  { unfold canonical_mantissa in C. now apply Z.eqb_eq in C. }
  assert (Last : binary_round_aux prec emax s (Zpos mp) ep loc_Exact = S754_finite s mp ep).
  { unfold binary_round_aux, shr_fexp. cbn [Zdigits2]. rewrite Fp, Z.sub_diag.
    cbn [shr shr_record_of_loc shr_m loc_of_shr_record round_nearest_even Zdigits2].
    rewrite Fp, Z.sub_diag. cbn [shr shr_record_of_loc shr_m]. rewrite B. reflexivity. }
  unfold binary_round. rewrite F. unfold shl_align.
  destruct (ep - ez) as [| d | d] eqn:E.
  - assert (ez = ep) by lia. subst ez.
    assert (M = mp) by (apply Z.mul_cancel_r in H; [congruence | ];
                        apply Z.pow_nonzero; lia).
    subst M. exact Last.
  - (* ez < ep: the mantissa loses [d] zero bits *)
    assert (HM : M = Pos.iter xO mp d).
    { apply Pos2Z.inj. rewrite iter_xO_pow.
      replace (ep - k) with (Zpos d + (ez - k)) in H by lia.
      rewrite Z.pow_add_r in H by lia.
      apply (Z.mul_cancel_r _ _ (2 ^ (ez - k))); [apply Z.pow_nonzero; lia |].
      rewrite H. ring. }
    unfold binary_round_aux, shr_fexp. cbn [Zdigits2]. rewrite F, E.
    cbn [shr shr_record_of_loc]. rewrite HM, iter_shr_1_exact.
    cbn [shr_m loc_of_shr_record round_nearest_even Zdigits2].
    replace (ez + Zpos d) with ep by lia.
    rewrite Fp, Z.sub_diag. cbn [shr shr_record_of_loc shr_m]. rewrite B. reflexivity.
  - (* ep < ez: the mantissa is aligned on [ep] *)
    assert (HM : Pos.iter xO M d = mp).
    { apply Pos2Z.inj. rewrite iter_xO_pow.
      pose proof (Pos2Z.opp_pos d).
      replace (ez - k) with (Zpos d + (ep - k)) in H by lia.
      rewrite Z.pow_add_r in H by lia.
      apply (Z.mul_cancel_r _ _ (2 ^ (ep - k))); [apply Z.pow_nonzero; lia |].
      rewrite <- H. ring. }
    rewrite HM. exact Last.
Qed.

Lemma scaled_finite_sign (s : bool) (m : positive) (e k : Z) :
  k <= e ->
  (if s then scaled k (S754_finite s m e) < 0 else 0 < scaled k (S754_finite s m e)).
Proof.
  intros H. assert (0 < 2 ^ (e - k)) by (apply Z.pow_pos_nonneg; lia).
  destruct s; cbn; nia.
Qed.

(** Normalising a number that a valid float denotes gives that float, up to
    the sign of a zero. *)
Lemma binary_normalize_exact (z ez k : Z) (P : spec_float) :
  valid_binary P = true -> is_Some (sf_exact P) ->
  k <= ez -> sf_exponent P k ->
  z * 2 ^ (ez - k) = scaled k P ->
  sf_same (binary_normalize prec emax z ez false) P.
Proof.
  intros V F Hz Hp H.
  assert (Pz : 0 < 2 ^ (ez - k)) by (apply Z.pow_pos_nonneg; lia).
  destruct P as [sp | sp | | sp mp ep]; try (destruct F as [? F]; discriminate F).
  - cbn in H. assert (z = 0) by nia. subst z. right. eauto.
  - cbn [sf_exponent] in Hp. cbn [valid_binary] in V.
    pose proof (scaled_finite_sign sp mp ep k Hp) as S.
    destruct z as [| M | M]; cbn [binary_normalize].
    + destruct sp; lia.
    + destruct sp; [lia |]. left.
      apply (binary_round_exact false M mp ez ep k V Hz Hp). exact H.
    + destruct sp; [| lia]. left.
      apply (binary_round_exact true M mp ez ep k V Hz Hp).
      cbn in H. lia.
Qed.

(** A number has one valid float, up to the sign of zero. *)
Lemma sf_same_of_scaled (X P : spec_float) (k : Z) :
  valid_binary X = true -> valid_binary P = true ->
  is_Some (sf_exact X) -> is_Some (sf_exact P) ->
  sf_exponent X k -> sf_exponent P k ->
  scaled k X = scaled k P -> sf_same X P.
Proof.
  intros VX VP FX FP HX HP H.
  destruct X as [sx | sx | | sx mx ex]; try (destruct FX as [? FX]; discriminate FX);
    destruct P as [sp | sp | | sp mp ep]; try (destruct FP as [? FP]; discriminate FP).
  - right. eauto.
  - pose proof (scaled_finite_sign sp mp ep k HP) as S.
    rewrite <- H in S. cbn [scaled] in S. destruct sp; lia.
  - pose proof (scaled_finite_sign sx mx ex k HX) as S.
    rewrite H in S. cbn [scaled] in S. destruct sx; lia.
  - cbn [sf_exponent valid_binary] in *.
    pose proof (scaled_finite_sign sp mp ep k HP) as SP.
    pose proof (scaled_finite_sign sx mx ex k HX) as SX.
    assert (sx = sp) by (rewrite H in SX; destruct sx, sp; try reflexivity; lia).
    subst sp.
    assert (Hm : Zpos mx * 2 ^ (ex - k) = Zpos mp * 2 ^ (ep - k))
      by (unfold scaled, cond_Zopp in H; destruct sx; lia).
    pose proof (digits_scaled mx mp (ex - k) (ep - k) ltac:(lia) ltac:(lia) Hm) as D.
    apply andb_prop in VX as [CX _]. apply andb_prop in VP as [CP _].
    unfold canonical_mantissa in CX, CP. apply Z.eqb_eq in CX, CP.
    assert (ex = ep).
    { rewrite <- CX, <- CP. f_equal. lia. }
    subst ep. apply Z.mul_cancel_r in Hm; [| apply Z.pow_nonzero; lia].
    left. congruence.
Qed.

Lemma scaled_rescale (X : spec_float) (k k' : Z) :
  k <= k' -> sf_exponent X k' -> scaled k X = scaled k' X * 2 ^ (k' - k).
Proof.
  destruct X as [s | s | | s m e]; cbn; intros Hk He; try reflexivity.
  replace (e - k) with ((e - k') + (k' - k)) by lia.
  rewrite Z.pow_add_r by lia. ring.
Qed.

Lemma sf_exponent_low (X : spec_float) (k : Z) : k <= sf_low X -> sf_exponent X k.
Proof. destruct X; cbn; trivial. Qed.

Lemma scaled_of_values (X Y P : spec_float) (qx qy qp : Q) (k : Z) (sub : bool) :
  sf_exact X = Some qx -> sf_exact Y = Some qy -> sf_exact P = Some qp ->
  sf_exponent X k -> sf_exponent Y k -> sf_exponent P k ->
  (qp == if sub then qx - qy else qx + qy)%Q ->
  scaled k P = if sub then scaled k X - scaled k Y else scaled k X + scaled k Y.
Proof.
  intros EX EY EP HX HY HP H.
  pose proof (sf_exact_scaled X qx k EX HX) as Ex.
  pose proof (sf_exact_scaled Y qy k EY HY) as Ey.
  pose proof (sf_exact_scaled P qp k EP HP) as Ep.
  apply (scaled_eq_of_Q k). rewrite <- Ep, H.
  destruct sub; rewrite Ex, Ey.
  - unfold Z.sub. rewrite inject_Z_plus, inject_Z_opp. ring.
  - rewrite inject_Z_plus. ring.
Qed.

Lemma cond_Zopp_mul (s : bool) (a b : Z) : cond_Zopp s (a * b) = cond_Zopp s a * b.
Proof. destruct s; cbn; ring. Qed.

Lemma scaled_aligned (s : bool) (m : positive) (e ez : Z) :
  ez <= e -> cond_Zopp s (aligned m e ez) = scaled ez (S754_finite s m e).
Proof. intros H. rewrite aligned_pow by exact H. apply cond_Zopp_mul. Qed.

(** An addition or a subtraction whose exact result a valid float denotes
    returns that float, up to the sign of zero: binary64 rounds only what
    it cannot represent. *)
Lemma SF64_exact (sub : bool) (X Y P : spec_float) (qx qy qp : Q) :
  valid_binary X = true -> valid_binary Y = true -> valid_binary P = true ->
  sf_exact X = Some qx -> sf_exact Y = Some qy -> sf_exact P = Some qp ->
  (qp == if sub then qx - qy else qx + qy)%Q ->
  sf_same (if sub then SF64sub X Y else SF64add X Y) P.
Proof.
  intros VX VY VP EX EY EP H.
  set (k := Z.min (sf_low X) (Z.min (sf_low Y) (sf_low P))).
  assert (HX : sf_exponent X k) by (apply sf_exponent_low; lia).
  assert (HY : sf_exponent Y k) by (apply sf_exponent_low; lia).
  assert (HP : sf_exponent P k) by (apply sf_exponent_low; lia).
  pose proof (scaled_of_values X Y P qx qy qp k sub EX EY EP HX HY HP H) as S.
  assert (FP : is_Some (sf_exact P)) by eauto.
  clearbody k. clear H EP qp.
  destruct X as [sx | sx | | sx mx ex]; try discriminate EX;
    destruct Y as [sy | sy | | sy my ey]; try discriminate EY.
  - (* zero, zero *)
    assert (Z : scaled k P = 0) by (destruct sub; cbn in S; lia).
    assert (sf_same (S754_zero false) P) as [<- | (s1 & s2 & _ & ->)].
    { apply (sf_same_of_scaled _ P k); cbn; eauto. }
    + destruct sub, sx, sy; cbn; right; eauto.
    + destruct sub, sx, sy; cbn; right; eauto.
  - (* zero, finite *)
    destruct sub; cbn [SF64sub SFsub SF64add SFadd].
    + apply (sf_same_of_scaled _ P k); cbn [valid_binary sf_exact sf_exponent]; eauto.
      rewrite S. cbn. destruct sy; cbn; ring.
    + apply (sf_same_of_scaled _ P k); cbn [valid_binary sf_exact sf_exponent]; eauto.
  - (* finite, zero *)
    destruct sub; cbn [SF64sub SFsub SF64add SFadd];
      apply (sf_same_of_scaled _ P k); cbn [valid_binary sf_exact sf_exponent]; eauto;
      try (rewrite S; cbn; ring).
  - (* finite, finite *)
    cbn [sf_exponent] in HX, HY.
    assert (Hmin : k <= Z.min ex ey) by lia.
    pose proof (scaled_rescale (S754_finite sx mx ex) k (Z.min ex ey) Hmin
                  ltac:(cbn; lia)) as RX.
    pose proof (scaled_rescale (S754_finite sy my ey) k (Z.min ex ey) Hmin
                  ltac:(cbn; lia)) as RY.
    destruct sub; unfold SF64sub, SFsub, SF64add, SFadd; cbn zeta;
      fold (aligned mx ex (Z.min ex ey)) (aligned my ey (Z.min ex ey));
      rewrite !scaled_aligned by lia;
      apply (binary_normalize_exact _ _ k P VP FP Hmin HP);
      rewrite S, RX, RY; ring.
Qed.



Lemma sf_same_of_values (X P : spec_float) (qx qp : Q) :
  valid_binary X = true -> valid_binary P = true ->
  sf_exact X = Some qx -> sf_exact P = Some qp -> (qx == qp)%Q -> sf_same X P.
Proof.
  intros VX VP EX EP H.
  pose proof (SF64_exact false X (S754_zero false) P qx 0%Q qp VX eq_refl VP EX eq_refl EP)
    as S.
  cbn beta iota in S. specialize (S ltac:(rewrite H; ring)).
  destruct X as [sx | sx | | sx mx ex]; try discriminate EX; cbn in S.
  - destruct sx; cbn in S; destruct S as [<- | (a & b & _ & ->)]; right; eauto.
  - exact S.
Qed.








Lemma float_one_only (f : float) : float_eq_int f 1 = true <-> f = 1%float.
Proof.
  split.
  - unfold float_eq_int. destruct (float_exact f) as [q |] eqn:E; [| discriminate].
    intros H%Qeq_bool_iff.
    assert (S : sf_same (Prim2SF f) (Prim2SF 1)).
    { apply (sf_same_of_values _ _ q (float_value 1));
        [apply Prim2SF_valid | apply Prim2SF_valid | exact E | reflexivity |].
      rewrite H. vm_compute. reflexivity. }
    apply Prim2SF_inj. destruct S as [S | (s & s' & _ & S)]; [exact S |].
    vm_compute in S. discriminate S.
  - intros ->. vm_compute. reflexivity.
Qed.







End Binary64Exact.

(** ** Running endpoints *)

Ltac unfold_monad :=
  unfold frappe_throw, raise, record_read, frappe_set_user, nowdate, gets, modify,
    mbind, M_bind, mret, M_ret in *.

Section SalesInvoice.

Lemma items_fold_append (rows : list SheetItem) : forall si,
  map invoice_line (items (fold_left append_items rows si)) =
  map invoice_line (items si) ++ map sheet_line rows.
Proof.
  induction rows as [| row rows IH]; intros si; simpl.
  - now rewrite app_nil_r.
  - rewrite IH. simpl. rewrite map_app, <- app_assoc. reflexivity.
Qed.

Lemma discount_fold_append (rows : list SheetItem) : forall si,
  apply_discount_on (fold_left append_items rows si) = apply_discount_on si /\
  discount_amount (fold_left append_items rows si) = discount_amount si /\
  additional_discount_percentage (fold_left append_items rows si)
  = additional_discount_percentage si.
Proof.
  induction rows as [| row rows IH]; intros si; simpl; [auto |].
  destruct (IH (append_items si row)) as (-> & -> & ->). auto.
Qed.

Lemma customer_fold_append (rows : list SheetItem) : forall si,
  si_customer (fold_left append_items rows si) = si_customer si.
Proof.
  induction rows as [| row rows IH]; intros si; simpl; [reflexivity |].
  now rewrite IH.
Qed.

Lemma first_item_code_nil_not_comboex : first_item_code [] <> "comboex".
Proof. discriminate. Qed.

Example lower_ComboEx : lower "ComboEx" = "comboex".
Proof. reflexivity. Qed.

Example sum_of_item_lines_combo : sum_of_item_lines (item sheet_combo) = 200%float.
Proof. reflexivity. Qed.

(** A combo worth 200 sold for 150 is invoiced with a discount of 50, which
    takes the line total of 200 down to the price. *)
Example create_sales_invoice_combo_50 :
  exists name si s',
    create_sales_invoice "CSS-0001" sample_site = (Return name, s') /\
    tabSales_Invoice s' !! name = Some si /\
    discount_amount si = Some 50%float /\
    (200 - 50 =? price sheet_combo)%float = true.
Proof.
  eexists _, _, _. split; [vm_compute; reflexivity |].
  split; [vm_compute; reflexivity |]. split; reflexivity.
Qed.

(** A combo sheet priced above its lines is invoiced without discount: the
    invoice stays at the line total (here 100 against a price of 150). *)
Example create_sales_invoice_combo_under_price :
  exists name si s',
    create_sales_invoice "CSS-0005" sample_site = (Return name, s') /\
    tabSales_Invoice s' !! name = Some si /\
    discount_amount si = None /\ apply_discount_on si = None.
Proof.
  eexists _, _, _. split; [vm_compute; reflexivity |].
  split; [vm_compute; reflexivity |]. split; reflexivity.
Qed.

(** What a successful run leaves behind: the sheet was read, and the staged
    invoice is stored, final, under a name that was free. *)
Lemma create_sales_invoice_stored (s : Site) (si : SalesInvoice) (name : string) :
  name = fresh (dom (tabSales_Invoice s)) ->
  tabSales_Invoice s !! name = None /\
  (<[name := si_with_docstatus 1 si]> (<[name := si]> (tabSales_Invoice s))) !! name
  = Some (si_with_docstatus 1 si).
Proof.
  intros ->. split.
  - apply not_elem_of_dom, is_fresh.
  - apply lookup_insert_eq.
Qed.





(** C2, as amended.  A sheet with a linked customer whose line sum is below
    its price and whose first item code, lowercased, is not ["comboex"] (the
    empty string when it has no lines) is refused with the under-price
    message, and no document is stored or changed. *)
Theorem create_sales_invoice_under_price
  (s : Site) (name : string) (doc : ServiceSheet) :
  tabCustomer_Service_Sheet s !! name = Some doc ->
  str_truthy (erp_customer doc) = true ->
  (sum_of_item_lines (item doc) <? price doc)%float = true ->
  first_item_code (item doc) <> "comboex" ->
  exists s' : Site,
    create_sales_invoice name s = (Raise (ValidationError under_price_message), s') /\
    same_documents s s'.
Proof.
  intros Hdoc Hcust Hlt Hfirst.
  apply sub_lt0 in Hlt.
  apply String.eqb_neq in Hfirst.
  unfold create_sales_invoice, frappe_get_doc_Customer_Service_Sheet. unfold_monad.
  cbn. rewrite Hdoc, Hcust. cbn. rewrite Hlt, Hfirst. cbn.
  eexists. split; [reflexivity |]. repeat split.
Qed.

Lemma create_sales_invoice_under_price_witness :
  exists s' : Site,
    create_sales_invoice "CSS-0003" sample_site
    = (Raise (ValidationError under_price_message), s') /\
    same_documents sample_site s'.
Proof.
  apply (create_sales_invoice_under_price sample_site "CSS-0003" sheet_short);
    [vm_compute; reflexivity .. | discriminate].
Defined.

(** C2 as stated fails on a sheet with no linked customer: its line sum (0,
    no lines) is below its price (10) and its first item code is the empty
    string, yet the run is refused with the missing-customer message, which
    is not the under-price message. *)
Lemma create_sales_invoice_unlinked_counterexample :
  tabCustomer_Service_Sheet sample_site !! "CSS-0004" = Some sheet_unlinked /\
  (sum_of_item_lines (item sheet_unlinked) <? price sheet_unlinked)%float = true /\
  first_item_code (item sheet_unlinked) <> "comboex" /\
  fst (create_sales_invoice "CSS-0004" sample_site)
  = Raise (ValidationError no_customer_message) /\
  fst (create_sales_invoice "CSS-0004" sample_site)
  <> Raise (ValidationError under_price_message).
Proof.
  repeat split; try (vm_compute; reflexivity); vm_compute; discriminate.
Qed.

(** The zero-line case: the line sum is 0 and the first code is empty, so any
    positive price is refused as under-priced. *)
Lemma create_sales_invoice_no_lines (s : Site) (name : string) (doc : ServiceSheet) :
  tabCustomer_Service_Sheet s !! name = Some doc ->
  str_truthy (erp_customer doc) = true ->
  item doc = [] ->
  (0 <? price doc)%float = true ->
  fst (create_sales_invoice name s) = Raise (ValidationError under_price_message).
Proof.
  intros Hdoc Hcust Hnil Hpos.
  apply sub_lt0 in Hpos.
  unfold create_sales_invoice, frappe_get_doc_Customer_Service_Sheet. unfold_monad.
  cbn. rewrite Hdoc, Hcust. cbn. rewrite Hnil. cbn. rewrite Hpos. reflexivity.
Qed.

(** C5.  A sheet with a linked customer whose line sum equals its price is
    invoiced: the run returns the name of a new, submitted invoice whose
    discount fields are not set and whose lines carry the item code,
    quantity and rate of the sheet's lines, in order. *)
Theorem create_sales_invoice_exact_price
  (s : Site) (name : string) (doc : ServiceSheet) :
  tabCustomer_Service_Sheet s !! name = Some doc ->
  str_truthy (erp_customer doc) = true ->
  (sum_of_item_lines (item doc) =? price doc)%float = true ->
  exists (si_name : string) (si : SalesInvoice) (s' : Site),
    create_sales_invoice name s = (Return si_name, s') /\
    tabSales_Invoice s !! si_name = None /\
    tabSales_Invoice s' !! si_name = Some si /\
    si_docstatus si = 1 /\
    si_customer si = erp_customer doc /\
    apply_discount_on si = None /\
    discount_amount si = None /\
    additional_discount_percentage si = None /\
    map invoice_line (items si) = map sheet_line (item doc).
Proof.
  intros Hdoc Hcust Heq.
  apply sub_eq0 in Heq as [Hnlt Hngt].
  unfold create_sales_invoice, frappe_get_doc_Customer_Service_Sheet,
    insert_Sales_Invoice, submit_Sales_Invoice.
  unfold_monad. cbn. rewrite Hdoc, Hcust. cbn. rewrite Hnlt, Hngt. cbn.
  set (si := fold_left _ _ _).
  destruct (create_sales_invoice_stored s si _ eq_refl) as [Hnew Hget].
  exists (fresh (dom (tabSales_Invoice s))), (si_with_docstatus 1 si). eexists.
  split; [reflexivity |]. split; [exact Hnew |]. split; [exact Hget |].
  subst si. cbn.
  destruct (discount_fold_append (item doc)
              (new_sales_invoice doc (today s))) as (-> & -> & ->).
  rewrite items_fold_append, customer_fold_append. cbn. auto 10.
Qed.

Lemma create_sales_invoice_exact_price_witness :
  exists (si_name : string) (si : SalesInvoice) (s' : Site),
    create_sales_invoice "CSS-0002" sample_site = (Return si_name, s') /\
    tabSales_Invoice sample_site !! si_name = None /\
    tabSales_Invoice s' !! si_name = Some si /\
    si_docstatus si = 1 /\
    si_customer si = erp_customer sheet_exact /\
    apply_discount_on si = None /\
    discount_amount si = None /\
    additional_discount_percentage si = None /\
    map invoice_line (items si) = map sheet_line (item sheet_exact).
Proof.
  apply (create_sales_invoice_exact_price sample_site "CSS-0002" sheet_exact);
    vm_compute; reflexivity.
Defined.

End SalesInvoice.

Section JournalEntry.

#[local] Arguments computed_total : simpl never.
#[local] Arguments selected_total_field : simpl never.
#[local] Arguments journal_lines : simpl never.






(** C3.  When the computed net payment differs from the declared selected
    total under binary64 equality, however slightly, the run is refused with
    the mismatch message and leaves the site untouched: no Journal Entry is
    inserted or submitted. *)
Theorem create_journal_entry2_mismatch
  (s : Site) (agent_payment : AgentPayment) (selected_invoices : list SelectedInvoice) :
  (computed_total agent_payment selected_invoices
   =? selected_total_field agent_payment)%float = false ->
  create_journal_entry2 agent_payment selected_invoices s
  = (Raise (ValidationError
              (mismatch_message (computed_total agent_payment selected_invoices)
                                (selected_total_field agent_payment))), s).
Proof.
  intros Hne. unfold create_journal_entry2. unfold_monad. cbn.
  rewrite Hne. reflexivity.
Qed.

Lemma create_journal_entry2_mismatch_witness :
  create_journal_entry2 payment_2_1 invoices_3_4 sample_site
  = (Raise (ValidationError
              (mismatch_message (computed_total payment_2_1 invoices_3_4)
                                (selected_total_field payment_2_1))), sample_site).
Proof.
  apply (create_journal_entry2_mismatch sample_site payment_2_1 invoices_3_4).
  vm_compute. reflexivity.
Defined.










(** The net alone being exact does not balance the running totals.  An
    agent pays 56.39 for an invoice of 207.97, less 78.34 and 73.24: both
    subtractions of the net are exact and the exact sums balance, but
    [56.39 + 78.34] rounds, and the debits add up to [207.97000000000003]. *)
Example create_journal_entry2_running_totals_round :
  (computed_total payment_56_39 invoices_207_97
   =? selected_total_field payment_56_39)%float = true /\
  (float_value (computed_total payment_56_39 invoices_207_97) ==
   exact_sum (map outstanding invoices_207_97)
   - float_value (commission payment_56_39) - float_value (charges payment_56_39))%Q /\
  py_sum (map debit_in_account_currency
            (journal_lines payment_56_39 invoices_207_97 None None))
  = 207.97000000000003%float /\
  py_sum (map credit_in_account_currency
            (journal_lines payment_56_39 invoices_207_97 None None))
  = 207.97%float.
Proof. repeat split; vm_compute; reflexivity. Qed.

End JournalEntry.

Section CustomerCreation.

(** C6 fails on the code.  With [country = "Ghana"] and a default account
    supplied, building the child row reads the unbound name [company]: the
    run raises [NameError] before the customer is inserted, so no row is
    appended, nothing is stored and no identifier is returned. *)
Theorem create_customer_ghana_account_raises
  (s : Site) (customer_name : string)
  (default_account billing_currency email mobile : option string) :
  str_truthy default_account = true ->
  create_customer customer_name (Some "Ghana") default_account billing_currency
                  email mobile s
  = (Raise (NameError "company"), s).
Proof.
  intros Hacc. unfold create_customer, load_name_company. unfold_monad. cbn.
  destruct default_account as [account |]; [| discriminate].
  rewrite Hacc. reflexivity.
Qed.

Lemma create_customer_ghana_account_raises_witness :
  create_customer "Ama" (Some "Ghana") (Some "Debtors - GH") (Some "GHS")
                  (Some "ama@tk.example") (Some "0240") sample_site
  = (Raise (NameError "company"), sample_site).
Proof.
  apply (create_customer_ghana_account_raises sample_site "Ama" (Some "Debtors - GH")).
  reflexivity.
Defined.

(** Without a default account the Ghana branch does what the docstring
    says: the customer is stored with territory ["Ghana"] and its name is
    returned. *)
Lemma create_customer_ghana_territory
  (s : Site) (customer_name : string) (billing_currency email mobile : option string) :
  existsb (String.eqb customer_name) (map fst (tabCustomer s)) = false ->
  create_customer customer_name (Some "Ghana") None billing_currency email mobile s
  = (Return customer_name,
     with_tabCustomer
       ((customer_name,
         with_territory "Ghana"
           (new_customer customer_name (Some "Ghana") billing_currency email mobile))
        :: tabCustomer s) s).
Proof.
  intros Hnew. unfold create_customer, insert_Customer. unfold_monad. cbn.
  rewrite Hnew. reflexivity.
Qed.

(** Any other country keeps the default territory. *)
Lemma create_customer_default_territory
  (s : Site) (customer_name : string)
  (country default_account billing_currency email mobile : option string) :
  is_Ghana country = false ->
  existsb (String.eqb customer_name) (map fst (tabCustomer s)) = false ->
  create_customer customer_name country default_account billing_currency email mobile s
  = (Return customer_name,
     with_tabCustomer
       ((customer_name,
         new_customer customer_name country billing_currency email mobile)
        :: tabCustomer s) s).
Proof.
  intros Hc Hnew. unfold create_customer, insert_Customer, get_country. unfold_monad.
  cbn. rewrite Hc. cbn. rewrite Hnew. reflexivity.
Qed.

End CustomerCreation.

Section ExchangeRate.

#[local] Arguments rate_on_or_before : simpl never.

(** C8.  For the base currency the rate is [1.0] whatever the date, and the
    site is left as it was: no read is issued against the store. *)
Theorem get_exchange_rate_NGN (s : Site) (date : Z) :
  get_exchange_rate "NGN" date s = (Return 1%float, s) /\
  db_reads (snd (get_exchange_rate "NGN" date s)) = db_reads s.
Proof. split; reflexivity. Qed.

Lemma latest_from (rows : list CurrencyExchange) : forall b,
  exists r, fold_left later rows (Some b) = Some r /\
            (r = b \/ In r rows) /\
            ce_date b <= ce_date r /\
            (forall r', In r' rows -> ce_date r' <= ce_date r).
Proof.
  induction rows as [| x rows IH]; intros b; simpl.
  - exists b. repeat split; auto; try lia.
  - destruct (Z.ltb_spec (ce_date b) (ce_date x)) as [Hlt | Hge].
    + destruct (IH x) as (r & Hr & Hin & Hle & Hmax).
      exists r. split; [exact Hr |]. split; [| split].
      * destruct Hin as [-> | Hin]; auto.
      * lia.
      * intros r' [<- | Hr']; auto.
    + destruct (IH b) as (r & Hr & Hin & Hle & Hmax).
      exists r. split; [exact Hr |]. split; [| split].
      * destruct Hin as [-> | Hin]; auto.
      * exact Hle.
      * intros r' [<- | Hr']; [lia | auto].
Qed.

Lemma latest_nil_iff (rows : list CurrencyExchange) :
  latest rows = None <-> rows = [].
Proof.
  unfold latest. destruct rows as [| x rows]; simpl.
  - tauto.
  - destruct (latest_from rows x) as (r & Hr & _). rewrite Hr.
    split; discriminate.
Qed.

Lemma latest_is_max (rows : list CurrencyExchange) (r : CurrencyExchange) :
  latest rows = Some r ->
  In r rows /\ forall r', In r' rows -> ce_date r' <= ce_date r.
Proof.
  unfold latest. destruct rows as [| x rows]; simpl; [discriminate |].
  destruct (latest_from rows x) as (r0 & Hr & Hin & Hle & Hmax).
  rewrite Hr. intros [= <-]. split.
  - destruct Hin as [-> | Hin]; auto.
  - intros r' [<- | Hr']; auto.
Qed.

Lemma in_candidates (currency : string) (date : Z) (s : Site) (r : CurrencyExchange) :
  In r (candidates currency date s) <->
  In r (tabCurrency_Exchange s) /\ from_currency r = currency /\
  to_currency r = "NGN" /\ ce_date r <= date.
Proof.
  unfold candidates, rate_applies. rewrite filter_In, !andb_true_iff.
  rewrite !String.eqb_eq, Z.leb_le. tauto.
Qed.

(** What the endpoint does for a foreign currency, in terms of the row the
    store selects. *)
Lemma get_exchange_rate_run (s : Site) (currency : string) (date : Z) :
  currency <> "NGN" ->
  fst (get_exchange_rate currency date s) =
  match rate_on_or_before currency "NGN" date s with
  | Some r =>
      if float_truthy (exchange_rate r) then Return (exchange_rate r)
      else Raise (ValidationError (rate_not_found_message currency date))
  | None => Raise (ValidationError (rate_not_found_message currency date))
  end.
Proof.
  intros Hc%String.eqb_neq.
  unfold get_exchange_rate, frappe_db_get_value_exchange_rate. rewrite Hc.
  unfold_monad. cbn.
  change (rate_on_or_before currency "NGN" date (with_db_reads _ s))
    with (rate_on_or_before currency "NGN" date s).
  destruct (rate_on_or_before currency "NGN" date s) as [r |]; cbn; [| reflexivity].
  destruct (float_truthy (exchange_rate r)); reflexivity.
Qed.

(** C7, as amended.  For a foreign currency the endpoint returns a number or
    raises the not-found error, never [None].  What it returns is the
    non-zero [exchange_rate] of a Currency Exchange row for (currency -> NGN)
    dated on or before the given date, no other such row being more recent.
    It raises exactly when there is no such row or when the most recent row
    the store selects holds a rate of zero. *)
Theorem get_exchange_rate_latest (s : Site) (currency : string) (date : Z) :
  currency <> "NGN" ->
  let run := fst (get_exchange_rate currency date s) in
  (forall x, run = Return x ->
     exists r, In r (tabCurrency_Exchange s) /\
               from_currency r = currency /\ to_currency r = "NGN" /\
               ce_date r <= date /\
               (forall r', In r' (candidates currency date s) -> ce_date r' <= ce_date r) /\
               exchange_rate r = x /\ float_truthy x = true) /\
  ((exists x, run = Return x) \/
   run = Raise (ValidationError (rate_not_found_message currency date))) /\
  ((exists e, run = Raise e) <->
   candidates currency date s = [] \/
   exists r, rate_on_or_before currency "NGN" date s = Some r /\
             (exchange_rate r =? 0)%float = true).
Proof.
  intros Hc run. subst run. rewrite (get_exchange_rate_run s currency date Hc).
  unfold rate_on_or_before. fold (candidates currency date s).
  destruct (latest (candidates currency date s)) as [r |] eqn:Hl.
  - destruct (latest_is_max _ _ Hl) as [Hin Hmax].
    apply in_candidates in Hin as (Hin & Hfrom & Hto & Hdate).
    unfold float_truthy.
    destruct (exchange_rate r =? 0)%float eqn:Hz; cbn.
    + split; [intros x [=] |]. split; [now right |].
      split; [intros _; right; eauto |]. intros _. eauto.
    + split; [intros x [= <-]; exists r; rewrite Hz; auto 10 |].
      split; [left; eauto |].
      split; [intros [e [=]] |].
      intros [Hnil | (r0 & [= <-] & Hz0)]; [| congruence].
      apply latest_nil_iff in Hnil. congruence.
  - apply latest_nil_iff in Hl.
    split; [intros x [=] |]. split; [now right |].
    split; [intros _; now left |]. intros _. eauto.
Qed.

Example get_exchange_rate_USD_250 :
  fst (get_exchange_rate "USD" 250 sample_site) = Return 1600%float.
Proof. vm_compute. reflexivity. Qed.

(** A rate dated after the requested day is not considered. *)
Example get_exchange_rate_USD_150 :
  fst (get_exchange_rate "USD" 150 sample_site) = Return 1500%float.
Proof. vm_compute. reflexivity. Qed.

Example get_exchange_rate_USD_50 :
  fst (get_exchange_rate "USD" 50 sample_site)
  = Raise (ValidationError (rate_not_found_message "USD" 50)).
Proof. vm_compute. reflexivity. Qed.

Lemma get_exchange_rate_latest_witness :
  let run := fst (get_exchange_rate "USD" 250 sample_site) in
  (forall x, run = Return x ->
     exists r, In r (tabCurrency_Exchange sample_site) /\
               from_currency r = "USD" /\ to_currency r = "NGN" /\
               ce_date r <= 250 /\
               (forall r', In r' (candidates "USD" 250 sample_site) ->
                           ce_date r' <= ce_date r) /\
               exchange_rate r = x /\ float_truthy x = true) /\
  ((exists x, run = Return x) \/
   run = Raise (ValidationError (rate_not_found_message "USD" 250))) /\
  ((exists e, run = Raise e) <->
   candidates "USD" 250 sample_site = [] \/
   exists r, rate_on_or_before "USD" "NGN" 250 sample_site = Some r /\
             (exchange_rate r =? 0)%float = true).
Proof.
  apply (get_exchange_rate_latest sample_site "USD" 250). discriminate.
Defined.

(** C7 as stated fails on a stored rate of zero: a Currency Exchange row for
    (GHS -> NGN) dated on the requested day exists, and the run raises the
    not-found error all the same. *)
Lemma get_exchange_rate_zero_rate_counterexample :
  "GHS" <> "NGN" /\
  In ghs_day_150 (candidates "GHS" 150 sample_site) /\
  candidates "GHS" 150 sample_site <> [] /\
  fst (get_exchange_rate "GHS" 150 sample_site)
  = Raise (ValidationError (rate_not_found_message "GHS" 150)).
Proof.
  split; [discriminate |]. split; [vm_compute; auto |].
  split; [vm_compute; discriminate |]. vm_compute. reflexivity.
Qed.

End ExchangeRate.

Section CustomerSearch.

#[local] Arguments customers_by : simpl never.

Lemma reads_issued_app (s : Site) (l : list Query) :
  reads_issued s (with_db_reads (db_reads s ++ l) s) = l.
Proof. unfold reads_issued. cbn. apply drop_app_length. Qed.

Lemma reads_issued_refl (s : Site) : reads_issued s s = [].
Proof. unfold reads_issued. apply drop_all. Qed.

(** The run of [search_customer], case by case. *)
Lemma search_customer_run (s : Site) (email mobile : option string) :
  search_customer email mobile s =
  match match_by "email_id" email s with
  | Some name =>
      (Return (Some name),
       with_db_reads (db_reads s ++ [Q_get_all "Customer" "email_id" (default "" email)]) s)
  | None =>
      let s1 := if str_truthy email
                then with_db_reads
                       (db_reads s ++ [Q_get_all "Customer" "email_id" (default "" email)]) s
                else s in
      (Return (match_by "mobile_no" mobile s),
       if str_truthy mobile
       then with_db_reads
              (db_reads s1 ++ [Q_get_all "Customer" "mobile_no" (default "" mobile)]) s1
       else s1)
  end.
Proof.
  unfold search_customer, match_by, frappe_get_all_Customer. unfold_monad.
  destruct email as [e |], mobile as [m |]; cbn;
    repeat match goal with
      | |- context [customers_by ?f ?v (with_db_reads ?l ?st)] =>
          change (customers_by f v (with_db_reads l st)) with (customers_by f v st)
      | |- context [negb (?x =? "")%string] => destruct (negb (x =? "")%string); cbn
      | |- context [head (customers_by ?f ?v s)] =>
          destruct (head (customers_by f v s)); cbn
      end;
    reflexivity.
Qed.

(** C9.  When the email lookup and the mobile lookup find different
    customers, the run returns the one found by email and never issues the
    mobile lookup.  In every run the mobile lookup is issued only when the
    email is missing or empty or matches no customer; and when neither
    lookup matches, the run returns [None]. *)
Theorem search_customer_email_first
  (s : Site) (email mobile : option string) :
  (forall by_email by_mobile : string,
     match_by "email_id" email s = Some by_email ->
     match_by "mobile_no" mobile s = Some by_mobile ->
     by_email <> by_mobile ->
     fst (search_customer email mobile s) = Return (Some by_email) /\
     existsb is_mobile_lookup (reads_issued s (snd (search_customer email mobile s)))
     = false) /\
  (existsb is_mobile_lookup (reads_issued s (snd (search_customer email mobile s)))
   = true ->
   email = None \/ email = Some "" \/
   exists e, email = Some e /\ customers_by "email_id" e s = []) /\
  (match_by "email_id" email s = None ->
   match_by "mobile_no" mobile s = None ->
   fst (search_customer email mobile s) = Return None).
Proof.
  rewrite search_customer_run. split; [| split].
  - intros by_email by_mobile He Hm Hne. rewrite He. cbn.
    rewrite reads_issued_app. split; reflexivity.
  - destruct (match_by "email_id" email s) as [n |] eqn:He; cbn.
    + rewrite reads_issued_app. discriminate.
    + intros _. unfold match_by in He.
      destruct email as [e |]; [| now left].
      cbn in He. destruct (String.eqb_spec e "") as [-> | Hne]; cbn in He.
      * right; now left.
      * right; right. exists e. split; [reflexivity |].
        destruct (customers_by "email_id" e s); [reflexivity | discriminate].
  - intros -> ->. reflexivity.
Qed.

Lemma search_customer_email_first_witness :
  fst (search_customer (Some "ada@tk.example") (Some "0802") sample_site)
  = Return (Some "CUST-0001") /\
  existsb is_mobile_lookup
    (reads_issued sample_site
       (snd (search_customer (Some "ada@tk.example") (Some "0802") sample_site)))
  = false.
Proof.
  apply (proj1 (search_customer_email_first sample_site (Some "ada@tk.example")
                  (Some "0802")) "CUST-0001" "CUST-0002");
    [vm_compute; reflexivity | vm_compute; reflexivity | discriminate].
Defined.

End CustomerSearch.

Section RoleAdministration.

(** The values the membership test [active in [True, "1", 1]] accepts: the
    three listed ones and the float [1.0], which Python holds equal to [1]. *)
Lemma py_in_active (active : value) :
  py_in active [VBool true; VStr "1"; VInt 1] = true <-> is_active active.
Proof.
  unfold py_in, is_active. cbn [existsb]. rewrite !orb_true_iff.
  intuition discriminate.
Qed.

Lemma is_active_cases (active : value) :
  is_active active <->
  active = VBool true \/ active = VStr "1" \/ active = VInt 1 \/
  exists f, active = VFloat f /\ float_eq_int f 1 = true.
Proof.
  unfold is_active. split.
  - destruct active as [| b | z | f | t]; cbn [py_eq];
      intros [H | [H | H]]; try discriminate H;
      try (destruct b; first [now auto | discriminate H]);
      try (apply Z.eqb_eq in H; cbn in H; subst; now auto);
      try (apply String.eqb_eq in H; subst; now auto);
      right; right; right; eexists; split; try reflexivity; exact H.
  - intros [-> | [-> | [-> | (f & -> & H)]]]; cbn; auto.
Qed.

Lemma new_role_cases (active : value) :
  (is_active active /\ new_role active = "Customer Service") \/
  (~ is_active active /\ new_role active = "Test").
Proof.
  unfold new_role.
  destruct (py_in active [VBool true; VStr "1"; VInt 1]) eqn:H.
  - left. split; [now apply py_in_active | reflexivity].
  - right. split; [| reflexivity].
    intros Ha%py_in_active. congruence.
Qed.


Example update_user_role_checked :
  tabUser (snd (update_user_role "cs@tk.example" (VStr "1") sample_site))
  !! "cs@tk.example" = Some "Customer Service".
Proof. vm_compute. reflexivity. Qed.

(** When the store's update raises, the exception reaches the caller and
    the session user is back to the caller's. *)
Example update_user_role_store_down :
  update_user_role_with store_down "cs@tk.example" (VBool true) sample_site
  = (Raise (DatabaseError "connection lost"), sample_site).
Proof. reflexivity. Qed.

Example new_role_float_one : new_role (VFloat 1%float) = "Customer Service".
Proof. vm_compute. reflexivity. Qed.

(** The values [active in [True, "1", 1]] accepts, one by one: a float
    equals [True] or [1] only when it is [1.0]. *)
Lemma is_active_explicit (active : value) :
  is_active active <->
  active = VBool true \/ active = VStr "1" \/ active = VInt 1 \/ active = VFloat 1.
Proof.
  rewrite is_active_cases. split.
  - intros [H | [H | [H | (f & -> & H%float_one_only)]]]; subst; auto.
  - intros [H | [H | [H | ->]]]; auto.
    right; right; right. exists 1%float. split; [reflexivity |].
    now apply float_one_only.
Qed.


End RoleAdministration.

(** ** Further properties of the endpoints *)

Section Binary64Converse.

Lemma SFcompare_swap_gt X Y :
  valid_binary X = true -> valid_binary Y = true ->
  SFcompare X Y = Some Gt -> SFcompare Y X = Some Lt.
Proof.
  intros VX VY.
  destruct X as [sx | sx | | sx mx ex], Y as [sy | sy | | sy my ey];
    try (try destruct sx; try destruct sy; cbn; congruence).
  cbn [valid_binary] in VX, VY. unfold bounded in VX, VY.
  apply andb_prop in VX as [CX _]. apply andb_prop in VY as [CY _].
  rewrite (SFcompare_finite sx mx ex sy my ey CX CY).
  rewrite (SFcompare_finite sy my ey sx mx ex CY CX).
  rewrite (Z.min_comm ey ex).
  intros [= H]. f_equal.
  rewrite Z.compare_gt_iff in H. rewrite Z.compare_lt_iff. lia.
Qed.

(** Testing the sign of a difference is testing the order of its operands. *)
Lemma ltb_sub_zero (x y : float) : (x - y <? 0)%float = (x <? y)%float.
Proof.
  destruct (x <? y)%float eqn:Hxy; [now apply sub_lt0 |].
  rewrite ltb_zero_r, FloatAxioms.sub_spec.
  rewrite FloatAxioms.ltb_spec in Hxy. unfold SFltb in Hxy.
  pose proof (SFsub_compare _ _ (Prim2SF_valid x) (Prim2SF_valid y)) as H.
  destruct (SFcompare (Prim2SF x) (Prim2SF y)) as [[]|]; try discriminate; try tauto.
  destruct (SF64sub (Prim2SF x) (Prim2SF y)) as [| [] | | [] ? ?]; cbn in *; congruence.
Qed.

Lemma zero_ltb_sub (x y : float) : (0 <? x - y)%float = (y <? x)%float.
Proof.
  destruct (y <? x)%float eqn:Hyx; [now apply sub_gt0 |].
  rewrite ltb_zero_l, FloatAxioms.sub_spec.
  rewrite FloatAxioms.ltb_spec in Hyx. unfold SFltb in Hyx.
  pose proof (SFsub_compare _ _ (Prim2SF_valid x) (Prim2SF_valid y)) as H.
  pose proof (SFcompare_swap_gt _ _ (Prim2SF_valid x) (Prim2SF_valid y)) as S.
  destruct (SFcompare (Prim2SF x) (Prim2SF y)) as [[]|]; try tauto.
  - destruct (SF64sub (Prim2SF x) (Prim2SF y)) as [| [] | | [] ? ?]; cbn in *; congruence.
  - rewrite S in Hyx by reflexivity. discriminate.
Qed.

End Binary64Converse.

Section SalesInvoiceOutcomes.

#[local] Arguments difference : simpl never.
#[local] Arguments staged_invoice : simpl never.

(** Every run of [create_sales_invoice], case by case. *)
Lemma create_sales_invoice_run (s : Site) (name : string) :
  create_sales_invoice name s =
  let s1 := with_db_reads
              (db_reads s ++ [Q_get_doc "Customer Service Sheet" name]) s in
  match tabCustomer_Service_Sheet s !! name with
  | None => (Raise (DoesNotExistError "Customer Service Sheet" name), s1)
  | Some doc =>
      if negb (str_truthy (erp_customer doc))
      then (Raise (ValidationError no_customer_message), s1)
      else if ((difference doc <? 0)%float && negb (is_combo doc))%bool
      then (Raise (ValidationError under_price_message), s1)
      else if (negb (difference doc <? 0)%float && (0 <? difference doc)%float
               && negb (is_combo doc))%bool
      then (Raise (ValidationError over_price_message), s1)
      else
        let si := staged_invoice doc (today s) in
        let si_name := fresh (dom (tabSales_Invoice s)) in
        (Return si_name,
         with_tabSales_Invoice
           (<[si_name := si_with_docstatus 1 si]>
              (<[si_name := si]> (tabSales_Invoice s)))
           (with_tabSales_Invoice (<[si_name := si]> (tabSales_Invoice s)) s1))
  end.
Proof.
  unfold create_sales_invoice, frappe_get_doc_Customer_Service_Sheet,
    insert_Sales_Invoice, submit_Sales_Invoice.
  unfold_monad. cbn.
  destruct (tabCustomer_Service_Sheet s !! name) as [doc |]; cbn; [| reflexivity].
  destruct (str_truthy (erp_customer doc)); cbn; [| reflexivity].
  unfold staged_invoice, is_combo.
  change (sum_of_item_lines (item doc) - price doc)%float with (difference doc).
  destruct (difference doc <? 0)%float eqn:Hlt; cbn.
  - destruct (String.eqb (first_item_code (item doc)) "comboex"); cbn; [| reflexivity].
    reflexivity.
  - destruct (0 <? difference doc)%float eqn:Hgt; cbn; [| reflexivity].
    destruct (String.eqb (first_item_code (item doc)) "comboex"); cbn; reflexivity.
Qed.

(** X1.  A sheet with a linked customer whose line sum exceeds its price and
    whose first item code, lowercased, is not ["comboex"] is refused with the
    over-price message, and no document is stored or changed. *)
Theorem create_sales_invoice_over_price
  (s : Site) (name : string) (doc : ServiceSheet) :
  tabCustomer_Service_Sheet s !! name = Some doc ->
  str_truthy (erp_customer doc) = true ->
  (price doc <? sum_of_item_lines (item doc))%float = true ->
  first_item_code (item doc) <> "comboex" ->
  exists s' : Site,
    create_sales_invoice name s = (Raise (ValidationError over_price_message), s') /\
    same_documents s s'.
Proof.
  intros Hdoc Hcust Hgt Hfirst.
  rewrite create_sales_invoice_run. cbn zeta. rewrite Hdoc, Hcust. cbn [negb].
  unfold is_combo. apply String.eqb_neq in Hfirst. rewrite Hfirst.
  unfold difference. rewrite ltb_sub_zero, zero_ltb_sub, Hgt.
  destruct (sum_of_item_lines (item doc) <? price doc)%float eqn:Hlt.
  - apply sub_lt0 in Hlt. apply sub_gt0 in Hgt.
    apply gt0_not_lt0 in Hgt. congruence.
  - cbn. eexists. split; [reflexivity |]. repeat split.
Qed.

Lemma create_sales_invoice_over_price_witness :
  exists s' : Site,
    create_sales_invoice "CSS-0006" sample_site_over
    = (Raise (ValidationError over_price_message), s') /\
    same_documents sample_site_over s'.
Proof.
  apply (create_sales_invoice_over_price sample_site_over "CSS-0006" sheet_over);
    [vm_compute; reflexivity .. | discriminate].
Defined.

(** X2.  A combo sheet (first item code ["comboex"] in any letter case) with
    a linked customer whose line sum is below its price is invoiced as it
    stands: the new invoice is submitted with the sheet's lines and no
    discount field set, so it stays below the sheet's price. *)
Theorem create_sales_invoice_combo_below_price
  (s : Site) (name : string) (doc : ServiceSheet) :
  tabCustomer_Service_Sheet s !! name = Some doc ->
  str_truthy (erp_customer doc) = true ->
  (sum_of_item_lines (item doc) <? price doc)%float = true ->
  first_item_code (item doc) = "comboex" ->
  exists (si_name : string) (si : SalesInvoice) (s' : Site),
    create_sales_invoice name s = (Return si_name, s') /\
    tabSales_Invoice s !! si_name = None /\
    tabSales_Invoice s' !! si_name = Some si /\
    si_docstatus si = 1 /\
    apply_discount_on si = None /\
    discount_amount si = None /\
    additional_discount_percentage si = None /\
    map invoice_line (items si) = map sheet_line (item doc).
Proof.
  intros Hdoc Hcust Hlt Hfirst.
  rewrite create_sales_invoice_run. cbn zeta. rewrite Hdoc, Hcust. cbn [negb].
  unfold is_combo, staged_invoice. apply String.eqb_eq in Hfirst.
  unfold is_combo. rewrite Hfirst.
  apply sub_lt0 in Hlt. pose proof (lt0_not_gt0 _ Hlt) as Hngt.
  unfold difference. rewrite Hlt, Hngt. cbn.
  set (si := fold_left _ _ _).
  destruct (create_sales_invoice_stored s si _ eq_refl) as [Hnew Hget].
  exists (fresh (dom (tabSales_Invoice s))), (si_with_docstatus 1 si). eexists.
  split; [reflexivity |]. split; [exact Hnew |]. split; [exact Hget |].
  subst si. cbn.
  destruct (discount_fold_append (item doc)
              (new_sales_invoice doc (today s))) as (-> & -> & ->).
  rewrite items_fold_append. cbn. auto 10.
Qed.

Lemma create_sales_invoice_combo_below_price_witness :
  exists (si_name : string) (si : SalesInvoice) (s' : Site),
    create_sales_invoice "CSS-0005" sample_site = (Return si_name, s') /\
    tabSales_Invoice sample_site !! si_name = None /\
    tabSales_Invoice s' !! si_name = Some si /\
    si_docstatus si = 1 /\
    apply_discount_on si = None /\
    discount_amount si = None /\
    additional_discount_percentage si = None /\
    map invoice_line (items si) = map sheet_line (item sheet_combo_short).
Proof.
  apply (create_sales_invoice_combo_below_price sample_site "CSS-0005" sheet_combo_short);
    vm_compute; reflexivity.
Defined.

(** X3.  A sheet with no linked customer ([None] or the empty string) is
    refused with the missing-customer message whatever its lines and price,
    and no document is stored or changed. *)
Theorem create_sales_invoice_no_customer
  (s : Site) (name : string) (doc : ServiceSheet) :
  tabCustomer_Service_Sheet s !! name = Some doc ->
  str_truthy (erp_customer doc) = false ->
  exists s' : Site,
    create_sales_invoice name s = (Raise (ValidationError no_customer_message), s') /\
    same_documents s s'.
Proof.
  intros Hdoc Hcust.
  rewrite create_sales_invoice_run. cbn zeta. rewrite Hdoc, Hcust. cbn.
  eexists. split; [reflexivity |]. repeat split.
Qed.

Lemma create_sales_invoice_no_customer_witness :
  exists s' : Site,
    create_sales_invoice "CSS-0004" sample_site
    = (Raise (ValidationError no_customer_message), s') /\
    same_documents sample_site s'.
Proof.
  apply (create_sales_invoice_no_customer sample_site "CSS-0004" sheet_unlinked);
    vm_compute; reflexivity.
Defined.

(** X4.  No partial write: whenever [create_sales_invoice] raises, for
    whatever reason, the stored documents and the sheets are as before.
    (Every raise of the endpoint precedes its insert; the store is taken to
    accept what it is handed.) *)
Theorem create_sales_invoice_raise_stores_nothing
  (s s' : Site) (name : string) (e : exn) :
  create_sales_invoice name s = (Raise e, s') ->
  same_documents s s' /\
  tabCustomer_Service_Sheet s' = tabCustomer_Service_Sheet s.
Proof.
  rewrite create_sales_invoice_run. cbn zeta.
  destruct (tabCustomer_Service_Sheet s !! name) as [doc |].
  - destruct (negb (str_truthy (erp_customer doc))).
    + intros [= _ <-]. repeat split.
    + destruct (_ && _)%bool; [intros [= _ <-]; repeat split |].
      destruct (_ && _)%bool; [intros [= _ <-]; repeat split |].
      discriminate.
  - intros [= _ <-]. repeat split.
Qed.

Lemma create_sales_invoice_raise_stores_nothing_witness :
  same_documents sample_site (snd (create_sales_invoice "CSS-9999" sample_site)) /\
  tabCustomer_Service_Sheet (snd (create_sales_invoice "CSS-9999" sample_site))
  = tabCustomer_Service_Sheet sample_site.
Proof.
  apply (create_sales_invoice_raise_stores_nothing sample_site
           (snd (create_sales_invoice "CSS-9999" sample_site)) "CSS-9999"
           (DoesNotExistError "Customer Service Sheet" "CSS-9999")).
  vm_compute. reflexivity.
Defined.

(** X5.  The whole decision table: [create_sales_invoice] returns exactly
    when the sheet exists, has a linked customer, and either its first item
    code lowercases to ["comboex"] or its line sum is neither below nor
    above its price.  (The store is taken to accept what it is handed: the
    endpoint's own checks are the only refusals.) *)
Theorem create_sales_invoice_returns_iff (s : Site) (name : string) :
  (exists si_name s', create_sales_invoice name s = (Return si_name, s')) <->
  (exists doc, tabCustomer_Service_Sheet s !! name = Some doc /\
               str_truthy (erp_customer doc) = true /\
               reconciles doc = true).
Proof.
  rewrite create_sales_invoice_run. cbn zeta. unfold reconciles, difference.
  destruct (tabCustomer_Service_Sheet s !! name) as [doc |].
  - rewrite ltb_sub_zero, zero_ltb_sub.
    match goal with
    | |- (exists n s', ?run = _) <-> _ =>
        assert (Hrun : (exists n s', run = (Return n, s')) <->
                       str_truthy (erp_customer doc) = true /\
                       is_combo doc
                       || negb (sum_of_item_lines (item doc) <? price doc)%float
                          && negb (price doc <? sum_of_item_lines (item doc))%float
                       = true)
    end.
    { destruct (str_truthy (erp_customer doc)), (is_combo doc),
        (sum_of_item_lines (item doc) <? price doc)%float,
        (price doc <? sum_of_item_lines (item doc))%float; cbn;
        (split; [intros (n & s' & H); try discriminate H; split; reflexivity
                | intros [H1 H2]; try discriminate H1; try discriminate H2;
                  do 2 eexists; reflexivity]). }
    rewrite Hrun. split.
    + intros [H1 H2]. exists doc. auto.
    + intros (d & [= <-] & H1 & H2). auto.
  - split; [intros (n & s' & H); discriminate H | intros (d & H & _); discriminate H].
Qed.

Lemma header_fold_append (rows : list SheetItem) : forall si,
  let si' := fold_left append_items rows si in
  si_company si' = si_company si /\ si_posting_date si' = si_posting_date si /\
  si_set_posting_time si' = si_set_posting_time si /\
  si_custom_agent si' = si_custom_agent si /\
  write_off_amount si' = write_off_amount si /\
  base_write_off_amount si' = base_write_off_amount si.
Proof.
  induction rows as [| row rows IH]; intros si; cbn; [auto 10 |].
  destruct (IH (append_items si row)) as (-> & -> & -> & -> & -> & ->). auto 10.
Qed.

(** The header and the lines of a staged invoice. *)
Lemma staged_invoice_header (doc : ServiceSheet) (d : Z) :
  let si := staged_invoice doc d in
  si_company si = "Timmie Kettle" /\ si_customer si = erp_customer doc /\
  si_posting_date si = d /\ si_set_posting_time si = 1 /\
  si_custom_agent si = custom_agent doc /\
  write_off_amount si = 0%float /\ base_write_off_amount si = 0%float /\
  map invoice_line (items si) = map sheet_line (item doc).
Proof.
  unfold staged_invoice. cbn zeta.
  destruct (header_fold_append (item doc) (new_sales_invoice doc d))
    as (H1 & H2 & H3 & H4 & H5 & H6).
  pose proof (customer_fold_append (item doc) (new_sales_invoice doc d)) as H7.
  pose proof (items_fold_append (item doc) (new_sales_invoice doc d)) as H8.
  destruct (_ && _)%bool; cbn; rewrite H1, H2, H3, H4, H5, H6, H7, H8; cbn; auto 10.
Qed.

(** The invoice a returning run stores. *)
Lemma create_sales_invoice_adds_one_invoice_gen
  (s s' : Site) (name si_name : string) :
  create_sales_invoice name s = (Return si_name, s') ->
  exists (doc : ServiceSheet) (si : SalesInvoice),
    tabCustomer_Service_Sheet s !! name = Some doc /\
    tabSales_Invoice s !! si_name = None /\
    tabSales_Invoice s' = <[si_name := si]> (tabSales_Invoice s) /\
    si_docstatus si = 1 /\
    si_customer si = erp_customer doc /\
    si_posting_date si = today s /\
    si_custom_agent si = custom_agent doc.
Proof.
  rewrite create_sales_invoice_run. cbn zeta.
  destruct (tabCustomer_Service_Sheet s !! name) as [doc |]; [| discriminate].
  destruct (negb (str_truthy (erp_customer doc))); [discriminate |].
  destruct (_ && _)%bool; [discriminate |].
  destruct (_ && _)%bool; [discriminate |].
  intros [= <- <-].
  destruct (staged_invoice_header doc (today s))
    as (H1 & H2 & H3 & H4 & H5 & H6 & H7 & H8).
  exists doc, (si_with_docstatus 1 (staged_invoice doc (today s))).
  split; [reflexivity |].
  split; [apply not_elem_of_dom, is_fresh |].
  split; [cbn; apply insert_insert_eq |].
  cbn. auto 10.
Qed.

(** X6.  A run that returns has added exactly one invoice: under a name
    that was free, submitted, made out by company ["Timmie Kettle"] to the
    sheet's customer, dated today, with the sheet's agent and lines and
    zero write-offs.  Every other invoice and every other table is as
    before. *)
Theorem create_sales_invoice_adds_one_invoice
  (s s' : Site) (name si_name : string) :
  create_sales_invoice name s = (Return si_name, s') ->
  exists (doc : ServiceSheet) (si : SalesInvoice),
    tabCustomer_Service_Sheet s !! name = Some doc /\
    tabSales_Invoice s !! si_name = None /\
    tabSales_Invoice s' = <[si_name := si]> (tabSales_Invoice s) /\
    (forall other, other <> si_name ->
                   tabSales_Invoice s' !! other = tabSales_Invoice s !! other) /\
    si_docstatus si = 1 /\
    si_company si = "Timmie Kettle" /\ si_customer si = erp_customer doc /\
    si_posting_date si = today s /\ si_set_posting_time si = 1 /\
    si_custom_agent si = custom_agent doc /\
    write_off_amount si = 0%float /\ base_write_off_amount si = 0%float /\
    map invoice_line (items si) = map sheet_line (item doc) /\
    tabCustomer s' = tabCustomer s /\ tabJournal_Entry s' = tabJournal_Entry s /\
    tabUser s' = tabUser s /\
    tabCustomer_Service_Sheet s' = tabCustomer_Service_Sheet s.
Proof.
  rewrite create_sales_invoice_run. cbn zeta.
  destruct (tabCustomer_Service_Sheet s !! name) as [doc |]; [| discriminate].
  destruct (negb (str_truthy (erp_customer doc))); [discriminate |].
  destruct (_ && _)%bool; [discriminate |].
  destruct (_ && _)%bool; [discriminate |].
  intros [= <- <-].
  destruct (staged_invoice_header doc (today s))
    as (H1 & H2 & H3 & H4 & H5 & H6 & H7 & H8).
  exists doc, (si_with_docstatus 1 (staged_invoice doc (today s))).
  split; [reflexivity |].
  split; [apply not_elem_of_dom, is_fresh |].
  split; [cbn; apply insert_insert_eq |].
  split; [intros other Hne; cbn; rewrite !lookup_insert_ne by congruence; reflexivity |].
  cbn. auto 20.
Qed.

Lemma create_sales_invoice_adds_one_invoice_witness :
  exists (doc : ServiceSheet) (si : SalesInvoice),
    let s := sample_site in
    let s' := snd (create_sales_invoice "CSS-0002" sample_site) in
    tabCustomer_Service_Sheet s !! "CSS-0002" = Some doc /\
    tabSales_Invoice s !! "0" = None /\
    tabSales_Invoice s' = <["0" := si]> (tabSales_Invoice s) /\
    (forall other, other <> "0" ->
                   tabSales_Invoice s' !! other = tabSales_Invoice s !! other) /\
    si_docstatus si = 1 /\
    si_company si = "Timmie Kettle" /\ si_customer si = erp_customer doc /\
    si_posting_date si = today s /\ si_set_posting_time si = 1 /\
    si_custom_agent si = custom_agent doc /\
    write_off_amount si = 0%float /\ base_write_off_amount si = 0%float /\
    map invoice_line (items si) = map sheet_line (item doc) /\
    tabCustomer s' = tabCustomer s /\ tabJournal_Entry s' = tabJournal_Entry s /\
    tabUser s' = tabUser s /\
    tabCustomer_Service_Sheet s' = tabCustomer_Service_Sheet s.
Proof.
  apply (create_sales_invoice_adds_one_invoice sample_site
           (snd (create_sales_invoice "CSS-0002" sample_site)) "CSS-0002" "0").
  vm_compute. reflexivity.
Defined.

(** X7.  The invoice a returning run stores carries a discount exactly when
    the sheet's line sum exceeds its price.  The discount is then the
    positive amount [sum - price] on the grand total with a zero
    percentage; otherwise none of the three discount fields is set. *)
Theorem create_sales_invoice_discount_rule
  (s s' : Site) (name si_name : string) :
  create_sales_invoice name s = (Return si_name, s') ->
  exists (doc : ServiceSheet) (si : SalesInvoice),
    tabCustomer_Service_Sheet s !! name = Some doc /\
    tabSales_Invoice s' !! si_name = Some si /\
    if (price doc <? sum_of_item_lines (item doc))%float
    then discount_amount si = Some (sum_of_item_lines (item doc) - price doc)%float /\
         (0 <? sum_of_item_lines (item doc) - price doc)%float = true /\
         apply_discount_on si = Some "Grand Total" /\
         additional_discount_percentage si = Some 0 /\
         first_item_code (item doc) = "comboex"
    else discount_amount si = None /\ apply_discount_on si = None /\
         additional_discount_percentage si = None.
Proof.
  rewrite create_sales_invoice_run. cbn zeta.
  destruct (tabCustomer_Service_Sheet s !! name) as [doc |]; [| discriminate].
  destruct (negb (str_truthy (erp_customer doc))); [discriminate |].
  unfold staged_invoice, difference. rewrite ltb_sub_zero, zero_ltb_sub.
  destruct (discount_fold_append (item doc) (new_sales_invoice doc (today s)))
    as (Ha & Hd & Hp).
  unfold is_combo.
  pose proof (sub_gt0 (sum_of_item_lines (item doc)) (price doc)) as Hpos.
  assert (Hanti : (sum_of_item_lines (item doc) <? price doc)%float = true ->
                  (price doc <? sum_of_item_lines (item doc))%float = false).
  { intros H%sub_lt0%lt0_not_gt0. now rewrite zero_ltb_sub in H. }
  destruct (sum_of_item_lines (item doc) <? price doc)%float eqn:Hlt,
    (price doc <? sum_of_item_lines (item doc))%float eqn:Hgt,
    (String.eqb_spec (first_item_code (item doc)) "comboex") as [Hc | Hc];
    cbn; try discriminate; try (specialize (Hanti eq_refl); discriminate);
    intros [= <- <-]; exists doc; eexists;
    (split; [reflexivity |]); (split; [cbn; apply lookup_insert_eq |]);
    cbn; rewrite ?Ha, ?Hd, ?Hp, Hgt; cbn; auto 10.
Qed.

Lemma create_sales_invoice_discount_rule_witness :
  exists (doc : ServiceSheet) (si : SalesInvoice),
    tabCustomer_Service_Sheet sample_site !! "CSS-0001" = Some doc /\
    tabSales_Invoice (snd (create_sales_invoice "CSS-0001" sample_site)) !! "0" = Some si /\
    if (price doc <? sum_of_item_lines (item doc))%float
    then discount_amount si = Some (sum_of_item_lines (item doc) - price doc)%float /\
         (0 <? sum_of_item_lines (item doc) - price doc)%float = true /\
         apply_discount_on si = Some "Grand Total" /\
         additional_discount_percentage si = Some 0 /\
         first_item_code (item doc) = "comboex"
    else discount_amount si = None /\ apply_discount_on si = None /\
         additional_discount_percentage si = None.
Proof.
  apply (create_sales_invoice_discount_rule sample_site
           (snd (create_sales_invoice "CSS-0001" sample_site)) "CSS-0001" "0").
  vm_compute. reflexivity.
Defined.

End SalesInvoiceOutcomes.

Section JournalEntryOutcomes.

#[local] Arguments computed_total : simpl never.
#[local] Arguments selected_total_field : simpl never.
#[local] Arguments journal_lines : simpl never.

(** Every run of [create_journal_entry2], case by case. *)
Lemma create_journal_entry2_run
  (s : Site) (agent_payment : AgentPayment) (selected_invoices : list SelectedInvoice) :
  create_journal_entry2 agent_payment selected_invoices s =
  if (computed_total agent_payment selected_invoices
      =? selected_total_field agent_payment)%float
  then
    let je := staged_entry agent_payment selected_invoices s in
    let name := fresh (dom (tabJournal_Entry s)) in
    let s1 := with_db_reads (db_reads s ++ entry_reads agent_payment s) s in
    (Return name,
     with_tabJournal_Entry
       (<[name := je_with_docstatus 1 je]> (<[name := je]> (tabJournal_Entry s))) s1)
  else
    (Raise (ValidationError
              (mismatch_message (computed_total agent_payment selected_invoices)
                                (selected_total_field agent_payment))), s).
Proof.
  unfold create_journal_entry2, date_or_today,
    frappe_db_get_value_Account_company, frappe_db_get_default_cost_center,
    frappe_get_cached_value_default_receivable,
    insert_Journal_Entry, submit_Journal_Entry, staged_entry, entry_reads,
    receivable_account, bank_company.
  unfold_monad. cbn.
  destruct (_ =? _)%float; cbn; [| reflexivity].
  destruct (ap_date agent_payment) as [d |]; cbn;
    rewrite <- !app_assoc; reflexivity.
Qed.

(** X8.  A run of [create_journal_entry2] that returns passed the equality
    check and added exactly one Journal Entry: under a name that was free,
    submitted, of voucher type ["Journal Entry"], posted and referenced on
    the payment's date (today when it has none), referring to the payment's
    name, for the company of the bank account.  Every other entry and table
    is as before, and the run read the bank's company, the default cost
    center and the company's receivable account, in that order. *)
Theorem create_journal_entry2_adds_one_entry
  (s s' : Site) (agent_payment : AgentPayment)
  (selected_invoices : list SelectedInvoice) (name : string) :
  create_journal_entry2 agent_payment selected_invoices s = (Return name, s') ->
  (computed_total agent_payment selected_invoices
   =? selected_total_field agent_payment)%float = true /\
  tabJournal_Entry s !! name = None /\
  (exists je : JournalEntry,
     tabJournal_Entry s' = <[name := je]> (tabJournal_Entry s) /\
     je_docstatus je = 1 /\
     voucher_type je = "Journal Entry" /\
     je_posting_date je = default (today s) (ap_date agent_payment) /\
     reference_date je = je_posting_date je /\
     reference_no je = ap_name agent_payment /\
     je_company je = bank_company agent_payment s /\
     je_accounts je = journal_lines agent_payment selected_invoices
                        (receivable_account agent_payment s) (default_cost_center s)) /\
  (forall other, other <> name ->
                 tabJournal_Entry s' !! other = tabJournal_Entry s !! other) /\
  tabCustomer s' = tabCustomer s /\ tabSales_Invoice s' = tabSales_Invoice s /\
  tabUser s' = tabUser s /\
  reads_issued s s' = entry_reads agent_payment s.
Proof.
  rewrite create_journal_entry2_run.
  destruct (_ =? _)%float; [| discriminate]. cbn zeta.
  intros [= <- <-]. split; [reflexivity |].
  split; [apply not_elem_of_dom, is_fresh |].
  split.
  { eexists. split; [cbn; apply insert_insert_eq |]. cbn. auto 10. }
  split; [intros other Hne; cbn; rewrite !lookup_insert_ne by congruence; reflexivity |].
  cbn. repeat split. unfold reads_issued. cbn. apply drop_app_length.
Qed.

Lemma create_journal_entry2_adds_one_entry_witness :
  let s := sample_site in
  let s' := snd (create_journal_entry2 payment_135 invoices_150 sample_site) in
  (computed_total payment_135 invoices_150 =? selected_total_field payment_135)%float
  = true /\
  tabJournal_Entry s !! "0" = None /\
  (exists je : JournalEntry,
     tabJournal_Entry s' = <["0" := je]> (tabJournal_Entry s) /\
     je_docstatus je = 1 /\
     voucher_type je = "Journal Entry" /\
     je_posting_date je = default (today s) (ap_date payment_135) /\
     reference_date je = je_posting_date je /\
     reference_no je = ap_name payment_135 /\
     je_company je = bank_company payment_135 s /\
     je_accounts je = journal_lines payment_135 invoices_150
                        (receivable_account payment_135 s) (default_cost_center s)) /\
  (forall other, other <> "0" ->
                 tabJournal_Entry s' !! other = tabJournal_Entry s !! other) /\
  tabCustomer s' = tabCustomer s /\ tabSales_Invoice s' = tabSales_Invoice s /\
  tabUser s' = tabUser s /\
  reads_issued s s' = entry_reads payment_135 s.
Proof.
  apply (create_journal_entry2_adds_one_entry sample_site
           (snd (create_journal_entry2 payment_135 invoices_150 sample_site))
           payment_135 invoices_150 "0").
  vm_compute. reflexivity.
Defined.

Lemma length_journal_lines (ap : AgentPayment) (invs : list SelectedInvoice)
  (default_ar cost_center : option string) :
  length (journal_lines ap invs default_ar cost_center) =
  (1 + length invs
   + (if float_truthy (commission ap) then 1 else 0)
   + (if float_truthy (charges ap) then 1 else 0))%nat.
Proof.
  unfold journal_lines. rewrite !length_app, length_map.
  destruct (float_truthy (commission ap)), (float_truthy (charges ap)); cbn; lia.
Qed.

Lemma journal_lines_one_sided (ap : AgentPayment) (invs : list SelectedInvoice)
  (default_ar cc : option string) :
  Forall (fun l => (debit_in_account_currency l = 0%float \/
                    credit_in_account_currency l = 0%float) /\
                   cost_center l = cc)
         (journal_lines ap invs default_ar cc).
Proof.
  unfold journal_lines. rewrite !Forall_app. repeat split.
  - constructor; [cbn; auto | constructor].
  - induction invs as [| inv invs IH]; cbn; constructor; cbn; auto.
  - destruct (float_truthy (commission ap)); constructor; [cbn; auto | constructor].
  - destruct (float_truthy (charges ap)); constructor; [cbn; auto | constructor].
Qed.

Lemma journal_lines_invoice_credits (ap : AgentPayment) (invs : list SelectedInvoice)
  (default_ar cc : option string) :
  List.filter is_invoice_credit (journal_lines ap invs default_ar cc)
  = map (receivable_line default_ar cc) invs.
Proof.
  unfold journal_lines. rewrite !List.filter_app. cbn.
  assert (H : List.filter is_invoice_credit (map (receivable_line default_ar cc) invs)
              = map (receivable_line default_ar cc) invs).
  { induction invs as [| inv invs IH]; cbn; [reflexivity | now rewrite IH]. }
  rewrite H.
  destruct (float_truthy (commission ap)), (float_truthy (charges ap)); cbn;
    now rewrite app_nil_r.
Qed.

(** The stored entry of a returning run. *)
Lemma create_journal_entry2_stored_lines
  (s s' : Site) (ap : AgentPayment) (invs : list SelectedInvoice) (name : string) :
  create_journal_entry2 ap invs s = (Return name, s') ->
  exists je, tabJournal_Entry s' !! name = Some je /\
             je_accounts je = journal_lines ap invs (receivable_account ap s)
                                (default_cost_center s).
Proof.
  rewrite create_journal_entry2_run.
  destruct (_ =? _)%float; [| discriminate]. cbn zeta.
  intros [= <- <-]. eexists. split; [cbn; apply lookup_insert_eq | reflexivity].
Qed.

(** X9.  The shape of a stored entry: one bank line first, debiting the
    computed net; then one line per selected invoice; then a commission line
    and a charges line, each only when its amount is non-zero.  Every line
    is one-sided (its debit or its credit is zero) and carries the site's
    default cost center. *)
Theorem create_journal_entry2_line_shape
  (s s' : Site) (agent_payment : AgentPayment)
  (selected_invoices : list SelectedInvoice) (name : string) :
  create_journal_entry2 agent_payment selected_invoices s = (Return name, s') ->
  exists je : JournalEntry,
    tabJournal_Entry s' !! name = Some je /\
    head (je_accounts je)
    = Some (bank_line agent_payment (default_cost_center s)
              (computed_total agent_payment selected_invoices)) /\
    length (je_accounts je)
    = (1 + length selected_invoices
       + (if float_truthy (commission agent_payment) then 1 else 0)
       + (if float_truthy (charges agent_payment) then 1 else 0))%nat /\
    Forall (fun l => (debit_in_account_currency l = 0%float \/
                      credit_in_account_currency l = 0%float) /\
                     cost_center l = default_cost_center s)
           (je_accounts je).
Proof.
  intros (je & Hje & Hlines)%create_journal_entry2_stored_lines.
  exists je. split; [exact Hje |]. rewrite Hlines.
  split; [reflexivity |].
  split; [apply length_journal_lines | apply journal_lines_one_sided].
Qed.

Lemma create_journal_entry2_line_shape_witness :
  exists je : JournalEntry,
    tabJournal_Entry (snd (create_journal_entry2 payment_135 invoices_150 sample_site))
    !! "0" = Some je /\
    head (je_accounts je)
    = Some (bank_line payment_135 (default_cost_center sample_site)
              (computed_total payment_135 invoices_150)) /\
    length (je_accounts je)
    = (1 + length invoices_150
       + (if float_truthy (commission payment_135) then 1 else 0)
       + (if float_truthy (charges payment_135) then 1 else 0))%nat /\
    Forall (fun l => (debit_in_account_currency l = 0%float \/
                      credit_in_account_currency l = 0%float) /\
                     cost_center l = default_cost_center sample_site)
           (je_accounts je).
Proof.
  apply (create_journal_entry2_line_shape sample_site
           (snd (create_journal_entry2 payment_135 invoices_150 sample_site))
           payment_135 invoices_150 "0").
  vm_compute. reflexivity.
Defined.

(** X10.  The lines of a stored entry that refer to a Sales Invoice are
    exactly one per selected invoice, in the order selected: each credits
    the company's receivable account with the invoice's outstanding amount,
    for party type ["Customer"], the invoice's customer as party and the
    invoice's name as reference. *)
Theorem create_journal_entry2_invoice_credits
  (s s' : Site) (agent_payment : AgentPayment)
  (selected_invoices : list SelectedInvoice) (name : string) :
  create_journal_entry2 agent_payment selected_invoices s = (Return name, s') ->
  exists je : JournalEntry,
    tabJournal_Entry s' !! name = Some je /\
    map (fun l => (jl_account l, party_type l, party l, reference_name l,
                   credit_in_account_currency l, debit_in_account_currency l))
        (List.filter is_invoice_credit (je_accounts je))
    = map (fun inv => (receivable_account agent_payment s, Some "Customer",
                       inv_customer inv, inv_name inv, outstanding inv, 0%float))
          selected_invoices.
Proof.
  intros (je & Hje & Hlines)%create_journal_entry2_stored_lines.
  exists je. split; [exact Hje |]. rewrite Hlines.
  rewrite journal_lines_invoice_credits, map_map. reflexivity.
Qed.

Lemma create_journal_entry2_invoice_credits_witness :
  exists je : JournalEntry,
    tabJournal_Entry (snd (create_journal_entry2 payment_135 invoices_150 sample_site))
    !! "0" = Some je /\
    map (fun l => (jl_account l, party_type l, party l, reference_name l,
                   credit_in_account_currency l, debit_in_account_currency l))
        (List.filter is_invoice_credit (je_accounts je))
    = map (fun inv => (receivable_account payment_135 sample_site, Some "Customer",
                       inv_customer inv, inv_name inv, outstanding inv, 0%float))
          invoices_150.
Proof.
  apply (create_journal_entry2_invoice_credits sample_site
           (snd (create_journal_entry2 payment_135 invoices_150 sample_site))
           payment_135 invoices_150 "0").
  vm_compute. reflexivity.
Defined.











End JournalEntryOutcomes.

Section ExchangeRateOutcomes.

#[local] Arguments rate_on_or_before : simpl never.

(** X12.  Rows that are dated after the requested day, or that are for
    another currency pair, never change the answer: stored before or after
    the others, they leave the outcome of [get_exchange_rate] as it was. *)
Theorem get_exchange_rate_ignores_other_rows
  (s : Site) (currency : string) (date : Z) (before after : list CurrencyExchange) :
  Forall (fun r => from_currency r <> currency \/ to_currency r <> "NGN"
                   \/ date < ce_date r) (before ++ after) ->
  fst (get_exchange_rate currency date
         (with_tabCurrency_Exchange (before ++ tabCurrency_Exchange s ++ after) s))
  = fst (get_exchange_rate currency date s).
Proof.
  intros Hother.
  assert (Hnone : forall l, Forall (fun r => from_currency r <> currency
                                             \/ to_currency r <> "NGN"
                                             \/ date < ce_date r) l ->
                            List.filter (rate_applies currency "NGN" date) l = []).
  { induction l as [| r l IH]; intros Hl; [reflexivity |].
    inversion Hl as [| ? ? Hr Hl']; subst. cbn.
    rewrite (IH Hl').
    assert (rate_applies currency "NGN" date r = false) as ->; [| reflexivity].
    unfold rate_applies. rewrite !andb_false_iff, !String.eqb_neq, Z.leb_gt. tauto. }
  apply Forall_app in Hother as [Hb Ha].
  destruct (String.eqb_spec currency "NGN") as [-> | Hc]; [reflexivity |].
  rewrite !get_exchange_rate_run by exact Hc.
  unfold rate_on_or_before. cbn.
  rewrite !List.filter_app, (Hnone _ Hb), (Hnone _ Ha), app_nil_r. reflexivity.
Qed.

Lemma get_exchange_rate_ignores_other_rows_witness :
  fst (get_exchange_rate "USD" 250
         (with_tabCurrency_Exchange
            ([ghs_day_150] ++ tabCurrency_Exchange sample_site ++ [usd_day_900])
            sample_site))
  = fst (get_exchange_rate "USD" 250 sample_site).
Proof.
  apply (get_exchange_rate_ignores_other_rows sample_site "USD" 250
           [ghs_day_150] [usd_day_900]).
  cbn. constructor; [left; discriminate |].
  constructor; [right; right; cbn; lia | constructor].
Defined.

Lemma candidates_mono (s : Site) (currency : string) (d1 d2 : Z) (r : CurrencyExchange) :
  d1 <= d2 -> In r (candidates currency d1 s) -> In r (candidates currency d2 s).
Proof.
  intros Hd (Hin & Hf & Ht & Hle)%in_candidates.
  apply in_candidates. repeat split; auto. lia.
Qed.

(** X13.  Where no stored rate is zero, an answer for a day is an answer
    for every later day: if [get_exchange_rate] returns for [d1], it returns
    for every [d2] on or after [d1], with the rate of a row dated no earlier
    than the row used for [d1] and no later than [d2]. *)
Theorem get_exchange_rate_later_day
  (s : Site) (currency : string) (d1 d2 : Z) (x : float) :
  Forall (fun r => float_truthy (exchange_rate r) = true) (tabCurrency_Exchange s) ->
  d1 <= d2 ->
  currency <> "NGN" ->
  fst (get_exchange_rate currency d1 s) = Return x ->
  exists r1 r2,
    rate_on_or_before currency "NGN" d1 s = Some r1 /\
    rate_on_or_before currency "NGN" d2 s = Some r2 /\
    ce_date r1 <= ce_date r2 <= d2 /\
    fst (get_exchange_rate currency d2 s) = Return (exchange_rate r2).
Proof.
  intros Hrates Hd Hc Hrun.
  rewrite get_exchange_rate_run in Hrun by exact Hc.
  rewrite get_exchange_rate_run by exact Hc.
  unfold rate_on_or_before in *. fold (candidates currency d1 s) in Hrun.
  fold (candidates currency d1 s) (candidates currency d2 s).
  destruct (latest (candidates currency d1 s)) as [r1 |] eqn:H1; [| discriminate].
  destruct (latest_is_max _ _ H1) as [Hin1 _].
  apply (candidates_mono s currency d1 d2 r1 Hd) in Hin1.
  destruct (latest (candidates currency d2 s)) as [r2 |] eqn:H2.
  - destruct (latest_is_max _ _ H2) as [Hin2 Hmax2].
    exists r1, r2. split; [reflexivity |]. split; [reflexivity |].
    split.
    + split; [apply Hmax2, Hin1 |]. apply in_candidates in Hin2. tauto.
    + apply in_candidates in Hin2 as (Hin2 & _).
      rewrite Forall_forall in Hrates.
      rewrite (Hrates r2) by (apply list_elem_of_In; exact Hin2). reflexivity.
  - apply latest_nil_iff in H2. rewrite H2 in Hin1. destruct Hin1.
Qed.

Lemma get_exchange_rate_later_day_witness :
  exists r1 r2,
    rate_on_or_before "USD" "NGN" 150 sample_site_usd = Some r1 /\
    rate_on_or_before "USD" "NGN" 250 sample_site_usd = Some r2 /\
    ce_date r1 <= ce_date r2 <= 250 /\
    fst (get_exchange_rate "USD" 250 sample_site_usd) = Return (exchange_rate r2).
Proof.
  apply (get_exchange_rate_later_day sample_site_usd "USD" 150 250 1500%float).
  - repeat constructor.
  - lia.
  - discriminate.
  - vm_compute. reflexivity.
Defined.

End ExchangeRateOutcomes.

Section CustomerOutcomes.

#[local] Arguments customers_by : simpl never.

Lemma head_customers_by (field value : string) (s : Site) (name : string) :
  head (customers_by field value s) = Some name ->
  exists c, In (name, c) (tabCustomer s) /\ customer_field field c = Some value.
Proof.
  unfold customers_by.
  induction (tabCustomer s) as [| [n c] rows IH]; cbn; [discriminate |].
  destruct (customer_matches field value (n, c)) eqn:Hm; cbn.
  - intros [= ->]. exists c. split; [now left |].
    unfold customer_matches in Hm. cbn in Hm.
    destruct (customer_field field c) as [v |]; [| discriminate].
    apply String.eqb_eq in Hm. now subst.
  - intros (c' & Hin & Hf)%IH. exists c'. split; [now right | exact Hf].
Qed.

Lemma customers_by_nil (field value : string) (s : Site) :
  customers_by field value s = [] ->
  forall n c, In (n, c) (tabCustomer s) -> customer_field field c <> Some value.
Proof.
  unfold customers_by.
  induction (tabCustomer s) as [| [n0 c0] rows IH]; cbn; [intros _ n c [] |].
  destruct (customer_matches field value (n0, c0)) eqn:Hm; cbn; [discriminate |].
  intros Hnil n c [[= -> ->] | Hin]; [| eauto].
  unfold customer_matches in Hm. cbn in Hm. intros Hf. rewrite Hf in Hm.
  now rewrite String.eqb_refl in Hm.
Qed.

Lemma match_by_sound (field : string) (arg : option string) (s : Site) (name : string) :
  match_by field arg s = Some name ->
  exists c, In (name, c) (tabCustomer s) /\
            str_truthy arg = true /\ customer_field field c = arg.
Proof.
  unfold match_by. destruct arg as [v |]; [| discriminate].
  destruct (str_truthy (Some v)) eqn:Ht; [| discriminate].
  intros (c & Hin & Hf)%head_customers_by. eauto.
Qed.

Lemma match_by_none (field : string) (arg : option string) (s : Site) :
  match_by field arg s = None ->
  forall n c, In (n, c) (tabCustomer s) ->
              ~ (str_truthy arg = true /\ customer_field field c = arg).
Proof.
  unfold match_by. destruct arg as [v |]; [| intros _ n c _ [H _]; discriminate H].
  destruct (str_truthy (Some v)) eqn:Ht; [| intros _ n c _ [H _]; discriminate H].
  intros Hh n c Hin [_ Hf].
  destruct (customers_by field v s) as [| x l] eqn:Hl; [| discriminate].
  exact (customers_by_nil field v s Hl n c Hin Hf).
Qed.

(** X14.  [search_customer] never raises.  A name it returns is the name of
    a stored customer that answers the search (by its email, the email
    being non-empty, or by its mobile number, the mobile being non-empty);
    and it returns [None] only when no stored customer answers it. *)
Theorem search_customer_sound_complete
  (s : Site) (email mobile : option string) :
  exists result : option string,
    fst (search_customer email mobile s) = Return result /\
    match result with
    | Some name => exists c, In (name, c) (tabCustomer s) /\ answers email mobile c
    | None => forall name c, In (name, c) (tabCustomer s) -> ~ answers email mobile c
    end.
Proof.
  rewrite search_customer_run.
  destruct (match_by "email_id" email s) as [n |] eqn:He.
  - exists (Some n). split; [reflexivity |].
    apply match_by_sound in He as (c & Hin & Ht & Hf).
    exists c. split; [exact Hin |]. left. auto.
  - cbn. exists (match_by "mobile_no" mobile s). split; [reflexivity |].
    destruct (match_by "mobile_no" mobile s) as [n |] eqn:Hm.
    + apply match_by_sound in Hm as (c & Hin & Ht & Hf).
      exists c. split; [exact Hin |]. right. auto.
    + intros name c Hin [Ha | Ha].
      * exact (match_by_none _ _ _ He name c Hin Ha).
      * exact (match_by_none _ _ _ Hm name c Hin Ha).
Qed.

(** X15.  An empty string is no search key: [search_customer] treats an
    empty email like a missing one, and an empty mobile like a missing one,
    even when a stored customer has that field empty. *)
Theorem search_customer_empty_is_missing (s : Site) (email mobile : option string) :
  search_customer (Some "") mobile s = search_customer None mobile s /\
  search_customer email (Some "") s = search_customer email None s /\
  search_customer (Some "") (Some "") s = (Return None, s).
Proof.
  rewrite !search_customer_run. cbn. repeat split.
Qed.

(** X16.  [search_customer] only reads: the site it leaves differs from the
    one it found by the log of reads alone, which grows by at most two
    queries, none of them on a table other than Customer. *)
Theorem search_customer_read_only (s : Site) (email mobile : option string) :
  exists reads : list Query,
    snd (search_customer email mobile s) = with_db_reads (db_reads s ++ reads) s /\
    (length reads <= 2)%nat /\
    Forall (fun q => exists field value, q = Q_get_all "Customer" field value) reads.
Proof.
  rewrite search_customer_run.
  assert (Hs : s = with_db_reads (db_reads s ++ []) s)
    by (rewrite app_nil_r; destruct s; reflexivity).
  destruct (match_by "email_id" email s) as [n |].
  - eexists [_]. split; [reflexivity |]. split; [cbn; lia |].
    repeat constructor. eauto.
  - cbn. destruct (str_truthy email), (str_truthy mobile); cbn.
    + eexists [_; _]. split; [now rewrite <- app_assoc |]. split; [cbn; lia |].
      repeat constructor; eauto.
    + eexists [_]. split; [reflexivity |]. split; [cbn; lia |].
      repeat constructor; eauto.
    + eexists [_]. split; [reflexivity |]. split; [cbn; lia |].
      repeat constructor; eauto.
    + exists []. split; [exact Hs |]. split; [cbn; lia | constructor].
Qed.

(** Every run of [create_customer], case by case. *)
Lemma create_customer_run (s : Site) (name : string)
  (ctry default_account billing_currency email mobile : option string) :
  create_customer name ctry default_account billing_currency email mobile s =
  if (is_Ghana ctry && str_truthy default_account)%bool
  then (Raise (NameError "company"), s)
  else if existsb (String.eqb name) (map fst (tabCustomer s))
  then (Raise (DuplicateEntryError "Customer" name), s)
  else
    let c := new_customer name ctry billing_currency email mobile in
    let c := if is_Ghana ctry then with_territory "Ghana" c else c in
    (Return name, with_tabCustomer ((name, c) :: tabCustomer s) s).
Proof.
  unfold create_customer, insert_Customer, load_name_company, get_country.
  unfold_monad. cbn.
  destruct (is_Ghana ctry); cbn.
  - destruct default_account as [a |]; cbn.
    + destruct (negb (a =? "")%string); cbn; [reflexivity |].
      destruct (existsb _ _); reflexivity.
    + destruct (existsb _ _); reflexivity.
  - destruct (existsb _ _); reflexivity.
Qed.



(** X18.  Create, then search: after [create_customer] has returned for a
    customer with a non-empty email, [search_customer] by that email,
    whatever mobile is passed along and in whatever order the store lists
    its customers, finds a customer that holds that email; it finds the new
    customer whenever no customer stored before held that email. *)
Theorem create_customer_then_search (s s' : Site) (name : string)
  (ctry default_account billing_currency email mobile any_mobile : option string)
  (listed : list (string * Customer)) :
  str_truthy email = true ->
  create_customer name ctry default_account billing_currency email mobile s
  = (Return name, s') ->
  Permutation listed (tabCustomer s') ->
  exists (found : string) (c : Customer),
    fst (search_customer email any_mobile (with_tabCustomer listed s'))
    = Return (Some found) /\
    In (found, c) (tabCustomer s') /\ email_id c = email /\
    ((forall n' c', In (n', c') (tabCustomer s) -> email_id c' <> email) ->
     found = name).
Proof.
  intros He. rewrite create_customer_run.
  destruct (_ && _)%bool; [discriminate |].
  destruct (existsb _ _); [discriminate |]. cbn zeta.
  intros [= <-] Hperm. cbn [tabCustomer with_tabCustomer] in Hperm |- *.
  set (c0 := if is_Ghana ctry
             then with_territory "Ghana"
                    (new_customer name ctry billing_currency email mobile)
             else new_customer name ctry billing_currency email mobile) in *.
  assert (Hc0 : email_id c0 = email) by (subst c0; destruct (is_Ghana ctry); reflexivity).
  set (site := with_tabCustomer listed _).
  assert (Hlisted : tabCustomer site = listed) by reflexivity.
  rewrite search_customer_run.
  destruct (match_by "email_id" email site) as [found |] eqn:Hm.
  - apply match_by_sound in Hm as (c & Hin & _ & Hf).
    rewrite Hlisted in Hin. cbn in Hf.
    exists found, c. split; [reflexivity |].
    pose proof (Permutation_in _ Hperm Hin) as Hin'.
    split; [exact Hin' |]. split; [exact Hf |].
    intros Hold. destruct Hin' as [[= <- <-] | Hin']; [reflexivity |].
    now destruct (Hold _ _ Hin').
  - exfalso.
    apply (match_by_none _ _ _ Hm name c0).
    + rewrite Hlisted. apply (Permutation_in _ (Permutation_sym Hperm)). now left.
    + split; [exact He | exact Hc0].
Qed.

Lemma create_customer_then_search_witness :
  fst (search_customer (Some "kofi@tk.example") (Some "0801")
         (with_tabCustomer
            (tabCustomer sample_site
             ++ [("Kofi", with_territory "Ghana"
                            (new_customer "Kofi" (Some "Ghana") (Some "GHS")
                               (Some "kofi@tk.example") None))])
            (snd (create_customer "Kofi" (Some "Ghana") None (Some "GHS")
                    (Some "kofi@tk.example") None sample_site))))
  = Return (Some "Kofi").
Proof.
  destruct (create_customer_then_search sample_site
              (snd (create_customer "Kofi" (Some "Ghana") None (Some "GHS")
                      (Some "kofi@tk.example") None sample_site))
              "Kofi" (Some "Ghana") None (Some "GHS") (Some "kofi@tk.example") None
              (Some "0801")
              (tabCustomer sample_site
               ++ [("Kofi", with_territory "Ghana"
                              (new_customer "Kofi" (Some "Ghana") (Some "GHS")
                                 (Some "kofi@tk.example") None))]))
    as (found & c & Hrun & _ & _ & Hnew).
  - reflexivity.
  - reflexivity.
  - cbn. symmetry. apply Permutation_cons_append.
  - rewrite Hrun, Hnew; [reflexivity |].
    intros n' c' [[= <- <-] | [[= <- <-] | []]]; discriminate.
Defined.

End CustomerOutcomes.

Section RoleOutcomes.

Lemma with_session_user_same (s : Site) : with_session_user (session_user s) s = s.
Proof. destruct s; reflexivity. Qed.

(** Every run of [update_user_role]. *)
Lemma update_user_role_run (s : Site) (user : string) (active : value) :
  update_user_role user active s
  = (Return true,
     with_tabUser (alter (fun _ => new_role active) user (tabUser s)) s).
Proof.
  unfold update_user_role, update_user_role_with, try_finally,
    frappe_db_set_role_profile_name.
  unfold_monad. cbn. destruct s; reflexivity.
Qed.

(** X19.  [update_user_role] changes one row at most: every other user
    keeps the role profile it had, no user is created (the set of users is
    the same), and for a user the store does not hold nothing changes at
    all, although the endpoint still returns [True]. *)
Theorem update_user_role_only_target (s : Site) (user : string) (active : value) :
  fst (update_user_role user active s) = Return true /\
  (forall other, other <> user ->
     tabUser (snd (update_user_role user active s)) !! other = tabUser s !! other) /\
  dom (tabUser (snd (update_user_role user active s))) = dom (tabUser s) /\
  (tabUser s !! user = None -> snd (update_user_role user active s) = s).
Proof.
  rewrite update_user_role_run. cbn. split; [reflexivity |].
  split; [intros other Hne; apply lookup_alter_ne; congruence |].
  split; [apply dom_alter_L |].
  intros Hnone. rewrite (alter_id' _ _ _ Hnone).
  destruct s; reflexivity.
Qed.

(** X20.  The last call wins: updating a user twice leaves the site as the
    second update alone would, so updating twice with the same flag is the
    same as updating once. *)
Theorem update_user_role_last_wins (s : Site) (user : string) (first second : value) :
  snd (update_user_role user second (snd (update_user_role user first s)))
  = snd (update_user_role user second s).
Proof.
  rewrite !update_user_role_run. cbn.
  assert (Hmap : alter (fun _ => new_role second) user
                   (alter (fun _ => new_role first) user (tabUser s))
                 = alter (fun _ => new_role second) user (tabUser s)).
  { apply map_eq. intros u.
    destruct (decide (u = user)) as [-> | Hne].
    - rewrite !lookup_alter_eq. destruct (tabUser s !! user); reflexivity.
    - rewrite !lookup_alter_ne by congruence. reflexivity. }
  unfold with_tabUser. cbn. rewrite Hmap. reflexivity.
Qed.

Lemma in_users_with_role (role : string) (s : Site) (u : string) :
  In u (users_with_role role s) <-> tabUser s !! u = Some role.
Proof.
  unfold users_with_role. rewrite in_map_iff. split.
  - intros ([n r] & <- & Hin). apply filter_In in Hin as [Hin Hr].
    cbn in Hr |- *. apply String.eqb_eq in Hr. subst r.
    apply elem_of_map_to_list, list_elem_of_In, Hin.
  - intros Hu. exists (u, role). split; [reflexivity |].
    apply filter_In. split; [| cbn; apply String.eqb_refl].
    apply list_elem_of_In, elem_of_map_to_list, Hu.
Qed.

Lemma NoDup_users_with_role (role : string) (s : Site) :
  List.NoDup (users_with_role role s).
Proof.
  unfold users_with_role. apply NoDup_ListNoDup.
  pose proof (NoDup_fst_map_to_list (tabUser s)) as Hnd.
  induction (map_to_list (tabUser s)) as [| [n r] l IH]; cbn in *; [constructor |].
  apply NoDup_cons in Hnd as [Hn Hl].
  destruct (String.eqb r role); cbn; [| auto].
  constructor; [| auto].
  intros Hin. apply Hn.
  apply list_elem_of_In in Hin. apply list_elem_of_In.
  apply in_map_iff in Hin as ([n' r'] & Heq & Hin'%filter_In). cbn in Heq. subst n'.
  apply in_map_iff. exists (n, r'). split; [reflexivity | tauto].
Qed.

(** Every run of [get_customer_service_users]. *)
Lemma get_customer_service_users_run (profiles : string -> UserProfile) (s : Site) :
  get_customer_service_users profiles s
  = (Return (map (user_row profiles "Customer Service")
               (users_with_role "Customer Service" s)),
     with_db_reads
       (db_reads s ++ [Q_get_all "User" "role_profile_name" "Customer Service"]) s).
Proof.
  unfold get_customer_service_users, try_finally, frappe_db_get_all_User.
  unfold_monad. cbn. destruct s; reflexivity.
Qed.

(** X21.  The listing gives one row per user whose role profile is
    ["Customer Service"], no user twice and no other user, each row with
    that role; it leaves the session user and every table as they were and
    issues one read. *)
Theorem get_customer_service_users_lists_role
  (profiles : string -> UserProfile) (s : Site) :
  exists names : list string,
    get_customer_service_users profiles s
    = (Return (map (user_row profiles "Customer Service") names),
       with_db_reads
         (db_reads s ++ [Q_get_all "User" "role_profile_name" "Customer Service"]) s) /\
    List.NoDup names /\
    (forall u, In u names <-> tabUser s !! u = Some "Customer Service") /\
    session_user (snd (get_customer_service_users profiles s)) = session_user s.
Proof.
  exists (users_with_role "Customer Service" s).
  rewrite get_customer_service_users_run.
  split; [reflexivity |]. split; [apply NoDup_users_with_role |].
  split; [intros u; apply in_users_with_role | reflexivity].
Qed.

(** X22.  Toggle, then list: after [update_user_role] on a stored user, the
    listing contains that user exactly when [active] was one of [True],
    ["1"] and [1] (or the float [1.0], which Python holds equal to [1]);
    every other user is listed exactly when it was a Customer Service user
    before. *)
Theorem update_user_role_then_list
  (profiles : string -> UserProfile) (s : Site) (user : string) (active : value) :
  is_Some (tabUser s !! user) ->
  let s1 := snd (update_user_role user active s) in
  exists names : list string,
    fst (get_customer_service_users profiles s1)
    = Return (map (user_row profiles "Customer Service") names) /\
    (In user names <->
     active = VBool true \/ active = VStr "1" \/ active = VInt 1 \/ active = VFloat 1) /\
    (forall other, other <> user ->
       (In other names <-> tabUser s !! other = Some "Customer Service")).
Proof.
  intros [old Hold] s1. subst s1.
  exists (users_with_role "Customer Service"
            (snd (update_user_role user active s))).
  rewrite get_customer_service_users_run. split; [reflexivity |].
  rewrite update_user_role_run. cbn [snd]. split.
  - rewrite <- is_active_explicit.
    rewrite in_users_with_role. cbn. rewrite lookup_alter_eq, Hold. cbn.
    destruct (new_role_cases active) as [[Ha ->] | [Ha ->]].
    + tauto.
    + split; [discriminate | contradiction].
  - intros other Hne. rewrite in_users_with_role. cbn.
    rewrite lookup_alter_ne by congruence. reflexivity.
Qed.

Lemma update_user_role_then_list_witness :
  tabUser sample_site !! "cs@tk.example" = Some "Test" /\
  exists names : list string,
    fst (get_customer_service_users sample_profiles
           (snd (update_user_role "cs@tk.example" (VInt 1) sample_site)))
    = Return (map (user_row sample_profiles "Customer Service") names) /\
    In "cs@tk.example" names.
Proof.
  split; [reflexivity |].
  destruct (update_user_role_then_list sample_profiles sample_site
              "cs@tk.example" (VInt 1)) as (names & Hrun & Hin & _).
  - exists "Test". reflexivity.
  - exists names. split; [exact Hrun |].
    apply Hin. right; right; left; reflexivity.
Defined.

End RoleOutcomes.

Section UnpaidInvoices.

Lemma get_unpaid_invoices_run (totals : string -> InvoiceTotals) (agent : string) (s : Site) :
  get_unpaid_invoices totals agent s
  = (Return (map (unpaid_row totals)
               (List.filter (is_unpaid totals agent) (map_to_list (tabSales_Invoice s)))),
     with_db_reads (db_reads s ++ [Q_get_all "Sales Invoice" "custom_agent" agent]) s).
Proof. reflexivity. Qed.

Lemma in_unpaid_rows (totals : string -> InvoiceTotals) (agent : string) (s : Site)
  (row : UnpaidRow) :
  In row (map (unpaid_row totals)
            (List.filter (is_unpaid totals agent) (map_to_list (tabSales_Invoice s))))
  <-> exists si, tabSales_Invoice s !! up_name row = Some si /\
                 row = unpaid_row totals (up_name row, si) /\
                 si_custom_agent si = Some agent /\
                 (0 <? it_outstanding_amount (totals (up_name row)))%float = true /\
                 si_docstatus si = 1.
Proof.
  rewrite in_map_iff. unfold is_unpaid. split.
  - intros ([n si] & <- & Hin). apply filter_In in Hin as [Hin Hf].
    cbn in Hf |- *. apply andb_true_iff in Hf as [Hf Hd].
    apply andb_true_iff in Hf as [Ha Ho].
    exists si. split; [apply elem_of_map_to_list, list_elem_of_In, Hin |].
    split; [reflexivity |].
    destruct (si_custom_agent si) as [a |]; [| discriminate].
    apply String.eqb_eq in Ha. apply Z.eqb_eq in Hd. subst a. auto.
  - intros (si & Hsi & Hrow & Ha & Ho & Hd).
    exists (up_name row, si). split; [now rewrite Hrow |].
    apply filter_In. split; [apply list_elem_of_In, elem_of_map_to_list, Hsi |].
    cbn. rewrite Ha, Ho, Hd, String.eqb_refl. reflexivity.
Qed.

(** X24.  Invoice, then list: the invoice [create_sales_invoice] has just
    stored for a sheet appears among the unpaid invoices of the sheet's
    agent as soon as the host reports a positive outstanding amount for it,
    dated today and made out to the sheet's customer. *)
Theorem create_sales_invoice_then_unpaid
  (totals : string -> InvoiceTotals) (s s' : Site) (name si_name agent : string)
  (doc : ServiceSheet) :
  tabCustomer_Service_Sheet s !! name = Some doc ->
  custom_agent doc = Some agent ->
  create_sales_invoice name s = (Return si_name, s') ->
  (0 <? it_outstanding_amount (totals si_name))%float = true ->
  exists rows : list UnpaidRow,
    fst (get_unpaid_invoices totals agent s') = Return rows /\
    In {| up_posting_date := today s; up_name := si_name;
          up_customer := erp_customer doc;
          up_grand_total := it_grand_total (totals si_name);
          up_outstanding_amount := it_outstanding_amount (totals si_name) |} rows.
Proof.
  intros Hdoc Hagent Hrun Hout.
  destruct (create_sales_invoice_adds_one_invoice_gen s s' name si_name Hrun)
    as (doc' & si & Hdoc' & Hnew & Htab & Hd & Hcust & Hdate & Hag).
  rewrite Hdoc in Hdoc'. injection Hdoc' as <-.
  rewrite get_unpaid_invoices_run. eexists. split; [reflexivity |].
  apply in_unpaid_rows. cbn [up_name].
  exists si. split; [rewrite Htab; apply lookup_insert_eq |].
  split; [unfold unpaid_row; cbn; now rewrite Hdate, Hcust |].
  split; [now rewrite Hag |]. auto.
Qed.

Lemma create_sales_invoice_then_unpaid_witness :
  exists rows : list UnpaidRow,
    fst (get_unpaid_invoices sample_totals "agent@tk.example"
           (snd (create_sales_invoice "CSS-0001" sample_site))) = Return rows /\
    In {| up_posting_date := today sample_site; up_name := "0";
          up_customer := erp_customer sheet_combo;
          up_grand_total := it_grand_total (sample_totals "0");
          up_outstanding_amount := it_outstanding_amount (sample_totals "0") |} rows.
Proof.
  apply (create_sales_invoice_then_unpaid sample_totals sample_site
           (snd (create_sales_invoice "CSS-0001" sample_site))
           "CSS-0001" "0" "agent@tk.example" sheet_combo);
    vm_compute; reflexivity.
Defined.

End UnpaidInvoices.

Section Dashboard.

Lemma count_split (sheets : list SheetColumns) (p q : SheetColumns -> bool) :
  frappe_db_count sheets p
  = frappe_db_count sheets (fun r => p r && q r)
    + frappe_db_count sheets (fun r => p r && negb (q r)).
Proof.
  unfold frappe_db_count.
  induction sheets as [| r sheets IH]; cbn; [reflexivity |].
  destruct (p r), (q r); cbn; lia.
Qed.

Lemma count_ext (sheets : list SheetColumns) (p q : SheetColumns -> bool) :
  (forall r, p r = q r) -> frappe_db_count sheets p = frappe_db_count sheets q.
Proof.
  intros H. unfold frappe_db_count.
  induction sheets as [| r sheets IH]; cbn; [reflexivity |].
  rewrite H. destruct (q r); cbn; lia.
Qed.

Lemma count_nonneg (sheets : list SheetColumns) (p : SheetColumns -> bool) :
  0 <= frappe_db_count sheets p.
Proof. unfold frappe_db_count. lia. Qed.

Lemma column_is_exclusive (a b : string) (column : option string) :
  a <> b -> column_is a column = true -> column_is b column = false.
Proof.
  destruct column as [x |]; cbn; [| discriminate].
  intros Hab Ha%String.eqb_eq. subst x. now apply String.eqb_neq.
Qed.

(** X25.  The status counters partition the total: a user's total is the
    sum of the delivered, processing and cancelled counts and of the count
    of the user's sheets with any other or no status.  So no counter is
    negative and the three together never exceed the total. *)
Theorem status_counts_partition (sheets : list SheetColumns) (s : Site) :
  exists total delivered processing cancelled : Z,
    get_user_total_css sheets s = (Return total, s) /\
    get_user_delivered_css sheets s = (Return delivered, s) /\
    get_user_processing_css sheets s = (Return processing, s) /\
    get_user_cancelled_css sheets s = (Return cancelled, s) /\
    total = delivered + processing + cancelled
            + frappe_db_count sheets
                (fun r => column_is (session_user s) (cs r) && other_status r) /\
    0 <= delivered /\ 0 <= processing /\ 0 <= cancelled /\
    delivered + processing + cancelled <= total.
Proof.
  do 4 eexists. do 4 (split; [reflexivity |]).
  set (mine := fun r => column_is (session_user s) (cs r)).
  set (st := fun (v : string) (r : SheetColumns) => column_is v (status r)).
  assert (Hsum : frappe_db_count sheets mine
                 = frappe_db_count sheets (fun r => mine r && st "Delivered" r)
                   + frappe_db_count sheets (fun r => mine r && st "Processing" r)
                   + frappe_db_count sheets (fun r => mine r && st "Cancelled" r)
                   + frappe_db_count sheets (fun r => mine r && other_status r)).
  { rewrite (count_split sheets mine (st "Delivered")).
    rewrite (count_split sheets (fun r => mine r && negb (st "Delivered" r))
               (st "Processing")).
    rewrite (count_split sheets
               (fun r => mine r && negb (st "Delivered" r) && negb (st "Processing" r))
               (st "Cancelled")).
    rewrite (count_ext sheets
               (fun r => mine r && negb (st "Delivered" r) && st "Processing" r)
               (fun r => mine r && st "Processing" r)).
    2:{ intros r. unfold st. destruct (mine r); cbn; [| reflexivity].
        destruct (column_is "Processing" (status r)) eqn:Hp;
          [| now rewrite andb_false_r].
        now rewrite (column_is_exclusive "Processing" "Delivered" _ ltac:(discriminate) Hp). }
    rewrite (count_ext sheets
               (fun r => mine r && negb (st "Delivered" r) && negb (st "Processing" r)
                         && st "Cancelled" r)
               (fun r => mine r && st "Cancelled" r)).
    2:{ intros r. unfold st. destruct (mine r); cbn; [| reflexivity].
        destruct (column_is "Cancelled" (status r)) eqn:Hp;
          [| now rewrite andb_false_r].
        rewrite (column_is_exclusive "Cancelled" "Delivered" _ ltac:(discriminate) Hp).
        now rewrite (column_is_exclusive "Cancelled" "Processing" _ ltac:(discriminate) Hp). }
    rewrite (count_ext sheets
               (fun r => mine r && negb (st "Delivered" r) && negb (st "Processing" r)
                         && negb (st "Cancelled" r))
               (fun r => mine r && other_status r)).
    2:{ intros r. unfold st, other_status. now rewrite !andb_assoc. }
    lia. }
  split; [exact Hsum |].
  pose proof (count_nonneg sheets (fun r => mine r && st "Delivered" r)).
  pose proof (count_nonneg sheets (fun r => mine r && st "Processing" r)).
  pose proof (count_nonneg sheets (fun r => mine r && st "Cancelled" r)).
  pose proof (count_nonneg sheets (fun r => mine r && other_status r)).
  unfold mine, st in *. repeat split; try assumption. lia.
Qed.

(** X26.  The counters count the caller's sheets only: sheets of other
    users, or of no user, added to the table leave all four counts as they
    were. *)
Theorem counts_ignore_other_users (sheets others : list SheetColumns) (s : Site) :
  Forall (fun r => cs r <> Some (session_user s)) others ->
  get_user_total_css (sheets ++ others) s = get_user_total_css sheets s /\
  get_user_delivered_css (sheets ++ others) s = get_user_delivered_css sheets s /\
  get_user_processing_css (sheets ++ others) s = get_user_processing_css sheets s /\
  get_user_cancelled_css (sheets ++ others) s = get_user_cancelled_css sheets s.
Proof.
  intros Hothers.
  assert (Hnone : forall q : SheetColumns -> bool,
             List.filter (fun r => column_is (session_user s) (cs r) && q r) others = []).
  { intros q. induction others as [| r others IH]; [reflexivity |].
    inversion Hothers as [| ? ? Hr Ho]; subst. cbn.
    assert (column_is (session_user s) (cs r) = false) as ->.
    { destruct (cs r) as [u |]; cbn; [| reflexivity].
      apply String.eqb_neq. congruence. }
    cbn. auto. }
  assert (Hnone' : List.filter (fun r => column_is (session_user s) (cs r)) others = []).
  { rewrite <- (Hnone (fun _ => true)). apply filter_ext. intros r.
    now rewrite andb_true_r. }
  unfold get_user_total_css, get_user_delivered_css, get_user_processing_css,
    get_user_cancelled_css, frappe_db_count.
  unfold_monad. cbn.
  rewrite !List.filter_app, !Hnone, Hnone', !app_nil_r. auto.
Qed.

Lemma counts_ignore_other_users_witness :
  let others := [{| cs := Some "other@tk.example"; status := Some "Cancelled";
                    order_date := None |}] in
  get_user_total_css (sample_sheets ++ others) sample_site
  = get_user_total_css sample_sheets sample_site /\
  get_user_delivered_css (sample_sheets ++ others) sample_site
  = get_user_delivered_css sample_sheets sample_site /\
  get_user_processing_css (sample_sheets ++ others) sample_site
  = get_user_processing_css sample_sheets sample_site /\
  get_user_cancelled_css (sample_sheets ++ others) sample_site
  = get_user_cancelled_css sample_sheets sample_site.
Proof.
  apply (counts_ignore_other_users sample_sheets
           [{| cs := Some "other@tk.example"; status := Some "Cancelled";
               order_date := None |}] sample_site).
  constructor; [discriminate | constructor].
Defined.

Lemma count_ext_in (sheets : list SheetColumns) (p q : SheetColumns -> bool) :
  Forall (fun r => p r = q r) sheets ->
  frappe_db_count sheets p = frappe_db_count sheets q.
Proof.
  unfold frappe_db_count.
  induction 1 as [| r sheets Hr _ IH]; cbn; [reflexivity |].
  rewrite Hr. destruct (q r); cbn; lia.
Qed.

Lemma count_le (sheets : list SheetColumns) (p q : SheetColumns -> bool) :
  frappe_db_count sheets (fun r => p r && q r) <= frappe_db_count sheets p.
Proof.
  rewrite (count_split sheets p q).
  pose proof (count_nonneg sheets (fun r => p r && negb (q r))). lia.
Qed.

(** A valid date lies between the first and the last day of a month
    exactly when it is a day of that month. *)
Lemma between_month (date_today d : Date) :
  valid_date d ->
  between (replace_day 1 date_today)
          (replace_day (monthrange_days (year date_today) (month date_today)) date_today)
          (Some d)
  = in_month_of date_today (Some d).
Proof.
  intros [Hm Hd]. unfold between, in_month_of, date_leb, replace_day. cbn.
  destruct (Z.eqb_spec (year d) (year date_today)) as [Hy | Hy].
  - rewrite Hy, Z.eqb_refl, Z.ltb_irrefl. cbn.
    destruct (Z.eqb_spec (month d) (month date_today)) as [Hmo | Hmo].
    + rewrite Hmo, Z.eqb_refl, Z.ltb_irrefl. cbn.
      rewrite <- Hy, <- Hmo.
      apply andb_true_iff. split; apply Z.leb_le; lia.
    + destruct (Z.ltb_spec (month date_today) (month d)),
        (Z.ltb_spec (month d) (month date_today)),
        (Z.eqb_spec (month date_today) (month d)); cbn; try lia; reflexivity.
  - destruct (Z.ltb_spec (year date_today) (year d)),
      (Z.ltb_spec (year d) (year date_today)),
      (Z.eqb_spec (year date_today) (year d)); cbn; try lia; reflexivity.
Qed.

(** X27.  The monthly counter counts the caller's sheets whose order date
    falls in the calendar month of today, leap Februaries included: for
    valid dates, being between the first and the last day of the month is
    being a day of that year and month.  A sheet with no order date is not
    counted, and the count never exceeds the caller's total. *)
Theorem this_month_counts_calendar_month
  (date_today : Date) (sheets : list SheetColumns) (s : Site) :
  valid_date date_today ->
  Forall (fun r => forall d, order_date r = Some d -> valid_date d) sheets ->
  exists n total : Z,
    get_user_total_css_this_month date_today sheets s = (Return n, s) /\
    get_user_total_css sheets s = (Return total, s) /\
    n = frappe_db_count sheets
          (fun r => column_is (session_user s) (cs r)
                    && in_month_of date_today (order_date r)) /\
    0 <= n <= total.
Proof.
  intros _ Hvalid. do 2 eexists. do 2 (split; [reflexivity |]).
  split.
  - apply count_ext_in. eapply Forall_impl; [exact Hvalid |].
    intros r Hr. cbn in Hr |- *. f_equal.
    destruct (order_date r) as [d |] eqn:Hd; [| reflexivity].
    apply between_month, Hr. reflexivity.
  - split; [apply count_nonneg | apply count_le].
Qed.

Lemma this_month_counts_calendar_month_witness :
  exists n total : Z,
    get_user_total_css_this_month {| year := 2024; month := 2; day := 16 |}
      sample_sheets sample_site = (Return n, sample_site) /\
    get_user_total_css sample_sheets sample_site = (Return total, sample_site) /\
    n = frappe_db_count sample_sheets
          (fun r => column_is (session_user sample_site) (cs r)
                    && in_month_of {| year := 2024; month := 2; day := 16 |}
                         (order_date r)) /\
    0 <= n <= total.
Proof.
  apply (this_month_counts_calendar_month {| year := 2024; month := 2; day := 16 |}
           sample_sheets sample_site).
  - vm_compute. intuition discriminate.
  - repeat (constructor;
              [intros d Hd;
               first [discriminate Hd
                     | injection Hd as <-; vm_compute; intuition discriminate] |]).
    constructor.
Defined.

Example monthrange_days_leap :
  monthrange_days 2024 2 = 29 /\ monthrange_days 2023 2 = 28 /\
  monthrange_days 1900 2 = 28 /\ monthrange_days 2000 2 = 29 /\
  monthrange_days 2024 12 = 31.
Proof. repeat split. Qed.

Example this_month_sample :
  fst (get_user_total_css_this_month {| year := 2024; month := 2; day := 16 |}
         sample_sheets sample_site) = Return 2.
Proof. reflexivity. Qed.

End Dashboard.

Section ChartData.

Lemma chart_columns_from (results : list MarketerCount) : forall acc,
  fold_left (fun acc row => (fst acc ++ [marketer_label row], snd acc ++ [row_count row]))
            results acc
  = (fst acc ++ map marketer_label results, snd acc ++ map row_count results).
Proof.
  induction results as [| row results IH]; intros [ls vs]; cbn.
  - now rewrite !app_nil_r.
  - rewrite IH. cbn. now rewrite <- !app_assoc.
Qed.

Lemma marketer_label_not_empty (row : MarketerCount) : marketer_label row <> "".
Proof.
  unfold marketer_label. destruct (digital_marketer row) as [m |]; [| discriminate].
  cbn. destruct (String.eqb_spec m ""); cbn; [discriminate | assumption].
Qed.

(** X28.  The chart keeps labels and values aligned and never shows an
    empty label: it has one label and one value per row of the grouped
    query, in the rows' order, the i-th value being the count of the row
    the i-th label comes from; a row whose marketer is [NULL] or empty is
    labelled ["Not Set"], every other row by its marketer.  The chart has
    the single dataset ["Customer Service Sheets"] and type ["bar"], and the
    site is left as it was. *)
Theorem chart_data_aligned (sql : string -> list MarketerCount) (s : Site) :
  exists (chart : ChartData) (values : list Z),
    get_css_by_digital_marketer_chart_data sql s = (Return chart, s) /\
    chart_type chart = "bar" /\
    datasets (data chart)
    = [{| ds_name := "Customer Service Sheets"; ds_values := values |}] /\
    length (labels (data chart)) = length values /\
    combine (labels (data chart)) values
    = map (fun row => (if str_truthy (digital_marketer row)
                       then default "" (digital_marketer row) else "Not Set",
                       row_count row))
          (sql (session_user s)) /\
    Forall (fun label => label <> "") (labels (data chart)).
Proof.
  set (results := sql (session_user s)).
  exists {| data := {| labels := map marketer_label results;
                       datasets := [{| ds_name := "Customer Service Sheets";
                                       ds_values := map row_count results |}] |};
            chart_type := "bar" |}, (map row_count results).
  split.
  { unfold get_css_by_digital_marketer_chart_data, chart_columns.
    unfold_monad. cbn. fold results. now rewrite chart_columns_from. }
  cbn. repeat split.
  - now rewrite !length_map.
  - induction results as [| row results IH]; cbn; [reflexivity |].
    rewrite IH. f_equal. f_equal.
    unfold marketer_label. now destruct (digital_marketer row).
  - induction results as [| row results IH]; cbn; constructor;
      [apply marketer_label_not_empty | exact IH].
Qed.

Example chart_data_sample :
  fst (get_css_by_digital_marketer_chart_data sample_marketer_counts sample_site)
  = Return {| data := {| labels := ["Not Set"; "Not Set"; "Ada"];
                         datasets := [{| ds_name := "Customer Service Sheets";
                                         ds_values := [2; 1; 5] |}] |};
              chart_type := "bar" |}.
Proof. reflexivity. Qed.

End ChartData.

Section WarehouseStock.

Lemma stock_statement_cases (item : string) (state : option string) :
  stock_statement item state
  = if str_truthy state
    then (stock_select +:+ " AND wh.state = %s"
          +:+ " GROUP BY sle.warehouse HAVING qty > 0",
          [item; default "" state])
    else (stock_select +:+ " GROUP BY sle.warehouse HAVING qty > 0", [item]).
Proof.
  destruct state as [st |]; unfold stock_statement; [| reflexivity].
  destruct (str_truthy (Some st)); reflexivity.
Qed.

(** X29.  The item code and the state never enter the text of the stock
    query: they travel as parameters.  For every item and state the text
    has exactly as many [%s] placeholders as there are parameters and no
    other [%] character; the parameters are the item, followed by the state
    when it is non-empty; and the text depends on nothing but whether the
    state is non-empty, an empty state filtering no more than a missing
    one. *)
Theorem stock_statement_parameterised (item : string) (state : option string) :
  count_placeholders (fst (stock_statement item state))
  = length (snd (stock_statement item state)) /\
  count_percent (fst (stock_statement item state))
  = count_placeholders (fst (stock_statement item state)) /\
  snd (stock_statement item state)
  = item :: (if str_truthy state then [default "" state] else []) /\
  (forall item' state',
     str_truthy state' = str_truthy state ->
     fst (stock_statement item' state') = fst (stock_statement item state)) /\
  stock_statement item (Some "") = stock_statement item None.
Proof.
  pose proof stock_statement_cases as Hcases.
  repeat split.
  - rewrite Hcases. destruct (str_truthy state); vm_compute; reflexivity.
  - rewrite Hcases. destruct (str_truthy state); vm_compute; reflexivity.
  - rewrite Hcases. destruct (str_truthy state); reflexivity.
  - intros item' state' Heq. rewrite !Hcases, Heq.
    destruct (str_truthy state); reflexivity.
Qed.

Lemma stock_info_from (sql : string -> list string -> list StockRow)
  (state : option string) (items : list string) :
  forall (acc : gmap string (list StockRow)) (item : string),
  fold_left (fun (stock_info : gmap string (list StockRow)) item =>
               let '(query, params) := stock_statement item state in
               <[item := sql query params]> stock_info)
            items acc !! item
  = if bool_decide (item ∈ items)
    then Some (sql (fst (stock_statement item state)) (snd (stock_statement item state)))
    else acc !! item.
Proof.
  induction items as [| i items IH]; intros acc item; cbn [fold_left].
  - rewrite bool_decide_eq_false_2; [reflexivity | apply not_elem_of_nil].
  - rewrite IH. destruct (stock_statement i state) as [query params] eqn:Hst.
    destruct (bool_decide (item ∈ items)) eqn:Hin.
    + apply bool_decide_eq_true_1 in Hin.
      rewrite bool_decide_eq_true_2; [reflexivity | apply elem_of_cons; now right].
    + apply bool_decide_eq_false_1 in Hin.
      destruct (decide (i = item)) as [-> | Hne].
      * rewrite bool_decide_eq_true_2 by (apply elem_of_cons; now left).
        rewrite lookup_insert_eq, Hst. reflexivity.
      * rewrite bool_decide_eq_false_2
          by (rewrite elem_of_cons; intros [? | ?]; congruence).
        now rewrite lookup_insert_ne.
Qed.

(** X30.  The stock dictionary has one entry per distinct item asked for
    and no other: each item of the list is mapped to the rows the store
    returns for that item's own statement (the same state filter for every
    item), an item listed twice has one entry, and an empty list gives an
    empty dictionary.  The site is left as it was. *)
Theorem get_item_warehouse_stock_entries
  (sql : string -> list string -> list StockRow) (items : list string)
  (state : option string) (s : Site) :
  exists stock_info : gmap string (list StockRow),
    get_item_warehouse_stock sql items state s = (Return stock_info, s) /\
    (forall item,
       In item items ->
       stock_info !! item
       = Some (sql (fst (stock_statement item state))
                   (item :: (if str_truthy state then [default "" state] else [])))) /\
    (forall item, ~ In item items -> stock_info !! item = None) /\
    dom stock_info = list_to_set items.
Proof.
  eexists. split; [reflexivity |].
  split; [| split].
  - intros item Hin%list_elem_of_In. rewrite stock_info_from.
    rewrite bool_decide_eq_true_2 by assumption.
    rewrite stock_statement_cases. now destruct (str_truthy state).
  - intros item Hin. rewrite stock_info_from.
    rewrite bool_decide_eq_false_2; [apply lookup_empty |].
    now rewrite list_elem_of_In.
  - apply set_eq. intros item.
    rewrite elem_of_dom, elem_of_list_to_set, stock_info_from.
    destruct (bool_decide (item ∈ items)) eqn:Hin.
    + apply bool_decide_eq_true_1 in Hin. split; [intros _; exact Hin | eauto].
    + apply bool_decide_eq_false_1 in Hin. rewrite lookup_empty.
      split; [intros [? ?]; discriminate | tauto].
Qed.

End WarehouseStock.
